(** * PhishAware backend: risk scoring, simulation tracking and remediation

    A shallow embedding of the scoring and tracking core of the Django
    backend (apps/training, apps/simulations, apps/campaigns) and the
    properties of it that the specification states.

    Conventions of the embedding:
    - a database table is the list of its rows; a row carries its primary
      key; [objects.create] appends a row with a fresh key, [save] rewrites
      the row with the same key, an [F('x') + 1] assignment followed by
      [save] is an in-place update of the stored row;
    - a Python model instance is a record value that is passed to and
      returned from the functions that mutate it, so that an instance shared
      by several callers (the campaign of a tracking event) is threaded
      through all of them;
    - [timezone.now()] is an argument [now];
    - Python floats are IEEE binary64 numbers ([SpecFloat] with precision 53
      and maximal exponent 1024), integers are [Z]. *)

From Stdlib Require Import ZArith List Bool Lia String QArith Qround SpecFloat.
Import ListNotations.
Local Open Scope Z_scope.

(** ** Python floats *)

Module PyFloat.

Definition prec : Z := 53.
Definition emax : Z := 1024.

Definition float : Type := spec_float.

(** [float(n)] for an integer. *)
Definition of_int (n : Z) : float := binary_normalize prec emax n 0 false.

(** The literal [0.5]. *)
Definition half : float := binary_normalize prec emax 1 (-1) false.

(** [a / b] on two integers: the correctly rounded quotient.  Python
    raises [ZeroDivisionError] for [b = 0]; every use below is guarded by
    a test of the divisor. *)
Definition truediv (a b : Z) : float := SFdiv prec emax (of_int a) (of_int b).

Definition sub (x y : float) : float := SFsub prec emax x y.
Definition mul (x y : float) : float := SFmul prec emax x y.

(** [x * n] with an integer literal [n]. *)
Definition mul_int (x : float) (n : Z) : float := mul x (of_int n).

(** [int(x)]: truncation toward zero; [ValueError] and [OverflowError]
    on NaN and the infinities. *)
Definition int (x : float) : option Z :=
  match x with
  | S754_zero _ => Some 0
  | S754_finite s m e => Some (cond_Zopp s (Z.shiftl (Zpos m) e))
  | S754_infinity _ | S754_nan => None
  end.

(** [math.floor(x)]: rounding toward minus infinity. *)
Definition floor (x : float) : option Z :=
  match x with
  | S754_zero _ => Some 0
  | S754_finite s m e => Some (Z.shiftl (cond_Zopp s (Zpos m)) e)
  | S754_infinity _ | S754_nan => None
  end.

(** [x >= n] and [x > n] against an integer literal. *)
Definition ge_int (x : float) (n : Z) : bool := SFleb (of_int n) x.

(** Largest value of a [PositiveIntegerField]. *)
Definition max_counter : Z := 2147483647.

End PyFloat.

(** ** apps/training/models.py: RiskScore *)

Inductive RiskLevel : Type := LOW | MEDIUM | HIGH | CRITICAL.

Definition RiskLevel_eqb (a b : RiskLevel) : bool :=
  match a, b with
  | LOW, LOW | MEDIUM, MEDIUM | HIGH, HIGH | CRITICAL, CRITICAL => true
  | _, _ => false
  end.

Module RiskScore.

Record t : Type := mk {
  id : Z;
  employee : Z;
  company : Z;
  score : Z;
  risk_level : RiskLevel;
  total_quizzes_taken : Z;
  total_quiz_questions : Z;
  correct_quiz_answers : Z;
  phishing_emails_missed : Z;
  total_simulations_received : Z;
  simulations_opened : Z;
  simulations_clicked : Z;
  simulations_reported : Z;
  credentials_entered : Z;
  trainings_assigned : Z;
  trainings_completed : Z;
  trainings_passed : Z;
  requires_remediation : bool;
  last_quiz_date : option Z;
  last_simulation_date : option Z
}.

(** Assignment of the three derived fields. *)
Definition set_score (self : t) (s : Z) (l : RiskLevel) (r : bool) : t :=
  mk (id self) (employee self) (company self) s l
     (total_quizzes_taken self) (total_quiz_questions self)
     (correct_quiz_answers self) (phishing_emails_missed self)
     (total_simulations_received self) (simulations_opened self)
     (simulations_clicked self) (simulations_reported self)
     (credentials_entered self) (trainings_assigned self)
     (trainings_completed self) (trainings_passed self) r
     (last_quiz_date self) (last_simulation_date self).

(** The quiz counters, each increased by the given amount. *)
Definition add_quiz (self : t) (quizzes questions correct missed : Z)
    (now : Z) : t :=
  mk (id self) (employee self) (company self) (score self) (risk_level self)
     (total_quizzes_taken self + quizzes) (total_quiz_questions self + questions)
     (correct_quiz_answers self + correct) (phishing_emails_missed self + missed)
     (total_simulations_received self) (simulations_opened self)
     (simulations_clicked self) (simulations_reported self)
     (credentials_entered self) (trainings_assigned self)
     (trainings_completed self) (trainings_passed self)
     (requires_remediation self) (Some now) (last_simulation_date self).

(** The simulation counters, each increased by the given amount. *)
Definition add_simulation (self : t)
    (received opened clicked reported credentials : Z) (d : option Z) : t :=
  mk (id self) (employee self) (company self) (score self) (risk_level self)
     (total_quizzes_taken self) (total_quiz_questions self)
     (correct_quiz_answers self) (phishing_emails_missed self)
     (total_simulations_received self + received) (simulations_opened self + opened)
     (simulations_clicked self + clicked) (simulations_reported self + reported)
     (credentials_entered self + credentials) (trainings_assigned self)
     (trainings_completed self) (trainings_passed self)
     (requires_remediation self) (last_quiz_date self) d.

Definition add_trainings_assigned (self : t) (n : Z) : t :=
  mk (id self) (employee self) (company self) (score self) (risk_level self)
     (total_quizzes_taken self) (total_quiz_questions self)
     (correct_quiz_answers self) (phishing_emails_missed self)
     (total_simulations_received self) (simulations_opened self)
     (simulations_clicked self) (simulations_reported self)
     (credentials_entered self) (trainings_assigned self + n)
     (trainings_completed self) (trainings_passed self)
     (requires_remediation self) (last_quiz_date self)
     (last_simulation_date self).

(** The row that [get_or_create] inserts: the given defaults, every other
    field at its model default. *)
Definition default (pk employee company : Z) : t :=
  mk pk employee company 50 MEDIUM 0 0 0 0 0 0 0 0 0 0 0 0 false None None.

Definition level_of_score (s : Z) : RiskLevel :=
  if s <=? 30 then LOW
  else if s <=? 60 then MEDIUM
  else if s <=? 80 then HIGH
  else CRITICAL.

Definition calculate_risk_level (self : t) : RiskLevel :=
  level_of_score (score self).

Definition quiz_value (self : t) : PyFloat.float :=
  PyFloat.mul_int
    (PyFloat.sub PyFloat.half
       (PyFloat.truediv (correct_quiz_answers self) (total_quiz_questions self)))
    40.

Definition simulation_value (self : t) : PyFloat.float :=
  PyFloat.mul_int
    (PyFloat.truediv (simulations_clicked self) (total_simulations_received self))
    30.

(** [recalculate_score]: the returned score and the mutated instance, or
    [None] when one of the two [int(...)] conversions raises. *)
Definition recalculate_score (self : t) : option (Z * t) :=
  let base_score := 50 in
  match (if total_quiz_questions self >? 0
         then PyFloat.int (quiz_value self) else Some 0) with
  | None => None
  | Some quiz_adjustment =>
    let phishing_penalty := Z.min (phishing_emails_missed self * 5) 25 in
    match (if total_simulations_received self >? 0
           then PyFloat.int (simulation_value self) else Some 0) with
    | None => None
    | Some simulation_adjustment =>
      let credential_penalty := Z.min (credentials_entered self * 15) 20 in
      let report_bonus := Z.min (simulations_reported self * 5) 15 in
      let training_bonus := Z.min (trainings_passed self * 10) 25 in
      let new_score :=
        base_score + quiz_adjustment + phishing_penalty
        + simulation_adjustment + credential_penalty
        - report_bonus - training_bonus in
      let s := Z.max 0 (Z.min 100 new_score) in
      Some (s, set_score self s (level_of_score s) (s >? 70))
    end
  end.

(** The part of [save] that runs before the row is written. *)
Definition pre_save (self : t) : t :=
  set_score self (score self) (calculate_risk_level self) (score self >? 70).

End RiskScore.

(** The scoring formula in the words of the specification, over exact
    rationals: [floor] of both ratios. *)
Module SpecScore.

Definition accuracy (r : RiskScore.t) : Q :=
  if RiskScore.total_quiz_questions r =? 0 then 0%Q
  else (inject_Z (RiskScore.correct_quiz_answers r)
        / inject_Z (RiskScore.total_quiz_questions r))%Q.

Definition click_rate (r : RiskScore.t) : Q :=
  if RiskScore.total_simulations_received r =? 0 then 0%Q
  else (inject_Z (RiskScore.simulations_clicked r)
        / inject_Z (RiskScore.total_simulations_received r))%Q.

Definition quiz_adj (r : RiskScore.t) : Z :=
  if RiskScore.total_quiz_questions r =? 0 then 0
  else Qfloor (((1 # 2) - accuracy r) * 40)%Q.

Definition sim_adj (r : RiskScore.t) : Z := Qfloor (click_rate r * 30)%Q.

Definition clamp (x lo hi : Z) : Z := Z.max lo (Z.min hi x).

Definition raw (quiz_adj sim_adj : Z) (r : RiskScore.t) : Z :=
  50 + quiz_adj
  + Z.min (RiskScore.phishing_emails_missed r * 5) 25
  + sim_adj
  + Z.min (RiskScore.credentials_entered r * 15) 20
  - Z.min (RiskScore.simulations_reported r * 5) 15
  - Z.min (RiskScore.trainings_passed r * 10) 25.

Definition score (r : RiskScore.t) : Z :=
  clamp (raw (quiz_adj r) (sim_adj r) r) 0 100.

Definition band (s : Z) (l : RiskLevel) : Prop :=
  match l with
  | LOW => s <= 30
  | MEDIUM => 30 < s <= 60
  | HIGH => 60 < s <= 80
  | CRITICAL => 80 < s
  end.

End SpecScore.

(** ** Tables *)

Module Table.
Section Rows.
Context {A : Type} (pk : A -> Z).

(** The key of the next inserted row. *)
Definition next_id (rows : list A) : Z :=
  1 + fold_right Z.max 0 (map pk rows).

Definition get (k : Z) (rows : list A) : option A :=
  find (fun r => pk r =? k) rows.

(** An UPDATE of the row with key [k]. *)
Definition update (k : Z) (f : A -> A) (rows : list A) : list A :=
  map (fun r => if pk r =? k then f r else r) rows.

(** [Model.save]: UPDATE when the key is stored, INSERT otherwise. *)
Definition save (row : A) (rows : list A) : list A :=
  if existsb (fun r => pk r =? pk row) rows
  then update (pk row) (fun _ => row) rows
  else rows ++ [row].
End Rows.

(** [queryset.count()] of the rows that pass a filter. *)
Definition count {A : Type} (p : A -> bool) (rows : list A) : Z :=
  Z.of_nat (List.length (filter p rows)).
End Table.

(** ** apps/accounts/models.py: User *)

Module User.
Inductive Role : Type := SUPER_ADMIN | COMPANY_ADMIN | EMPLOYEE | PUBLIC_USER.

Definition is_employee (r : Role) : bool :=
  match r with EMPLOYEE => true | _ => false end.

Record t : Type := mk {
  id : Z;
  role : Role;
  company : option Z;
  is_active : bool
}.
End User.

(** ** apps/simulations/models.py *)

Module SimulationCampaign.
Inductive Status : Type :=
  DRAFT | SCHEDULED | IN_PROGRESS | COMPLETED | PAUSED | CANCELLED.

Record t : Type := mk {
  id : Z;
  company : Z;
  attack_vector : string;        (* template.attack_vector *)
  status : Status;
  send_date : option Z;
  target_all_employees : bool;
  target_employees : list Z;
  track_email_opens : bool;
  track_link_clicks : bool;
  track_credentials : bool;
  total_sent : Z;
  total_opened : Z;
  total_clicked : Z;
  total_reported : Z;
  total_credentials_entered : Z;
  sent_at : option Z
}.

Definition set_status (c : t) (s : Status) : t :=
  mk (id c) (company c) (attack_vector c) s (send_date c)
     (target_all_employees c) (target_employees c) (track_email_opens c)
     (track_link_clicks c) (track_credentials c) (total_sent c)
     (total_opened c) (total_clicked c) (total_reported c)
     (total_credentials_entered c) (sent_at c).

Definition set_sent_at (c : t) (d : option Z) : t :=
  mk (id c) (company c) (attack_vector c) (status c) (send_date c)
     (target_all_employees c) (target_employees c) (track_email_opens c)
     (track_link_clicks c) (track_credentials c) (total_sent c)
     (total_opened c) (total_clicked c) (total_reported c)
     (total_credentials_entered c) d.

Definition set_total_sent (c : t) (n : Z) : t :=
  mk (id c) (company c) (attack_vector c) (status c) (send_date c)
     (target_all_employees c) (target_employees c) (track_email_opens c)
     (track_link_clicks c) (track_credentials c) n
     (total_opened c) (total_clicked c) (total_reported c)
     (total_credentials_entered c) (sent_at c).

Definition set_total_opened (c : t) (n : Z) : t :=
  mk (id c) (company c) (attack_vector c) (status c) (send_date c)
     (target_all_employees c) (target_employees c) (track_email_opens c)
     (track_link_clicks c) (track_credentials c) (total_sent c)
     n (total_clicked c) (total_reported c)
     (total_credentials_entered c) (sent_at c).

Definition set_total_clicked (c : t) (n : Z) : t :=
  mk (id c) (company c) (attack_vector c) (status c) (send_date c)
     (target_all_employees c) (target_employees c) (track_email_opens c)
     (track_link_clicks c) (track_credentials c) (total_sent c)
     (total_opened c) n (total_reported c)
     (total_credentials_entered c) (sent_at c).

Definition set_total_reported (c : t) (n : Z) : t :=
  mk (id c) (company c) (attack_vector c) (status c) (send_date c)
     (target_all_employees c) (target_employees c) (track_email_opens c)
     (track_link_clicks c) (track_credentials c) (total_sent c)
     (total_opened c) (total_clicked c) n
     (total_credentials_entered c) (sent_at c).

Definition set_total_credentials_entered (c : t) (n : Z) : t :=
  mk (id c) (company c) (attack_vector c) (status c) (send_date c)
     (target_all_employees c) (target_employees c) (track_email_opens c)
     (track_link_clicks c) (track_credentials c) (total_sent c)
     (total_opened c) (total_clicked c) (total_reported c)
     n (sent_at c).

(** [status in ['IN_PROGRESS', 'SCHEDULED']]. *)
Definition trackable (s : Status) : bool :=
  match s with IN_PROGRESS | SCHEDULED => true | _ => false end.

(** [status in ('DRAFT', 'SCHEDULED')]. *)
Definition draft_or_scheduled (s : Status) : bool :=
  match s with DRAFT | SCHEDULED => true | _ => false end.
End SimulationCampaign.

Module EmailSimulation.
Inductive Status : Type := PENDING | SENT | DELIVERED | BOUNCED | FAILED.

Definition is_pending (s : Status) : bool :=
  match s with PENDING => true | _ => false end.
Definition is_sent (s : Status) : bool :=
  match s with SENT => true | _ => false end.
(** [status in ['PENDING', 'FAILED']]. *)
Definition pending_or_failed (s : Status) : bool :=
  match s with PENDING | FAILED => true | _ => false end.

Record t : Type := mk {
  id : Z;
  campaign : Z;
  employee : Z;
  tracking_token : string;
  link_token : string;
  status : Status;
  was_opened : bool;
  was_clicked : bool;
  was_reported : bool;
  credentials_entered : bool;
  sent_at : option Z;
  first_opened_at : option Z;
  clicked_at : option Z;
  reported_at : option Z;
  credentials_entered_at : option Z;
  ip_address : option string;
  user_agent : string
}.

Definition set_sent (s : t) (st : Status) (d : option Z) : t :=
  mk (id s) (campaign s) (employee s) (tracking_token s) (link_token s) st
     (was_opened s) (was_clicked s) (was_reported s) (credentials_entered s)
     d (first_opened_at s) (clicked_at s) (reported_at s)
     (credentials_entered_at s) (ip_address s) (user_agent s).

Definition set_opened (s : t) (d : option Z) : t :=
  mk (id s) (campaign s) (employee s) (tracking_token s) (link_token s)
     (status s) true (was_clicked s) (was_reported s) (credentials_entered s)
     (sent_at s) d (clicked_at s) (reported_at s)
     (credentials_entered_at s) (ip_address s) (user_agent s).

Definition set_clicked (s : t) (d : option Z) (ip : option string)
    (ua : string) : t :=
  mk (id s) (campaign s) (employee s) (tracking_token s) (link_token s)
     (status s) (was_opened s) true (was_reported s) (credentials_entered s)
     (sent_at s) (first_opened_at s) d (reported_at s)
     (credentials_entered_at s) ip ua.

Definition set_credentials (s : t) (d : option Z) : t :=
  mk (id s) (campaign s) (employee s) (tracking_token s) (link_token s)
     (status s) (was_opened s) (was_clicked s) (was_reported s) true
     (sent_at s) (first_opened_at s) (clicked_at s) (reported_at s)
     d (ip_address s) (user_agent s).

Definition set_reported (s : t) (d : option Z) : t :=
  mk (id s) (campaign s) (employee s) (tracking_token s) (link_token s)
     (status s) (was_opened s) (was_clicked s) true (credentials_entered s)
     (sent_at s) (first_opened_at s) (clicked_at s) d
     (credentials_entered_at s) (ip_address s) (user_agent s).

(** A row as [objects.create(campaign, employee, status='PENDING')] makes
    it; the two tokens are drawn at random by the caller. *)
Definition create (pk campaign employee : Z) (tokens : string * string) : t :=
  mk pk campaign employee (fst tokens) (snd tokens) PENDING
     false false false false None None None None None None EmptyString.

Definition is_compromised (s : t) : bool := was_clicked s || credentials_entered s.
End EmailSimulation.

(** A JSON value as the views store them in [event_data] and read them from
    [request.data]. *)
Inductive Value : Type :=
| VNone
| VBool (b : bool)
| VInt (n : Z)
| VStr (s : string).

(** Python [bool(v)]. *)
Definition truthy (v : Value) : bool :=
  match v with
  | VNone => false
  | VBool b => b
  | VInt n => negb (n =? 0)
  | VStr s => negb (String.eqb s EmptyString)
  end.

(** [d.get(key)] on a dictionary, [None] when the key is absent. *)
Fixpoint dict_get (key : string) (d : list (string * Value)) : Value :=
  match d with
  | [] => VNone
  | (k, v) :: rest => if String.eqb k key then v else dict_get key rest
  end.

Module TrackingEvent.
Inductive EventType : Type :=
| EMAIL_SENT | EMAIL_DELIVERED | EMAIL_BOUNCED | EMAIL_OPENED
| LINK_CLICKED | CREDENTIALS_ENTERED | EMAIL_REPORTED | LANDING_PAGE_VIEWED.

Definition EventType_eqb (a b : EventType) : bool :=
  match a, b with
  | EMAIL_SENT, EMAIL_SENT | EMAIL_DELIVERED, EMAIL_DELIVERED
  | EMAIL_BOUNCED, EMAIL_BOUNCED | EMAIL_OPENED, EMAIL_OPENED
  | LINK_CLICKED, LINK_CLICKED | CREDENTIALS_ENTERED, CREDENTIALS_ENTERED
  | EMAIL_REPORTED, EMAIL_REPORTED
  | LANDING_PAGE_VIEWED, LANDING_PAGE_VIEWED => true
  | _, _ => false
  end.

(** Membership in
    [['EMAIL_OPENED', 'LINK_CLICKED', 'CREDENTIALS_ENTERED', 'EMAIL_REPORTED']]. *)
Definition relevant (e : EventType) : bool :=
  match e with
  | EMAIL_OPENED | LINK_CLICKED | CREDENTIALS_ENTERED | EMAIL_REPORTED => true
  | _ => false
  end.

(** The stored string of an event type. *)
Definition name (e : EventType) : string :=
  match e with
  | EMAIL_SENT => "EMAIL_SENT"
  | EMAIL_DELIVERED => "EMAIL_DELIVERED"
  | EMAIL_BOUNCED => "EMAIL_BOUNCED"
  | EMAIL_OPENED => "EMAIL_OPENED"
  | LINK_CLICKED => "LINK_CLICKED"
  | CREDENTIALS_ENTERED => "CREDENTIALS_ENTERED"
  | EMAIL_REPORTED => "EMAIL_REPORTED"
  | LANDING_PAGE_VIEWED => "LANDING_PAGE_VIEWED"
  end.

Record t : Type := mk {
  id : Z;
  email_simulation : Z;
  campaign : Z;
  employee : Z;
  event_type : EventType;
  event_data : list (string * Value);
  ip_address : option string;
  user_agent : string;
  created_at : Z
}.
End TrackingEvent.

(** ** apps/training/models.py: history, modules, assignments *)

Module RiskScoreHistory.
Record t : Type := mk {
  id : Z;
  risk_score : Z;
  employee : Z;
  event_type : string;
  previous_score : Z;
  new_score : Z;
  score_change : Z;
  previous_risk_level : RiskLevel;
  new_risk_level : RiskLevel;
  source_type : string;
  source_id : option Z
}.

(** [save]: the change is computed from the two scores, whatever the
    caller passed. *)
Definition save (self : t) (rows : list t) : list t :=
  Table.save id
    (mk (id self) (risk_score self) (employee self) (event_type self)
        (previous_score self) (new_score self)
        (new_score self - previous_score self)
        (previous_risk_level self) (new_risk_level self)
        (source_type self) (source_id self))
    rows.
End RiskScoreHistory.

Module TrainingModule.
Record t : Type := mk {
  id : Z;
  category : string;
  is_active : bool;
  is_mandatory : bool;
  company : option Z;
  times_assigned : Z
}.

Definition add_times_assigned (m : t) (n : Z) : t :=
  mk (id m) (category m) (is_active m) (is_mandatory m) (company m)
     (times_assigned m + n).
End TrainingModule.

Module RemediationTraining.
Inductive Status : Type :=
  ASSIGNED | IN_PROGRESS | COMPLETED | PASSED | FAILED | EXPIRED.

(** [status in ['ASSIGNED', 'IN_PROGRESS']]. *)
Definition is_open (s : Status) : bool :=
  match s with ASSIGNED | IN_PROGRESS => true | _ => false end.

Record t : Type := mk {
  id : Z;
  employee : Z;
  company : Z;
  training_module : Z;
  status : Status;
  assignment_reason : string;
  due_date : option Z;
  source_type : string;
  source_id : option Z
}.
End RemediationTraining.

(** ** apps/campaigns/models.py: QuizResult *)

Module QuizResult.
Record t : Type := mk {
  id : Z;
  employee : Z;
  total_questions : Z;
  correct_answers : Z;
  incorrect_answers : Z;
  score : PyFloat.float;
  phishing_emails_identified : Z;
  phishing_emails_missed : Z;
  false_positives : Z;
  time_taken_seconds : Z;
  risk_level : RiskLevel
}.

(** The [passed] property. *)
Definition passed (self : t) : bool := PyFloat.ge_int (score self) 70.

(** The [accuracy] and [phishing_detection_rate] properties; the integer
    [0] of the guarded branch is the float zero here. *)
Definition accuracy (self : t) : PyFloat.float :=
  if total_questions self =? 0 then PyFloat.of_int 0
  else PyFloat.mul_int (PyFloat.truediv (correct_answers self) (total_questions self)) 100.

Definition phishing_detection_rate (self : t) : PyFloat.float :=
  let total_phishing := phishing_emails_identified self + phishing_emails_missed self in
  if total_phishing =? 0 then PyFloat.of_int 0
  else PyFloat.mul_int (PyFloat.truediv (phishing_emails_identified self) total_phishing) 100.
End QuizResult.

(** ** The store *)

Record DB : Type := mkDB {
  users : list User.t;
  campaigns : list SimulationCampaign.t;
  email_simulations : list EmailSimulation.t;
  tracking_events : list TrackingEvent.t;
  risk_scores : list RiskScore.t;
  risk_score_history : list RiskScoreHistory.t;
  training_modules : list TrainingModule.t;
  remediation_trainings : list RemediationTraining.t
}.

Definition set_campaigns (db : DB) (x : list SimulationCampaign.t) : DB :=
  mkDB (users db) x (email_simulations db) (tracking_events db)
       (risk_scores db) (risk_score_history db) (training_modules db)
       (remediation_trainings db).

Definition set_email_simulations (db : DB) (x : list EmailSimulation.t) : DB :=
  mkDB (users db) (campaigns db) x (tracking_events db)
       (risk_scores db) (risk_score_history db) (training_modules db)
       (remediation_trainings db).

Definition set_tracking_events (db : DB) (x : list TrackingEvent.t) : DB :=
  mkDB (users db) (campaigns db) (email_simulations db) x
       (risk_scores db) (risk_score_history db) (training_modules db)
       (remediation_trainings db).

Definition set_risk_scores (db : DB) (x : list RiskScore.t) : DB :=
  mkDB (users db) (campaigns db) (email_simulations db) (tracking_events db)
       x (risk_score_history db) (training_modules db)
       (remediation_trainings db).

Definition set_risk_score_history (db : DB) (x : list RiskScoreHistory.t) : DB :=
  mkDB (users db) (campaigns db) (email_simulations db) (tracking_events db)
       (risk_scores db) x (training_modules db) (remediation_trainings db).

Definition set_training_modules (db : DB) (x : list TrainingModule.t) : DB :=
  mkDB (users db) (campaigns db) (email_simulations db) (tracking_events db)
       (risk_scores db) (risk_score_history db) x (remediation_trainings db).

Definition set_remediation_trainings (db : DB) (x : list RemediationTraining.t) : DB :=
  mkDB (users db) (campaigns db) (email_simulations db) (tracking_events db)
       (risk_scores db) (risk_score_history db) (training_modules db) x.

(** [timedelta(days=7)] in seconds. *)
Definition seven_days : Z := 604800.

(** ** apps/training/signals.py *)

Module signals.

(** [get_or_create_risk_score]: the store after the call and the
    instance, [None] for a missing employee or one without a company.
    The insert runs [RiskScore.save]; the saved score is 50, so the
    [post_save] handler below does nothing for it. *)
Definition get_or_create_risk_score (db : DB) (employee : option User.t)
    : DB * option RiskScore.t :=
  match employee with
  | None => (db, None)
  | Some u =>
    match User.company u with
    | None => (db, None)
    | Some c =>
      match find (fun r => RiskScore.employee r =? User.id u) (risk_scores db) with
      | Some r => (db, Some r)
      | None =>
        let r := RiskScore.pre_save
                   (RiskScore.default (Table.next_id RiskScore.id (risk_scores db))
                      (User.id u) c) in
        (set_risk_scores db (risk_scores db ++ [r]), Some r)
      end
    end
  end.

Definition create_risk_history (db : DB) (risk_score : RiskScore.t)
    (event_type : string) (old_score new_score : Z) (old_level : RiskLevel)
    (source_type : string) (source_id : option Z) : DB :=
  set_risk_score_history db
    (RiskScoreHistory.save
       (RiskScoreHistory.mk
          (Table.next_id RiskScoreHistory.id (risk_score_history db))
          (RiskScore.id risk_score) (RiskScore.employee risk_score)
          event_type old_score new_score 0 old_level
          (RiskScore.risk_level risk_score) source_type source_id)
       (risk_score_history db)).

(** The two filtered querysets joined with [|], in the order of the
    table. *)
Definition mandatory_modules (db : DB) (risk_score : RiskScore.t)
    : list TrainingModule.t :=
  filter
    (fun m =>
       (TrainingModule.is_active m && TrainingModule.is_mandatory m
        && match TrainingModule.company m with None => true | Some _ => false end)
       || (TrainingModule.is_active m && TrainingModule.is_mandatory m
           && match TrainingModule.company m with
              | Some c => c =? RiskScore.company risk_score
              | None => false
              end))
    (training_modules db).

(** [RemediationTraining.objects.filter(employee=..., training_module=...,
    status__in=['ASSIGNED', 'IN_PROGRESS']).exists()]. *)
Definition open_assignment_exists (db : DB) (employee module : Z) : bool :=
  existsb
    (fun a =>
       (RemediationTraining.employee a =? employee)
       && (RemediationTraining.training_module a =? module)
       && RemediationTraining.is_open (RemediationTraining.status a))
    (remediation_trainings db).

Definition create_assignment (db : DB) (employee company module : Z)
    (reason : string) (due : Z) (source_type : string) (source_id : Z) : DB :=
  set_remediation_trainings db
    (remediation_trainings db
     ++ [RemediationTraining.mk
           (Table.next_id RemediationTraining.id (remediation_trainings db))
           employee company module RemediationTraining.ASSIGNED reason
           (Some due) source_type (Some source_id)]).

(** [module.times_assigned = F('times_assigned') + 1] and the save of that
    one column. *)
Definition bump_times_assigned (db : DB) (module : Z) : DB :=
  set_training_modules db
    (Table.update TrainingModule.id module
       (fun m => TrainingModule.add_times_assigned m 1) (training_modules db)).

(** [risk_score.trainings_assigned = F('trainings_assigned') + 1] and the
    save of that one column. *)
Definition bump_trainings_assigned (db : DB) (risk_score : Z) : DB :=
  set_risk_scores db
    (Table.update RiskScore.id risk_score
       (fun r => RiskScore.add_trainings_assigned r 1) (risk_scores db)).

Section AutoAssign.
(** The [post_save] receivers of [RiskScore], run by every
    [risk_score.save]. *)
Variable post_save : DB -> RiskScore.t -> DB.
Variable now : Z.

(** The body of [for module in mandatory_modules]. *)
Fixpoint assign_modules (db : DB) (risk_score : RiskScore.t)
    (modules : list TrainingModule.t) : DB :=
  match modules with
  | [] => db
  | module :: rest =>
    if open_assignment_exists db (RiskScore.employee risk_score)
         (TrainingModule.id module)
    then assign_modules db risk_score rest
    else
      let db := create_assignment db (RiskScore.employee risk_score)
                  (RiskScore.company risk_score) (TrainingModule.id module)
                  "AUTO_HIGH_RISK" (now + seven_days) "RiskScore"
                  (RiskScore.id risk_score) in
      let db := bump_times_assigned db (TrainingModule.id module) in
      let risk_score := RiskScore.pre_save risk_score in
      let db := bump_trainings_assigned db (RiskScore.id risk_score) in
      let db := post_save db risk_score in
      assign_modules db risk_score rest
  end.

Definition auto_assign_remediation_with (db : DB) (risk_score : RiskScore.t) : DB :=
  if RiskScore.score risk_score <=? 70 then db
  else assign_modules db risk_score (mandatory_modules db risk_score).
End AutoAssign.

(** [check_remediation_on_score_change] on an instance that carries
    [_from_signal]: it returns at once. *)
Definition check_remediation_from_signal (db : DB) (instance : RiskScore.t) : DB := db.

(** [check_remediation_on_score_change] on an instance without the
    attribute: the pass below runs with the attribute set, so the saves
    inside it reach [check_remediation_from_signal]. *)
Definition check_remediation_on_score_change (now : Z) (db : DB)
    (instance : RiskScore.t) : DB :=
  if (RiskScore.score instance >? 70) && RiskScore.requires_remediation instance
  then auto_assign_remediation_with check_remediation_from_signal now db instance
  else db.

(** [auto_assign_remediation] called on an instance without the
    attribute, as the two aggregators call it. *)
Definition auto_assign_remediation (now : Z) (db : DB) (risk_score : RiskScore.t) : DB :=
  auto_assign_remediation_with (check_remediation_on_score_change now) now db risk_score.

(** [risk_score.save()] of all columns, followed by its receivers. *)
Definition save_risk_score (now : Z) (db : DB) (risk_score : RiskScore.t)
    : DB * RiskScore.t :=
  let risk_score := RiskScore.pre_save risk_score in
  let db := set_risk_scores db (Table.save RiskScore.id risk_score (risk_scores db)) in
  (check_remediation_on_score_change now db risk_score, risk_score).

(** [risk_score.refresh_from_db()]. *)
Definition refresh_from_db (db : DB) (risk_score : RiskScore.t) : RiskScore.t :=
  match Table.get RiskScore.id (RiskScore.id risk_score) (risk_scores db) with
  | Some r => r
  | None => risk_score
  end.

Definition history_event_map (e : TrackingEvent.EventType) : option string :=
  match e with
  | TrackingEvent.EMAIL_OPENED => Some "SIMULATION_OPENED"%string
  | TrackingEvent.LINK_CLICKED => Some "SIMULATION_CLICKED"%string
  | TrackingEvent.CREDENTIALS_ENTERED => Some "CREDENTIALS_ENTERED"%string
  | TrackingEvent.EMAIL_REPORTED => Some "PHISHING_REPORTED"%string
  | _ => None
  end.

(** [history_event_map.get(instance.event_type, instance.event_type)]. *)
Definition history_event_type (e : TrackingEvent.EventType) : string :=
  match history_event_map e with
  | Some s => s
  | None => TrackingEvent.name e
  end.

Definition has_prior_relevant_events (db : DB) (instance : TrackingEvent.t) : bool :=
  existsb
    (fun e =>
       (TrackingEvent.email_simulation e =? TrackingEvent.email_simulation instance)
       && TrackingEvent.relevant (TrackingEvent.event_type e)
       && negb (TrackingEvent.id e =? TrackingEvent.id instance))
    (tracking_events db).

Definition was_bulk_marked_sent (db : DB) (email_simulation : EmailSimulation.t) : bool :=
  EmailSimulation.is_sent (EmailSimulation.status email_simulation)
  && match EmailSimulation.sent_at email_simulation with
     | Some _ => true
     | None => false
     end
  && negb
       (existsb
          (fun e =>
             (TrackingEvent.email_simulation e =? EmailSimulation.id email_simulation)
             && TrackingEvent.EventType_eqb (TrackingEvent.event_type e)
                  TrackingEvent.EMAIL_SENT)
          (tracking_events db)).

Definition already_has_event (db : DB) (instance : TrackingEvent.t)
    (event_type : TrackingEvent.EventType) : bool :=
  existsb
    (fun e =>
       (TrackingEvent.email_simulation e =? TrackingEvent.email_simulation instance)
       && TrackingEvent.EventType_eqb (TrackingEvent.event_type e) event_type
       && negb (TrackingEvent.id e =? TrackingEvent.id instance))
    (tracking_events db).

Definition vector_to_category : list (string * string) :=
  [ ("LINK_MANIPULATION", "LINK_SAFETY");
    ("CREDENTIAL_HARVESTING", "CREDENTIAL_PROTECTION");
    ("MALWARE_ATTACHMENT", "EMAIL_SECURITY");
    ("SOCIAL_ENGINEERING", "SOCIAL_ENGINEERING");
    ("BUSINESS_EMAIL_COMPROMISE", "EMAIL_SECURITY");
    ("SPEAR_PHISHING", "PHISHING_BASICS") ]%string.

Fixpoint category_of (vector : string) (d : list (string * string)) : option string :=
  match d with
  | [] => None
  | (k, v) :: rest => if String.eqb k vector then Some v else category_of vector rest
  end.

(** The module the attack vector of the campaign maps to: the first
    global one, else the first of the company. *)
Definition relevant_module (db : DB) (risk_score : RiskScore.t)
    (campaign : SimulationCampaign.t) : option TrainingModule.t :=
  match category_of (SimulationCampaign.attack_vector campaign) vector_to_category with
  | None => None
  | Some category =>
    match find
            (fun m =>
               TrainingModule.is_active m
               && String.eqb (TrainingModule.category m) category
               && match TrainingModule.company m with None => true | Some _ => false end)
            (training_modules db) with
    | Some m => Some m
    | None =>
      find
        (fun m =>
           TrainingModule.is_active m
           && String.eqb (TrainingModule.category m) category
           && match TrainingModule.company m with
              | Some c => c =? RiskScore.company risk_score
              | None => false
              end)
        (training_modules db)
    end
  end.

(** The training specific to the attack vector, assigned after a click or
    a credential entry. *)
Definition assign_vector_training (now : Z) (db : DB) (employee : User.t)
    (risk_score : RiskScore.t) (instance : TrackingEvent.t)
    (campaign : SimulationCampaign.t) : DB :=
  match relevant_module db risk_score campaign with
  | None => db
  | Some m =>
    if open_assignment_exists db (User.id employee) (TrainingModule.id m) then db
    else
      let db := create_assignment db (User.id employee)
                  (RiskScore.company risk_score) (TrainingModule.id m)
                  "AUTO_SIMULATION_FAIL" (now + seven_days) "TrackingEvent"
                  (TrackingEvent.id instance) in
      bump_times_assigned db (TrainingModule.id m)
  end.

(** The increments of the aggregator: received, opened, clicked, reported,
    credentials. *)
Definition simulation_increments (db : DB) (instance : TrackingEvent.t)
    (email_simulation : EmailSimulation.t) : Z * Z * Z * Z * Z :=
  let sim_already_counted :=
    has_prior_relevant_events db instance
    || was_bulk_marked_sent db email_simulation in
  match TrackingEvent.event_type instance with
  | TrackingEvent.EMAIL_OPENED =>
    (if negb sim_already_counted then 1 else 0,
     if negb (already_has_event db instance TrackingEvent.EMAIL_OPENED) then 1 else 0,
     0, 0, 0)
  | TrackingEvent.LINK_CLICKED =>
    (if negb sim_already_counted then 1 else 0, 0,
     if negb (already_has_event db instance TrackingEvent.LINK_CLICKED) then 1 else 0,
     0, 0)
  | TrackingEvent.CREDENTIALS_ENTERED =>
    (if negb sim_already_counted then 1 else 0, 0, 0, 0,
     if negb (already_has_event db instance TrackingEvent.CREDENTIALS_ENTERED)
     then 1 else 0)
  | TrackingEvent.EMAIL_REPORTED =>
    (if negb sim_already_counted then 1 else 0, 0, 0,
     if negb (already_has_event db instance TrackingEvent.EMAIL_REPORTED) then 1 else 0,
     0)
  | _ => (0, 0, 0, 0, 0)
  end.

(** The [post_save] receiver of [TrackingEvent], for a created event.
    [email_simulation] and [campaign] are the instances the event was
    created with.  An exception inside the [try] block is logged and the
    handler returns; the writes made before it stay. *)
Definition update_risk_score_from_simulation (now : Z) (db : DB)
    (instance : TrackingEvent.t) (email_simulation : EmailSimulation.t)
    (campaign : SimulationCampaign.t) : DB :=
  if negb (TrackingEvent.relevant (TrackingEvent.event_type instance)) then db
  else
    match Table.get User.id (TrackingEvent.employee instance) (users db) with
    | None => db
    | Some employee =>
      if negb (User.is_employee (User.role employee)) then db
      else
        match get_or_create_risk_score db (Some employee) with
        | (db, None) => db
        | (db, Some risk_score) =>
          let old_score := RiskScore.score risk_score in
          let old_level := RiskScore.risk_level risk_score in
          let '(received, opened, clicked, reported, credentials) :=
            simulation_increments db instance email_simulation in
          let risk_score :=
            RiskScore.add_simulation risk_score received opened clicked
              reported credentials (Some now) in
          let '(db, risk_score) := save_risk_score now db risk_score in
          let risk_score := refresh_from_db db risk_score in
          match RiskScore.recalculate_score risk_score with
          | None => db
          | Some (_, risk_score) =>
            let '(db, risk_score) := save_risk_score now db risk_score in
            let db :=
              create_risk_history db risk_score
                (history_event_type (TrackingEvent.event_type instance))
                old_score (RiskScore.score risk_score) old_level
                "TrackingEvent" (Some (TrackingEvent.id instance)) in
            match TrackingEvent.event_type instance with
            | TrackingEvent.LINK_CLICKED | TrackingEvent.CREDENTIALS_ENTERED =>
              let db := auto_assign_remediation now db risk_score in
              assign_vector_training now db employee risk_score instance campaign
            | _ => db
            end
          end
        end
    end.

(** The [post_save] receiver of [QuizResult], for a created result. *)
Definition update_risk_score_from_quiz (now : Z) (db : DB)
    (instance : QuizResult.t) : DB :=
  match Table.get User.id (QuizResult.employee instance) (users db) with
  | None => db
  | Some employee =>
    if negb (User.is_employee (User.role employee)) then db
    else
      match get_or_create_risk_score db (Some employee) with
      | (db, None) => db
      | (db, Some risk_score) =>
        let old_score := RiskScore.score risk_score in
        let old_level := RiskScore.risk_level risk_score in
        let risk_score :=
          RiskScore.add_quiz risk_score 1 (QuizResult.total_questions instance)
            (QuizResult.correct_answers instance)
            (QuizResult.phishing_emails_missed instance) now in
        let '(db, risk_score) := save_risk_score now db risk_score in
        let risk_score := refresh_from_db db risk_score in
        match RiskScore.recalculate_score risk_score with
        | None => db
        | Some (_, risk_score) =>
          let '(db, risk_score) := save_risk_score now db risk_score in
          let event_type :=
            if PyFloat.ge_int (QuizResult.score instance) 70
            then "QUIZ_COMPLETED"%string else "QUIZ_FAILED"%string in
          let db :=
            create_risk_history db risk_score event_type old_score
              (RiskScore.score risk_score) old_level "QuizResult"
              (Some (QuizResult.id instance)) in
          auto_assign_remediation now db risk_score
        end
      end
  end.

End signals.

(** ** apps/simulations/models.py: the methods of TrackingEvent *)

(** [campaign.email_simulations.filter(...).count()]. *)
Definition count_simulations (db : DB) (campaign : Z)
    (p : EmailSimulation.t -> bool) : Z :=
  Table.count (fun s => (EmailSimulation.campaign s =? campaign) && p s)
    (email_simulations db).

Module TrackingEvent_methods.

(** [_update_simulation_stats]; [sim] is [self.email_simulation]. *)
Definition _update_simulation_stats (self : TrackingEvent.t) (db : DB)
    (sim : EmailSimulation.t) : DB * EmailSimulation.t :=
  let '(sim, updated) :=
    if EmailSimulation.is_pending (EmailSimulation.status sim)
       && TrackingEvent.relevant (TrackingEvent.event_type self)
    then (EmailSimulation.set_sent sim EmailSimulation.SENT
            (match EmailSimulation.sent_at sim with
             | Some d => Some d
             | None => Some (TrackingEvent.created_at self)
             end), true)
    else (sim, false) in
  let '(sim, updated) :=
    match TrackingEvent.event_type self with
    | TrackingEvent.EMAIL_OPENED =>
      if negb (EmailSimulation.was_opened sim)
      then (EmailSimulation.set_opened sim (Some (TrackingEvent.created_at self)), true)
      else (sim, updated)
    | TrackingEvent.LINK_CLICKED =>
      if negb (EmailSimulation.was_clicked sim)
      then (EmailSimulation.set_clicked sim (Some (TrackingEvent.created_at self))
              (TrackingEvent.ip_address self) (TrackingEvent.user_agent self), true)
      else (sim, updated)
    | TrackingEvent.CREDENTIALS_ENTERED =>
      if negb (EmailSimulation.credentials_entered sim)
      then (EmailSimulation.set_credentials sim (Some (TrackingEvent.created_at self)), true)
      else (sim, updated)
    | TrackingEvent.EMAIL_REPORTED =>
      if negb (EmailSimulation.was_reported sim)
      then (EmailSimulation.set_reported sim (Some (TrackingEvent.created_at self)), true)
      else (sim, updated)
    | _ => (sim, updated)
    end in
  if updated
  then (set_email_simulations db
          (Table.save EmailSimulation.id sim (email_simulations db)), sim)
  else (db, sim).

(** [_update_campaign_stats]; [campaign] is [self.campaign]. *)
Definition _update_campaign_stats (self : TrackingEvent.t) (db : DB)
    (campaign : SimulationCampaign.t) : DB * SimulationCampaign.t :=
  let cid := SimulationCampaign.id campaign in
  let campaign :=
    SimulationCampaign.set_total_sent campaign
      (count_simulations db cid
         (fun s => negb (EmailSimulation.pending_or_failed (EmailSimulation.status s)))) in
  let campaign :=
    match TrackingEvent.event_type self with
    | TrackingEvent.EMAIL_OPENED =>
      SimulationCampaign.set_total_opened campaign
        (count_simulations db cid EmailSimulation.was_opened)
    | TrackingEvent.LINK_CLICKED =>
      SimulationCampaign.set_total_clicked campaign
        (count_simulations db cid EmailSimulation.was_clicked)
    | TrackingEvent.CREDENTIALS_ENTERED =>
      SimulationCampaign.set_total_credentials_entered campaign
        (count_simulations db cid EmailSimulation.credentials_entered)
    | TrackingEvent.EMAIL_REPORTED =>
      SimulationCampaign.set_total_reported campaign
        (count_simulations db cid EmailSimulation.was_reported)
    | _ => campaign
    end in
  let campaign :=
    if SimulationCampaign.draft_or_scheduled (SimulationCampaign.status campaign)
       && (SimulationCampaign.total_sent campaign >? 0)
    then
      let campaign := SimulationCampaign.set_status campaign SimulationCampaign.IN_PROGRESS in
      match SimulationCampaign.sent_at campaign with
      | Some _ => campaign
      | None => SimulationCampaign.set_sent_at campaign (Some (TrackingEvent.created_at self))
      end
    else campaign in
  (set_campaigns db (Table.save SimulationCampaign.id campaign (campaigns db)), campaign).

(** [TrackingEvent.objects.create(...)]: the insert, the [post_save]
    receiver of the training app, then the two updates of [save]. *)
Definition objects_create (now : Z) (db : DB)
    (email_simulation : EmailSimulation.t) (campaign : SimulationCampaign.t)
    (employee : Z) (event_type : TrackingEvent.EventType)
    (event_data : list (string * Value)) (ip_address : option string)
    (user_agent : string)
    : DB * EmailSimulation.t * SimulationCampaign.t :=
  let self :=
    TrackingEvent.mk (Table.next_id TrackingEvent.id (tracking_events db))
      (EmailSimulation.id email_simulation) (SimulationCampaign.id campaign)
      employee event_type event_data ip_address user_agent now in
  let db := set_tracking_events db (tracking_events db ++ [self]) in
  let db := signals.update_risk_score_from_simulation now db self email_simulation campaign in
  let '(db, email_simulation) := _update_simulation_stats self db email_simulation in
  let '(db, campaign) := _update_campaign_stats self db campaign in
  (db, email_simulation, campaign).

End TrackingEvent_methods.

(** ** apps/simulations/models.py: the rate properties of SimulationCampaign *)

Module SimulationCampaign_methods.

(** [_effective_sent_count]. *)
Definition _effective_sent_count (db : DB) (self : SimulationCampaign.t) : Z :=
  if SimulationCampaign.total_sent self >? 0 then SimulationCampaign.total_sent self
  else
    let count :=
      count_simulations db (SimulationCampaign.id self)
        (fun s => negb (EmailSimulation.pending_or_failed (EmailSimulation.status s))) in
    if count >? 0 then count
    else count_simulations db (SimulationCampaign.id self) (fun _ => true).

(** The [compromise_rate] property; the integer [0] of the first branch
    is the float zero here. *)
Definition compromise_rate (db : DB) (self : SimulationCampaign.t) : PyFloat.float :=
  let sent := _effective_sent_count db self in
  if sent =? 0 then PyFloat.of_int 0
  else
    let compromised :=
      Z.max (SimulationCampaign.total_clicked self)
            (SimulationCampaign.total_credentials_entered self) in
    PyFloat.mul_int (PyFloat.truediv compromised sent) 100.

(** The [open_rate], [click_rate] and [report_rate] properties, with the
    same reading of the integer [0]. *)
Definition open_rate (db : DB) (self : SimulationCampaign.t) : PyFloat.float :=
  let sent := _effective_sent_count db self in
  if sent =? 0 then PyFloat.of_int 0
  else PyFloat.mul_int (PyFloat.truediv (SimulationCampaign.total_opened self) sent) 100.

Definition click_rate (db : DB) (self : SimulationCampaign.t) : PyFloat.float :=
  let sent := _effective_sent_count db self in
  if sent =? 0 then PyFloat.of_int 0
  else PyFloat.mul_int (PyFloat.truediv (SimulationCampaign.total_clicked self) sent) 100.

Definition report_rate (db : DB) (self : SimulationCampaign.t) : PyFloat.float :=
  let sent := _effective_sent_count db self in
  if sent =? 0 then PyFloat.of_int 0
  else PyFloat.mul_int (PyFloat.truediv (SimulationCampaign.total_reported self) sent) 100.

End SimulationCampaign_methods.

(** ** apps/simulations/views.py: the public tracking views *)

Inductive Response : Type :=
| PixelResponse                       (* the 1x1 PNG, status 200 *)
| RedirectResponse (location : string)
| JsonResponse (status : Z).

Module views.

(** [EmailSimulation.objects.select_related('campaign', ...).get(...)]:
    the simulation and its campaign, [None] for [DoesNotExist]. *)
Definition get_simulation (db : DB) (p : EmailSimulation.t -> bool)
    : option (EmailSimulation.t * SimulationCampaign.t) :=
  match find p (email_simulations db) with
  | None => None
  | Some s =>
    match Table.get SimulationCampaign.id (EmailSimulation.campaign s) (campaigns db) with
    | None => None
    | Some c => Some (s, c)
    end
  end.

Definition by_tracking_token (token : string) (s : EmailSimulation.t) : bool :=
  String.eqb (EmailSimulation.tracking_token s) token.

Definition by_link_token (token : string) (s : EmailSimulation.t) : bool :=
  String.eqb (EmailSimulation.link_token s) token.

Definition track_pixel_view (now : Z) (db : DB) (tracking_token : string)
    (ip : option string) (user_agent : string) : DB * Response :=
  match get_simulation db (by_tracking_token tracking_token) with
  | None => (db, PixelResponse)
  | Some (email_sim, campaign) =>
    if negb (SimulationCampaign.trackable (SimulationCampaign.status campaign))
    then (db, PixelResponse)
    else if negb (SimulationCampaign.track_email_opens campaign)
    then (db, PixelResponse)
    else
      let '(db, _, _) :=
        TrackingEvent_methods.objects_create now db email_sim campaign
          (EmailSimulation.employee email_sim) TrackingEvent.EMAIL_OPENED
          [] ip user_agent in
      (db, PixelResponse)
  end.

Definition track_link_click_view (now : Z) (db : DB) (link_token : string)
    (ip : option string) (user_agent : string) : DB * Response :=
  match get_simulation db (by_link_token link_token) with
  | None => (db, RedirectResponse "/simulation-error/")
  | Some (email_sim, campaign) =>
    if negb (SimulationCampaign.trackable (SimulationCampaign.status campaign))
    then (db, RedirectResponse "/simulation-expired/")
    else
      let db :=
        if SimulationCampaign.track_link_clicks campaign
        then
          let '(db, _, _) :=
            TrackingEvent_methods.objects_create now db email_sim campaign
              (EmailSimulation.employee email_sim) TrackingEvent.LINK_CLICKED
              [] ip user_agent in
          db
        else db in
      (db, RedirectResponse ("/api/v1/simulations/landing/" ++ link_token ++ "/"))
  end.

Definition report_phishing_view (now : Z) (db : DB) (link_token : string)
    (data : list (string * Value)) (ip : option string) (user_agent : string)
    : DB * Response :=
  match get_simulation db (by_link_token link_token) with
  | None => (db, JsonResponse 404)
  | Some (email_sim, campaign) =>
    if EmailSimulation.was_reported email_sim then (db, JsonResponse 200)
    else
      let reason :=
        match dict_get "reason" data with VNone => VStr "" | v => v end in
      let '(db, _, _) :=
        TrackingEvent_methods.objects_create now db email_sim campaign
          (EmailSimulation.employee email_sim) TrackingEvent.EMAIL_REPORTED
          (if truthy reason then [("reason"%string, reason)] else [])
          ip user_agent in
      (db, JsonResponse 200)
  end.

Definition credentials_submitted_view (now : Z) (db : DB) (link_token : string)
    (data : list (string * Value)) (ip : option string) (user_agent : string)
    : DB * Response :=
  match get_simulation db (by_link_token link_token) with
  | None => (db, JsonResponse 404)
  | Some (email_sim, campaign) =>
    if negb (SimulationCampaign.track_credentials campaign)
    then (db, JsonResponse 400)
    else
      let '(db, _, _) :=
        TrackingEvent_methods.objects_create now db email_sim campaign
          (EmailSimulation.employee email_sim) TrackingEvent.CREDENTIALS_ENTERED
          [ ("username_field_filled"%string, VBool (truthy (dict_get "username" data)));
            ("password_field_filled"%string, VBool (truthy (dict_get "password" data))) ]
          ip user_agent in
      (db, JsonResponse 200)
  end.

(** The target employees of [send]. *)
Definition target_employees (db : DB) (campaign : SimulationCampaign.t) : list User.t :=
  if SimulationCampaign.target_all_employees campaign
  then
    filter
      (fun u =>
         match User.company u with
         | Some c => c =? SimulationCampaign.company campaign
         | None => false
         end
         && User.is_employee (User.role u) && User.is_active u)
      (users db)
  else
    filter
      (fun u => existsb (Z.eqb (User.id u)) (SimulationCampaign.target_employees campaign))
      (users db).

(** The first loop of [send]: one PENDING simulation for every target
    without one; the created instances in order. *)
Fixpoint create_simulations (tokens : Z -> string * string) (db : DB)
    (campaign : SimulationCampaign.t) (employees : list User.t)
    : DB * list EmailSimulation.t :=
  match employees with
  | [] => (db, [])
  | employee :: rest =>
    if existsb
         (fun s =>
            (EmailSimulation.campaign s =? SimulationCampaign.id campaign)
            && (EmailSimulation.employee s =? User.id employee))
         (email_simulations db)
    then create_simulations tokens db campaign rest
    else
      let pk := Table.next_id EmailSimulation.id (email_simulations db) in
      let email_sim :=
        EmailSimulation.create pk (SimulationCampaign.id campaign)
          (User.id employee) (tokens pk) in
      let db := set_email_simulations db (email_simulations db ++ [email_sim]) in
      let '(db, created) := create_simulations tokens db campaign rest in
      (db, email_sim :: created)
  end.

(** [_send_simulation_email] after a successful [email.send]: the status
    update and the EMAIL_SENT event.  The campaign of the simulation is
    the instance [send] holds. *)
Definition _send_simulation_email (now : Z) (db : DB)
    (email_simulation : EmailSimulation.t) (campaign : SimulationCampaign.t)
    : DB * SimulationCampaign.t :=
  let email_simulation :=
    EmailSimulation.set_sent email_simulation EmailSimulation.SENT (Some now) in
  let db :=
    set_email_simulations db
      (Table.save EmailSimulation.id email_simulation (email_simulations db)) in
  let '(db, _, campaign) :=
    TrackingEvent_methods.objects_create now db email_simulation campaign
      (EmailSimulation.employee email_simulation) TrackingEvent.EMAIL_SENT
      [] None "" in
  (db, campaign).

(** The second loop of [send]; [mail_ok] tells whether [email.send]
    succeeds for a simulation.  The number of sent emails is returned with
    the store and the campaign instance. *)
Fixpoint send_emails (now : Z) (mail_ok : EmailSimulation.t -> bool) (db : DB)
    (campaign : SimulationCampaign.t) (created : list EmailSimulation.t)
    : DB * SimulationCampaign.t * Z :=
  match created with
  | [] => (db, campaign, 0)
  | email_sim :: rest =>
    if mail_ok email_sim
    then
      let '(db, campaign) := _send_simulation_email now db email_sim campaign in
      let '(db, campaign, sent_count) := send_emails now mail_ok db campaign rest in
      (db, campaign, sent_count + 1)
    else
      let email_sim :=
        EmailSimulation.set_sent email_sim EmailSimulation.FAILED
          (EmailSimulation.sent_at email_sim) in
      let db :=
        set_email_simulations db
          (Table.save EmailSimulation.id email_sim (email_simulations db)) in
      send_emails now mail_ok db campaign rest
  end.

(** [SimulationCampaignViewSet.send] on the campaign instance that
    [get_object] returned. *)
Definition send (now : Z) (tokens : Z -> string * string)
    (mail_ok : EmailSimulation.t -> bool) (db : DB)
    (campaign : SimulationCampaign.t) (send_immediately : bool)
    : DB * SimulationCampaign.t * Response :=
  if negb (SimulationCampaign.draft_or_scheduled (SimulationCampaign.status campaign))
  then (db, campaign, JsonResponse 400)
  else if negb send_immediately
          && match SimulationCampaign.send_date campaign with
             | None => true
             | Some _ => false
             end
  then (db, campaign, JsonResponse 400)
  else
    match target_employees db campaign with
    | [] => (db, campaign, JsonResponse 400)
    | employees =>
      let '(db, created_simulations) :=
        create_simulations tokens db campaign employees in
      let campaign :=
        SimulationCampaign.set_total_sent campaign
          (Z.of_nat (List.length created_simulations)) in
      let '(db, campaign) :=
        if send_immediately
        then
          let '(db, campaign, _) :=
            send_emails now mail_ok db campaign created_simulations in
          (db,
           SimulationCampaign.set_sent_at
             (SimulationCampaign.set_status campaign SimulationCampaign.IN_PROGRESS)
             (Some now))
        else
          (db, SimulationCampaign.set_status campaign SimulationCampaign.SCHEDULED) in
      (set_campaigns db (Table.save SimulationCampaign.id campaign (campaigns db)),
       campaign, JsonResponse 200)
    end.

End views.

(** ** apps/simulations/services.py *)

Module services.

(** The loop over [pending_employee_ids].  A missing user and a user of
    another role are skipped.  [get_or_create] for an employee without a
    company fails on the NOT NULL company column; that exception is caught
    outside the loop, which ends there. *)
Fixpoint update_risk_scores (now : Z) (db : DB) (pending_employee_ids : list Z) : DB :=
  match pending_employee_ids with
  | [] => db
  | emp_id :: rest =>
    match Table.get User.id emp_id (users db) with
    | None => update_risk_scores now db rest
    | Some employee =>
      if negb (User.is_employee (User.role employee))
      then update_risk_scores now db rest
      else
        let created :=
          match find (fun r => RiskScore.employee r =? User.id employee) (risk_scores db) with
          | Some r => Some (db, r)
          | None =>
            match User.company employee with
            | None => None
            | Some c =>
              let r := RiskScore.pre_save
                         (RiskScore.default
                            (Table.next_id RiskScore.id (risk_scores db))
                            (User.id employee) c) in
              Some (set_risk_scores db (risk_scores db ++ [r]), r)
            end
          end in
        match created with
        | None => db
        | Some (db, risk_score) =>
          let risk_score := RiskScore.pre_save risk_score in
          let db :=
            set_risk_scores db
              (Table.update RiskScore.id (RiskScore.id risk_score)
                 (fun r => RiskScore.add_simulation r 1 0 0 0 0 (Some now))
                 (risk_scores db)) in
          let db := signals.check_remediation_on_score_change now db risk_score in
          update_risk_scores now db rest
        end
    end
  end.

(** [mark_campaign_emails_sent]: the store, the campaign instance and the
    number of updated simulations. *)
Definition mark_campaign_emails_sent (now : Z) (db : DB)
    (campaign : SimulationCampaign.t) : DB * SimulationCampaign.t * Z :=
  let is_pending_of s :=
    (EmailSimulation.campaign s =? SimulationCampaign.id campaign)
    && EmailSimulation.is_pending (EmailSimulation.status s) in
  let pending_employee_ids :=
    map EmailSimulation.employee (filter is_pending_of (email_simulations db)) in
  let updated := Table.count is_pending_of (email_simulations db) in
  let db :=
    set_email_simulations db
      (map (fun s =>
              if is_pending_of s
              then EmailSimulation.set_sent s EmailSimulation.SENT (Some now)
              else s)
         (email_simulations db)) in
  let campaign :=
    SimulationCampaign.set_total_sent campaign
      (count_simulations db (SimulationCampaign.id campaign)
         (fun s => EmailSimulation.is_sent (EmailSimulation.status s))) in
  let campaign := SimulationCampaign.set_status campaign SimulationCampaign.IN_PROGRESS in
  let campaign := SimulationCampaign.set_sent_at campaign (Some now) in
  let db := set_campaigns db (Table.save SimulationCampaign.id campaign (campaigns db)) in
  (update_risk_scores now db pending_employee_ids, campaign, updated).

End services.

(** ** apps/training/models.py: TrainingQuestion and the progress of a training *)

Module TrainingQuestion.
Record t : Type := mk {
  id : Z;
  options : list string;
  correct_answer_index : Z;
  explanation : string
}.

(** The [correct_answer] property: the option at the index, [None] for an
    empty list and for an index outside of it. *)
Definition correct_answer (self : t) : option string :=
  match options self with
  | [] => None
  | _ =>
    if (0 <=? correct_answer_index self)
       && (correct_answer_index self <? Z.of_nat (List.length (options self)))
    then nth_error (options self) (Z.to_nat (correct_answer_index self))
    else None
  end.
End TrainingQuestion.

Module RemediationTraining_methods.

(** The columns of a [RemediationTraining] row that the methods below read
    and write, on an instance as loaded from its row.  [quiz_score], a
    decimal column that the database rounds to two places, is left out: the
    score of a submission is in the returned result. *)
Record instance : Type := mk {
  status : RemediationTraining.Status;
  due_date : option Z;
  started_at : option Z;
  completed_at : option Z;
  quiz_attempts : Z;
  correct_answers : Z;
  total_questions : Z;
  content_viewed : bool;
  content_viewed_at : option Z;
  time_spent_seconds : Z
}.

(** The [is_overdue] property at the time [now]. *)
Definition is_overdue (now : Z) (self : instance) : bool :=
  match due_date self with
  | None => false
  | Some due =>
    match status self with
    | RemediationTraining.PASSED | RemediationTraining.COMPLETED => false
    | _ => due <? now
    end
  end.

Definition start_training (now : Z) (self : instance) : instance :=
  match status self with
  | RemediationTraining.ASSIGNED =>
    mk RemediationTraining.IN_PROGRESS (due_date self) (Some now) (completed_at self)
       (quiz_attempts self) (correct_answers self) (total_questions self)
       (content_viewed self) (content_viewed_at self) (time_spent_seconds self)
  | _ => self
  end.

Definition mark_content_viewed (now : Z) (self : instance) : instance :=
  if content_viewed self then self
  else
    mk (status self) (due_date self) (started_at self) (completed_at self)
       (quiz_attempts self) (correct_answers self) (total_questions self)
       true (Some now) (time_spent_seconds self).

(** One entry of the [results] list of [submit_quiz]. *)
Record question_result : Type := mk_result {
  question_id : Z;
  selected : option Z;
  correct_answer : Z;
  is_correct : bool;
  result_explanation : string
}.

Record quiz_outcome : Type := mk_outcome {
  score : PyFloat.float;
  passed : bool;
  correct : Z;
  total : Z;
  results : list question_result
}.

(** [answers.get(str(question.id))]: the dict of the submitted answers,
    here keyed by the question id whose decimal string is the key. *)
Fixpoint answers_get (question : Z) (answers : list (Z * Z)) : option Z :=
  match answers with
  | [] => None
  | (k, v) :: rest => if k =? question then Some v else answers_get question rest
  end.

(** The body of the loop of [submit_quiz] for one question. *)
Definition grade (answers : list (Z * Z)) (question : TrainingQuestion.t)
    : question_result :=
  let selected := answers_get (TrainingQuestion.id question) answers in
  let is_correct :=
    match selected with
    | Some v => v =? TrainingQuestion.correct_answer_index question
    | None => false
    end in
  mk_result (TrainingQuestion.id question) selected
    (TrainingQuestion.correct_answer_index question) is_correct
    (TrainingQuestion.explanation question).

(** [submit_quiz]: [questions] are the active questions of the module in
    the order of the queryset, [passing_score] is that of the module.  The
    instance after the save and the refresh, and the returned result. *)
Definition submit_quiz (now : Z) (passing_score : Z)
    (questions : list TrainingQuestion.t) (self : instance)
    (answers : list (Z * Z)) : instance * quiz_outcome :=
  let total := Table.count (fun _ => true) questions in
  let results := map (grade answers) questions in
  let correct := Table.count is_correct results in
  let score :=
    if total >? 0 then PyFloat.mul_int (PyFloat.truediv correct total) 100
    else PyFloat.of_int 0 in
  let passed := PyFloat.ge_int score passing_score in
  (mk (if passed then RemediationTraining.PASSED else RemediationTraining.FAILED)
      (due_date self) (started_at self) (Some now)
      (quiz_attempts self + 1) correct total
      (content_viewed self) (content_viewed_at self) (time_spent_seconds self),
   mk_outcome score passed correct total results).

End RemediationTraining_methods.

(** ** apps/campaigns/views.py: the quiz result *)

(** Modelled from the spec: the model [QuizQuestion] of the assessments
    app, of which [_calculate_quiz_result] reads the type of the email
    shown, the answer given, whether it was correct and the time spent. *)
Module QuizQuestion.
Inductive EmailType : Type := PHISHING | LEGITIMATE.

Definition is_phishing (e : EmailType) : bool :=
  match e with PHISHING => true | LEGITIMATE => false end.

Record t : Type := mk {
  email_type : EmailType;
  answer : option EmailType;
  is_correct : bool;
  time_spent_seconds : option Z
}.

Definition answered (q : t) (a : EmailType) : bool :=
  match answer q with
  | Some b => Bool.eqb (is_phishing a) (is_phishing b)
  | None => false
  end.
End QuizQuestion.

Module QuizViewSet.

Definition _determine_risk_level (score : PyFloat.float)
    (phishing_missed false_positives : Z) : RiskLevel :=
  if PyFloat.ge_int score 90 && (phishing_missed =? 0) then LOW
  else if PyFloat.ge_int score 70 && (phishing_missed <=? 1) then MEDIUM
  else if PyFloat.ge_int score 50 || (phishing_missed <=? 3) then HIGH
  else CRITICAL.

(** [_calculate_quiz_result]: the row that [QuizResult.objects.create]
    stores under key [pk] for the questions of the quiz. *)
Definition _calculate_quiz_result (pk employee : Z)
    (questions : list QuizQuestion.t) : QuizResult.t :=
  let total_questions := Table.count (fun _ => true) questions in
  let correct_answers := Table.count QuizQuestion.is_correct questions in
  let incorrect_answers := total_questions - correct_answers in
  let score :=
    if total_questions >? 0
    then PyFloat.mul_int (PyFloat.truediv correct_answers total_questions) 100
    else PyFloat.of_int 0 in
  let phishing_identified :=
    Table.count
      (fun q =>
         QuizQuestion.is_phishing (QuizQuestion.email_type q)
         && QuizQuestion.answered q QuizQuestion.PHISHING
         && QuizQuestion.is_correct q)
      questions in
  let phishing_missed :=
    Table.count
      (fun q =>
         QuizQuestion.is_phishing (QuizQuestion.email_type q)
         && QuizQuestion.answered q QuizQuestion.LEGITIMATE
         && negb (QuizQuestion.is_correct q))
      questions in
  let false_positives :=
    Table.count
      (fun q =>
         negb (QuizQuestion.is_phishing (QuizQuestion.email_type q))
         && QuizQuestion.answered q QuizQuestion.PHISHING
         && negb (QuizQuestion.is_correct q))
      questions in
  let total_time :=
    fold_right Z.add 0
      (map (fun q => match QuizQuestion.time_spent_seconds q with
                     | Some n => n
                     | None => 0
                     end)
         questions) in
  let risk_level := _determine_risk_level score phishing_missed false_positives in
  QuizResult.mk pk employee total_questions correct_answers incorrect_answers
    score phishing_identified phishing_missed false_positives total_time
    risk_level.

End QuizViewSet.

(** ** Notions used to state the properties *)

(** The flag and the first-occurrence timestamp that a tracking event type
    is paired with on the simulation. *)
Definition flag_of (k : TrackingEvent.EventType) (s : EmailSimulation.t) : bool :=
  match k with
  | TrackingEvent.EMAIL_OPENED => EmailSimulation.was_opened s
  | TrackingEvent.LINK_CLICKED => EmailSimulation.was_clicked s
  | TrackingEvent.CREDENTIALS_ENTERED => EmailSimulation.credentials_entered s
  | TrackingEvent.EMAIL_REPORTED => EmailSimulation.was_reported s
  | _ => false
  end.

Definition stamp_of (k : TrackingEvent.EventType) (s : EmailSimulation.t) : option Z :=
  match k with
  | TrackingEvent.EMAIL_OPENED => EmailSimulation.first_opened_at s
  | TrackingEvent.LINK_CLICKED => EmailSimulation.clicked_at s
  | TrackingEvent.CREDENTIALS_ENTERED => EmailSimulation.credentials_entered_at s
  | TrackingEvent.EMAIL_REPORTED => EmailSimulation.reported_at s
  | _ => None
  end.

(** The simulation instance after [_update_simulation_stats] has run for
    each event of a sequence, in order. *)
Fixpoint apply_events (events : list TrackingEvent.t) (db : DB)
    (sim : EmailSimulation.t) : DB * EmailSimulation.t :=
  match events with
  | [] => (db, sim)
  | e :: rest =>
    let '(db, sim) := TrackingEvent_methods._update_simulation_stats e db sim in
    apply_events rest db sim
  end.

(** The first event of a type in a sequence. *)
Definition first_of (k : TrackingEvent.EventType) (events : list TrackingEvent.t)
    : option TrackingEvent.t :=
  find (fun e => TrackingEvent.EventType_eqb (TrackingEvent.event_type e) k) events.

(** The tier rules of the quiz result in the words of the specification:
    an ordered list of conditions, the first that holds gives the tier. *)
Module SpecQuiz.
Definition rules (score : PyFloat.float) (missed : Z) : list (bool * RiskLevel) :=
  [ (PyFloat.ge_int score 90 && (missed =? 0), LOW);
    (PyFloat.ge_int score 70 && (missed <=? 1), MEDIUM);
    (PyFloat.ge_int score 50 || (missed <=? 3), HIGH) ].

Fixpoint first_match (rs : list (bool * RiskLevel)) (otherwise : RiskLevel) : RiskLevel :=
  match rs with
  | [] => otherwise
  | (c, l) :: rest => if c then l else first_match rest otherwise
  end.

Definition score (correct total : Z) : PyFloat.float :=
  if total =? 0 then PyFloat.of_int 0
  else PyFloat.mul_int (PyFloat.truediv correct total) 100.
End SpecQuiz.

(** The number of open assignments of an employee for a module. *)
Definition open_count (db : DB) (employee module : Z) : Z :=
  Table.count
    (fun a =>
       (RemediationTraining.employee a =? employee)
       && (RemediationTraining.training_module a =? module)
       && RemediationTraining.is_open (RemediationTraining.status a))
    (remediation_trainings db).

(** The assignments of an employee for a module, in table order. *)
Definition assignments_of (db : DB) (employee module : Z) : list RemediationTraining.t :=
  filter
    (fun a =>
       (RemediationTraining.employee a =? employee)
       && (RemediationTraining.training_module a =? module))
    (remediation_trainings db).

(** The stored risk score of an employee. *)
Definition risk_score_of (db : DB) (employee : Z) : option RiskScore.t :=
  find (fun r => RiskScore.employee r =? employee) (risk_scores db).

(** A counter of the stored risk score of an employee, 0 before the row
    exists. *)
Definition counter (f : RiskScore.t -> Z) (db : DB) (employee : Z) : Z :=
  match risk_score_of db employee with
  | Some r => f r
  | None => 0
  end.

(** The counter of the risk score that a tracking event type feeds. *)
Definition counter_of (k : TrackingEvent.EventType) : RiskScore.t -> Z :=
  match k with
  | TrackingEvent.EMAIL_OPENED => RiskScore.simulations_opened
  | TrackingEvent.LINK_CLICKED => RiskScore.simulations_clicked
  | TrackingEvent.CREDENTIALS_ENTERED => RiskScore.credentials_entered
  | TrackingEvent.EMAIL_REPORTED => RiskScore.simulations_reported
  | _ => fun _ => 0
  end.

(** The events of a simulation of a given type in the log. *)
Definition logged (db : DB) (sim : Z) (p : TrackingEvent.EventType -> bool) : bool :=
  existsb
    (fun e => (TrackingEvent.email_simulation e =? sim) && p (TrackingEvent.event_type e))
    (tracking_events db).

(** Tracking events of the given types delivered one after the other for
    one simulation; each delivery works on the instances the one before
    saved. *)
Fixpoint deliver (now : Z) (db : DB) (sim : EmailSimulation.t)
    (campaign : SimulationCampaign.t) (ks : list TrackingEvent.EventType)
    : DB * EmailSimulation.t * SimulationCampaign.t :=
  match ks with
  | [] => (db, sim, campaign)
  | k :: rest =>
    let '(db, sim, campaign) :=
      TrackingEvent_methods.objects_create now db sim campaign
        (EmailSimulation.employee sim) k [] None "" in
    deliver now db sim campaign rest
  end.

(** The tables of the simulation app are the same in two stores. *)
Definition tracking_unchanged (db db' : DB) : Prop :=
  users db' = users db
  /\ campaigns db' = campaigns db
  /\ email_simulations db' = email_simulations db
  /\ tracking_events db' = tracking_events db.

(** What an assignment pass may do to the assignments: a pair of an
    employee and a module that has an open assignment keeps its assignments
    as they are, and no pair ends with more open assignments than it had,
    or than one. *)
Definition no_second_open (db db' : DB) : Prop :=
  (forall e m, signals.open_assignment_exists db e m = true ->
               assignments_of db' e m = assignments_of db e m)
  /\ (forall e m, signals.open_assignment_exists db e m = true ->
                  signals.open_assignment_exists db' e m = true)
  /\ (forall e m, open_count db' e m <= Z.max 1 (open_count db e m)).

(** The columns of a training module that the assignment passes read. *)
Definition module_key (m : TrainingModule.t) : Z * string * bool * bool * option Z :=
  (TrainingModule.id m, TrainingModule.category m, TrainingModule.is_active m,
   TrainingModule.is_mandatory m, TrainingModule.company m).

(** The condition under which the pixel view and the link view create
    their tracking event: the token names a simulation, the campaign of the
    simulation is IN_PROGRESS or SCHEDULED, and the campaign tracks that
    kind of event. *)
Definition gate (db : DB) (p : EmailSimulation.t -> bool)
    (tracks : SimulationCampaign.t -> bool) : Prop :=
  exists s c,
    views.get_simulation db p = Some (s, c)
    /\ SimulationCampaign.trackable (SimulationCampaign.status c) = true
    /\ tracks c = true.

(** What the acceptance of an event of type [k] for the simulation named
    by [p] leaves in the store: one more event in the log, of that type and
    for that simulation, and the flag of the type set on the simulation. *)
Definition accepted (k : TrackingEvent.EventType) (p : EmailSimulation.t -> bool)
    (db db' : DB) : Prop :=
  exists s c e s',
    views.get_simulation db p = Some (s, c)
    /\ tracking_events db' = tracking_events db ++ [e]
    /\ TrackingEvent.event_type e = k
    /\ TrackingEvent.email_simulation e = EmailSimulation.id s
    /\ TrackingEvent.campaign e = SimulationCampaign.id c
    /\ find p (email_simulations db') = Some s'
    /\ flag_of k s' = true.

(** The simulations of a campaign that count as sent: those whose status
    is neither PENDING nor FAILED. *)
Definition sent_count (db : DB) (campaign : Z) : Z :=
  count_simulations db campaign
    (fun s => negb (EmailSimulation.pending_or_failed (EmailSimulation.status s))).

(** The counters that [recalculate_score] divides lie in the range of a
    [PositiveIntegerField]. *)
Definition counters_in_range (r : RiskScore.t) : Prop :=
  0 <= RiskScore.correct_quiz_answers r <= PyFloat.max_counter
  /\ 0 <= RiskScore.total_quiz_questions r <= PyFloat.max_counter
  /\ 0 <= RiskScore.simulations_clicked r <= PyFloat.max_counter
  /\ 0 <= RiskScore.total_simulations_received r <= PyFloat.max_counter.

(** A float whose mantissa fits the precision and whose exponent lies in
    [lo .. hi]; zero counts. *)
Definition within (lo hi : Z) (x : PyFloat.float) : Prop :=
  match x with
  | S754_zero _ => True
  | S754_finite _ m e => Z.pos (digits2_pos m) <= 53 /\ lo <= e <= hi
  | _ => False
  end.

(** A zero or finite float of the given sign. *)
Definition sign_is (s : bool) (x : PyFloat.float) : Prop :=
  match x with
  | S754_zero s' | S754_finite s' _ _ => s' = s
  | _ => False
  end.

(** A risk score with the one counter that the assignment passes change
    set to zero, and stores that agree on the risk scores up to it. *)
Definition modulo_trainings (r : RiskScore.t) : RiskScore.t :=
  RiskScore.mk (RiskScore.id r) (RiskScore.employee r) (RiskScore.company r)
    (RiskScore.score r) (RiskScore.risk_level r)
    (RiskScore.total_quizzes_taken r) (RiskScore.total_quiz_questions r)
    (RiskScore.correct_quiz_answers r) (RiskScore.phishing_emails_missed r)
    (RiskScore.total_simulations_received r) (RiskScore.simulations_opened r)
    (RiskScore.simulations_clicked r) (RiskScore.simulations_reported r)
    (RiskScore.credentials_entered r) 0
    (RiskScore.trainings_completed r) (RiskScore.trainings_passed r)
    (RiskScore.requires_remediation r) (RiskScore.last_quiz_date r)
    (RiskScore.last_simulation_date r).

Definition scores_kept (db db' : DB) : Prop :=
  map modulo_trainings (risk_scores db') = map modulo_trainings (risk_scores db).

(** The risk score an aggregator starts from: the stored one, or the row
    that [get_or_create] inserts. *)
Definition starting_score (db : DB) (employee company : Z) : RiskScore.t :=
  match risk_score_of db employee with
  | Some r => r
  | None =>
    RiskScore.pre_save
      (RiskScore.default (Table.next_id RiskScore.id (risk_scores db)) employee company)
  end.

(** The user is one the aggregators keep a risk score for: an employee
    with a company. *)
Definition scored_employee (db : DB) (employee company : Z) : Prop :=
  exists u,
    Table.get User.id employee (users db) = Some u
    /\ User.role u = User.EMPLOYEE
    /\ User.company u = Some company.

(** A risk score with its derived fields and the assignment counter
    erased: what is left are the cumulative counters that the events
    feed. *)
Definition counters_only (r : RiskScore.t) : RiskScore.t :=
  RiskScore.set_score (modulo_trainings r) 0 LOW false.

(** The history row that an aggregator writes for a change of the risk
    score [r'] from the score and level [old_score], [old_level]. *)
Definition history_row (h : RiskScoreHistory.t) (r' : RiskScore.t)
    (old_score : Z) (old_level : RiskLevel) (event_type source_type : string)
    (source_id : Z) : Prop :=
  RiskScoreHistory.risk_score h = RiskScore.id r'
  /\ RiskScoreHistory.employee h = RiskScore.employee r'
  /\ RiskScoreHistory.event_type h = event_type
  /\ RiskScoreHistory.previous_score h = old_score
  /\ RiskScoreHistory.new_score h = RiskScore.score r'
  /\ RiskScoreHistory.score_change h = RiskScore.score r' - old_score
  /\ RiskScoreHistory.previous_risk_level h = old_level
  /\ RiskScoreHistory.new_risk_level h = RiskScore.risk_level r'
  /\ RiskScoreHistory.source_type h = source_type
  /\ RiskScoreHistory.source_id h = Some source_id.

(** The counters an aggregator saves for an event: those of the starting
    score with the increments of the event. *)
Definition simulation_counters (now : Z) (db : DB) (e : TrackingEvent.t)
    (sim : EmailSimulation.t) (company : Z) : RiskScore.t :=
  let '(received, opened, clicked, reported, credentials) :=
    signals.simulation_increments db e sim in
  RiskScore.add_simulation (starting_score db (TrackingEvent.employee e) company)
    received opened clicked reported credentials (Some now).

Definition quiz_counters (now : Z) (db : DB) (q : QuizResult.t) (company : Z)
    : RiskScore.t :=
  RiskScore.add_quiz (starting_score db (QuizResult.employee q) company) 1
    (QuizResult.total_questions q) (QuizResult.correct_answers q)
    (QuizResult.phishing_emails_missed q) now.

(** An assignment as [auto_assign_remediation] creates it at the time
    [now] for a risk score. *)
Definition auto_assigned (now : Z) (r : RiskScore.t) (a : RemediationTraining.t) : Prop :=
  RemediationTraining.employee a = RiskScore.employee r
  /\ RemediationTraining.company a = RiskScore.company r
  /\ RemediationTraining.status a = RemediationTraining.ASSIGNED
  /\ RemediationTraining.assignment_reason a = "AUTO_HIGH_RISK"%string
  /\ RemediationTraining.due_date a = Some (now + seven_days)
  /\ RemediationTraining.source_type a = "RiskScore"%string
  /\ RemediationTraining.source_id a = Some (RiskScore.id r).

(** ** Example stores *)

Module Example.

Definition alice : User.t := User.mk 1 User.EMPLOYEE (Some 1) true.
Definition bob : User.t := User.mk 2 User.EMPLOYEE (Some 1) true.

(** A draft campaign that targets alice and bob. *)
Definition campaign0 : SimulationCampaign.t :=
  SimulationCampaign.mk 1 1 "CREDENTIAL_HARVESTING" SimulationCampaign.DRAFT
    (Some 1000) false [1; 2] true true true 0 0 0 0 0 None.

Definition module0 : TrainingModule.t :=
  TrainingModule.mk 1 "CREDENTIAL_PROTECTION" true true None 0.

Definition db0 : DB := mkDB [alice; bob] [campaign0] [] [] [] [] [module0] [].

Definition tokens (pk : Z) : string * string :=
  if pk =? 1 then ("t1", "l1")%string else ("t2", "l2")%string.

(** The campaign row of the example stores. *)
Definition campaign_of (db : DB) : SimulationCampaign.t :=
  match Table.get SimulationCampaign.id 1 (campaigns db) with
  | Some c => c
  | None => campaign0
  end.

(** The campaign sent at once, both emails delivered to the mail server. *)
Definition sent : DB :=
  fst (fst (views.send 10 tokens (fun _ => true) db0 campaign0 true)).

(** Then alice follows the link and bob submits the login form, without an
    earlier click of his own. *)
Definition click_and_credentials : DB :=
  let db := fst (views.track_link_click_view 20 sent "l1" None "") in
  fst (views.credentials_submitted_view 30 db "l2"
         [("username", VStr "bob"); ("password", VStr "hunter2")]%string None "").

(** A quiz of ten questions: seven right answers, one phishing email taken
    for legitimate, two legitimate emails taken for phishing. *)
Definition right (t : QuizQuestion.EmailType) : QuizQuestion.t :=
  QuizQuestion.mk t (Some t) true (Some 5).
Definition missed_phish : QuizQuestion.t :=
  QuizQuestion.mk QuizQuestion.PHISHING (Some QuizQuestion.LEGITIMATE) false (Some 5).
Definition false_alarm : QuizQuestion.t :=
  QuizQuestion.mk QuizQuestion.LEGITIMATE (Some QuizQuestion.PHISHING) false None.
Definition quiz7 : list QuizQuestion.t :=
  [ right QuizQuestion.PHISHING; right QuizQuestion.PHISHING; right QuizQuestion.PHISHING;
    right QuizQuestion.LEGITIMATE; right QuizQuestion.LEGITIMATE;
    right QuizQuestion.LEGITIMATE; right QuizQuestion.PHISHING;
    missed_phish; false_alarm; false_alarm ].

(** Eight right answers of ten, the two wrong ones phishing emails taken
    for legitimate. *)
Definition quiz8 : list QuizQuestion.t :=
  [ right QuizQuestion.PHISHING; right QuizQuestion.PHISHING; right QuizQuestion.PHISHING;
    right QuizQuestion.LEGITIMATE; right QuizQuestion.LEGITIMATE;
    right QuizQuestion.LEGITIMATE; right QuizQuestion.PHISHING;
    right QuizQuestion.LEGITIMATE; missed_phish; missed_phish ].

(** The sent campaign, closed afterwards. *)
Definition completed : DB :=
  set_campaigns sent
    [SimulationCampaign.set_status (campaign_of sent) SimulationCampaign.COMPLETED].

(** The sent campaign with the tracking of opens switched off. *)
Definition untracked : DB :=
  let c := campaign_of sent in
  set_campaigns sent
    [SimulationCampaign.mk (SimulationCampaign.id c) (SimulationCampaign.company c)
       (SimulationCampaign.attack_vector c) (SimulationCampaign.status c)
       (SimulationCampaign.send_date c) (SimulationCampaign.target_all_employees c)
       (SimulationCampaign.target_employees c) false
       (SimulationCampaign.track_link_clicks c) (SimulationCampaign.track_credentials c)
       (SimulationCampaign.total_sent c) (SimulationCampaign.total_opened c)
       (SimulationCampaign.total_clicked c) (SimulationCampaign.total_reported c)
       (SimulationCampaign.total_credentials_entered c) (SimulationCampaign.sent_at c)].

(** The draft campaign scheduled instead ([send_immediately] false). *)
Definition scheduled : DB :=
  fst (fst (views.send 10 tokens (fun _ => true) db0 campaign0 false)).

(** The draft campaign sent at once while the mail server refuses every
    email. *)
Definition all_failed : DB :=
  fst (fst (views.send 10 tokens (fun _ => false) db0 campaign0 true)).

(** The simulation a link token names in an example store. *)
Definition simulation_of (db : DB) (link_token : string) : EmailSimulation.t :=
  match find (views.by_link_token link_token) (email_simulations db) with
  | Some s => s
  | None => EmailSimulation.create 0 0 0 (""%string, ""%string)
  end.

(** Two clicks of alice on the link of her simulation, at 20 and at 30. *)
Definition two_clicks : list TrackingEvent.t :=
  [ TrackingEvent.mk 3 1 1 1 TrackingEvent.LINK_CLICKED [] None "" 20;
    TrackingEvent.mk 4 1 1 1 TrackingEvent.LINK_CLICKED [] None "" 30 ].

(** The result of alice for the quiz with eight right answers, and the
    scheduled campaign after she took it. *)
Definition result8 : QuizResult.t := QuizViewSet._calculate_quiz_result 1 1 quiz8.
Definition quiz_taken : DB := signals.update_risk_score_from_quiz 5 scheduled result8.

(** A risk score with two of three quiz answers right and no other
    activity, and one with two of five. *)
Definition two_of_three : RiskScore.t :=
  RiskScore.mk 1 1 1 50 MEDIUM 1 3 2 0 0 0 0 0 0 0 0 0 false None None.
Definition two_of_five : RiskScore.t :=
  RiskScore.mk 1 1 1 50 MEDIUM 1 5 2 0 0 0 0 0 0 0 0 0 false None None.

(** All quiz answers right, and three of three simulations clicked. *)
Definition all_right : RiskScore.t :=
  RiskScore.mk 1 1 1 50 MEDIUM 1 10 10 0 0 0 0 0 0 0 0 0 false None None.
Definition all_clicked : RiskScore.t :=
  RiskScore.mk 1 1 1 50 MEDIUM 0 0 0 0 3 0 3 0 0 0 0 0 false None None.

End Example.

(** * Properties *)

(** ** Tables *)

Lemma next_id_fresh {A : Type} (pk : A -> Z) (rows : list A) (r : A) :
  In r rows -> pk r < Table.next_id pk rows.
Proof.
  unfold Table.next_id. induction rows as [|x xs IH]; cbn [In map fold_right]; [tauto|].
  intros [->|H]; [lia|]. specialize (IH H). lia.
Qed.

Lemma count_app {A : Type} (p : A -> bool) (xs ys : list A) :
  Table.count p (xs ++ ys) = Table.count p xs + Table.count p ys.
Proof. unfold Table.count. rewrite filter_app, length_app. lia. Qed.

Lemma count_nonneg {A : Type} (p : A -> bool) (xs : list A) : 0 <= Table.count p xs.
Proof. unfold Table.count. lia. Qed.

Lemma count_zero_existsb {A : Type} (p : A -> bool) (xs : list A) :
  existsb p xs = false -> Table.count p xs = 0.
Proof.
  unfold Table.count. induction xs as [|x xs IH]; simpl; [reflexivity|].
  destruct (p x); simpl; [discriminate | exact IH].
Qed.

Lemma find_update {A : Type} (pk : A -> Z) (p : A -> bool) (k : Z) (f : A -> A)
    (rows : list A) :
  (forall r, p (f r) = p r) ->
  find p (Table.update pk k f rows)
  = option_map (fun r => if pk r =? k then f r else r) (find p rows).
Proof.
  intros Hf. unfold Table.update. induction rows as [|x xs IH]; simpl; [reflexivity|].
  destruct (pk x =? k) eqn:E; [rewrite Hf|]; destruct (p x); simpl; rewrite ?E; auto.
Qed.

Lemma find_save {A : Type} (pk : A -> Z) (p : A -> bool) (row r : A) (rows : list A) :
  find p rows = Some r -> p row = true -> pk row = pk r ->
  find p (Table.save pk row rows) = Some row.
Proof.
  intros Hfind Hrow Hpk. unfold Table.save.
  assert (Hex : existsb (fun x => pk x =? pk row) rows = true).
  { apply existsb_exists. exists r. split; [|lia].
    apply find_some in Hfind. tauto. }
  rewrite Hex. unfold Table.update.
  induction rows as [|x xs IH]; simpl in *; [discriminate|].
  destruct (pk x =? pk row) eqn:E; simpl.
  - rewrite Hrow. reflexivity.
  - destruct (p x) eqn:Ep.
    + inversion Hfind; subst. lia.
    + rewrite orb_false_l in Hex. apply IH; assumption.
Qed.

Lemma find_save_new {A : Type} (pk : A -> Z) (p : A -> bool) (row : A) (rows : list A) :
  find p rows = None -> p row = true ->
  find p (rows ++ [row]) = Some row.
Proof.
  intros Hfind Hrow. induction rows as [|x xs IH]; simpl in *.
  - rewrite Hrow. reflexivity.
  - destruct (p x); [discriminate | auto].
Qed.

(** ** The tables an operation leaves alone *)

Lemma tracking_unchanged_refl (db : DB) : tracking_unchanged db db.
Proof. repeat split. Qed.

Lemma tracking_unchanged_trans (a b c : DB) :
  tracking_unchanged a b -> tracking_unchanged b c -> tracking_unchanged a c.
Proof. unfold tracking_unchanged. intuition congruence. Qed.

Lemma assign_modules_tracking (post_save : DB -> RiskScore.t -> DB) (now : Z) :
  (forall db r, tracking_unchanged db (post_save db r)
                /\ risk_score_history (post_save db r) = risk_score_history db) ->
  forall modules db r,
    tracking_unchanged db (signals.assign_modules post_save now db r modules)
    /\ risk_score_history (signals.assign_modules post_save now db r modules)
       = risk_score_history db.
Proof.
  intros Hpost. induction modules as [|m ms IH]; intros db r; simpl.
  - split; [apply tracking_unchanged_refl | reflexivity].
  - destruct (signals.open_assignment_exists db (RiskScore.employee r) (TrainingModule.id m)).
    + apply IH.
    + match goal with
      | |- tracking_unchanged _ (signals.assign_modules _ _ (post_save ?d ?x) ?y _) /\ _ =>
        destruct (IH (post_save d x) y) as [H1 H2];
        destruct (Hpost d x) as [H3 H4]
      end.
      split.
      * eapply tracking_unchanged_trans; [|exact H1].
        eapply tracking_unchanged_trans; [|exact H3].
        repeat split.
      * rewrite H2, H4. reflexivity.
Qed.

Lemma check_remediation_tracking (now : Z) (db : DB) (r : RiskScore.t) :
  tracking_unchanged db (signals.check_remediation_on_score_change now db r)
  /\ risk_score_history (signals.check_remediation_on_score_change now db r)
     = risk_score_history db.
Proof.
  unfold signals.check_remediation_on_score_change, signals.auto_assign_remediation_with.
  destruct (_ && _); [|split; [apply tracking_unchanged_refl | reflexivity]].
  destruct (_ <=? _); [split; [apply tracking_unchanged_refl | reflexivity]|].
  apply assign_modules_tracking. intros d x.
  split; [apply tracking_unchanged_refl | reflexivity].
Qed.

Lemma auto_assign_remediation_tracking (now : Z) (db : DB) (r : RiskScore.t) :
  tracking_unchanged db (signals.auto_assign_remediation now db r)
  /\ risk_score_history (signals.auto_assign_remediation now db r)
     = risk_score_history db.
Proof.
  unfold signals.auto_assign_remediation, signals.auto_assign_remediation_with.
  destruct (_ <=? _); [split; [apply tracking_unchanged_refl | reflexivity]|].
  apply assign_modules_tracking. intros d x. apply check_remediation_tracking.
Qed.

Lemma save_risk_score_tracking (now : Z) (db : DB) (r : RiskScore.t) :
  tracking_unchanged db (fst (signals.save_risk_score now db r))
  /\ risk_score_history (fst (signals.save_risk_score now db r))
     = risk_score_history db.
Proof.
  unfold signals.save_risk_score. simpl.
  match goal with
  | |- tracking_unchanged _ (signals.check_remediation_on_score_change _ ?d ?x) /\ _ =>
    destruct (check_remediation_tracking now d x) as [H1 H2]
  end.
  split; [|rewrite H2; reflexivity].
  eapply tracking_unchanged_trans; [|exact H1]. repeat split.
Qed.

Lemma get_or_create_risk_score_tracking (db : DB) (u : option User.t) :
  tracking_unchanged db (fst (signals.get_or_create_risk_score db u))
  /\ risk_score_history (fst (signals.get_or_create_risk_score db u))
     = risk_score_history db.
Proof.
  unfold signals.get_or_create_risk_score.
  destruct u as [u|]; [|split; [apply tracking_unchanged_refl | reflexivity]].
  destruct (User.company u); [|split; [apply tracking_unchanged_refl | reflexivity]].
  destruct (find _ _); simpl; split; try apply tracking_unchanged_refl; try reflexivity.
  repeat split.
Qed.

Lemma assign_vector_training_tracking (now : Z) (db : DB) (u : User.t)
    (r : RiskScore.t) (e : TrackingEvent.t) (c : SimulationCampaign.t) :
  tracking_unchanged db (signals.assign_vector_training now db u r e c)
  /\ risk_score_history (signals.assign_vector_training now db u r e c)
     = risk_score_history db.
Proof.
  unfold signals.assign_vector_training.
  destruct (signals.relevant_module db r c); [|split; [apply tracking_unchanged_refl | reflexivity]].
  destruct (signals.open_assignment_exists _ _ _);
    split; try apply tracking_unchanged_refl; try reflexivity.
  repeat split.
Qed.

Lemma update_risk_score_from_simulation_tracking (now : Z) (db : DB)
    (e : TrackingEvent.t) (s : EmailSimulation.t) (c : SimulationCampaign.t) :
  tracking_unchanged db (signals.update_risk_score_from_simulation now db e s c).
Proof.
  unfold signals.update_risk_score_from_simulation.
  destruct (negb _); [apply tracking_unchanged_refl|].
  destruct (Table.get _ _ _) as [u|]; [|apply tracking_unchanged_refl].
  destruct (negb _); [apply tracking_unchanged_refl|].
  pose proof (get_or_create_risk_score_tracking db (Some u)) as [H0 _].
  destruct (signals.get_or_create_risk_score db (Some u)) as [db0 [r|]]; simpl in H0;
    [|exact H0].
  destruct (signals.simulation_increments db0 e s) as [[[[a1 a2] a3] a4] a5].
  match goal with
  | |- context [signals.save_risk_score now db0 ?x] =>
    pose proof (save_risk_score_tracking now db0 x) as [H1 _];
    destruct (signals.save_risk_score now db0 x) as [db1 r1]
  end.
  simpl in H1.
  destruct (RiskScore.recalculate_score _) as [[sc r2]|];
    [|eapply tracking_unchanged_trans; eassumption].
  pose proof (save_risk_score_tracking now db1 r2) as [H2 _].
  destruct (signals.save_risk_score now db1 r2) as [db2 r3]. simpl in H2.
  assert (H3 : tracking_unchanged db
                 (signals.create_risk_history db2 r3
                    (signals.history_event_type (TrackingEvent.event_type e))
                    (RiskScore.score r) (RiskScore.score r3) (RiskScore.risk_level r)
                    "TrackingEvent" (Some (TrackingEvent.id e)))).
  { eapply tracking_unchanged_trans; [exact H0|].
    eapply tracking_unchanged_trans; [exact H1|].
    eapply tracking_unchanged_trans; [exact H2|]. repeat split. }
  destruct (TrackingEvent.event_type e); try exact H3;
    (eapply tracking_unchanged_trans; [exact H3|];
     eapply tracking_unchanged_trans;
       [apply auto_assign_remediation_tracking | apply assign_vector_training_tracking]).
Qed.

Lemma objects_create_events (now : Z) (db : DB) (s : EmailSimulation.t)
    (c : SimulationCampaign.t) (employee : Z) (k : TrackingEvent.EventType)
    (data : list (string * Value)) (ip : option string) (ua : string) :
  tracking_events (fst (fst (TrackingEvent_methods.objects_create now db s c employee k data ip ua)))
  = tracking_events db
    ++ [TrackingEvent.mk (Table.next_id TrackingEvent.id (tracking_events db))
          (EmailSimulation.id s) (SimulationCampaign.id c) employee k data ip ua now].
Proof.
  unfold TrackingEvent_methods.objects_create.
  match goal with
  | |- context [signals.update_risk_score_from_simulation now ?d ?e s c] =>
    pose proof (update_risk_score_from_simulation_tracking now d e s c) as (_ & _ & _ & H);
    set (db1 := signals.update_risk_score_from_simulation now d e s c) in *;
    set (self := e) in *
  end.
  simpl in H.
  assert (H2 : tracking_events (fst (TrackingEvent_methods._update_simulation_stats self db1 s))
               = tracking_events db1).
  { unfold TrackingEvent_methods._update_simulation_stats.
    repeat match goal with
           | |- context [if ?b then _ else _] => destruct b
           | |- context [match ?x with _ => _ end] => destruct x
           end; reflexivity. }
  destruct (TrackingEvent_methods._update_simulation_stats self db1 s) as [db2 s2].
  simpl in H2.
  unfold TrackingEvent_methods._update_campaign_stats. simpl.
  congruence.
Qed.

(** ** Simulation flags *)

Lemma EventType_eqb_eq (a b : TrackingEvent.EventType) :
  TrackingEvent.EventType_eqb a b = true <-> a = b.
Proof. split; [destruct a, b; simpl; congruence | intros ->; destruct b; reflexivity]. Qed.

Lemma EventType_eqb_refl (a : TrackingEvent.EventType) :
  TrackingEvent.EventType_eqb a a = true.
Proof. destruct a; reflexivity. Qed.

(** One event: a flag that is set stays set, with its timestamp. *)
Lemma update_simulation_stats_keeps (k : TrackingEvent.EventType)
    (self : TrackingEvent.t) (db : DB) (sim : EmailSimulation.t) :
  flag_of k sim = true ->
  flag_of k (snd (TrackingEvent_methods._update_simulation_stats self db sim)) = true
  /\ stamp_of k (snd (TrackingEvent_methods._update_simulation_stats self db sim))
     = stamp_of k sim.
Proof.
  intros Hk. unfold TrackingEvent_methods._update_simulation_stats.
  destruct k; simpl in Hk; try discriminate;
    destruct (TrackingEvent.event_type self); simpl;
    destruct (EmailSimulation.is_pending (EmailSimulation.status sim)); simpl;
    rewrite ?Hk; simpl;
    repeat match goal with
           | |- context [negb ?b] => destruct b eqn:?; simpl
           end; auto.
Qed.

(** One event on a simulation whose flag is not set: an event of the type
    sets the flag and writes its own timestamp, any other event leaves
    both. *)
Lemma update_simulation_stats_first (k : TrackingEvent.EventType)
    (self : TrackingEvent.t) (db : DB) (sim : EmailSimulation.t) :
  TrackingEvent.relevant k = true ->
  flag_of k sim = false ->
  let sim' := snd (TrackingEvent_methods._update_simulation_stats self db sim) in
  if TrackingEvent.EventType_eqb (TrackingEvent.event_type self) k
  then flag_of k sim' = true /\ stamp_of k sim' = Some (TrackingEvent.created_at self)
  else flag_of k sim' = false /\ stamp_of k sim' = stamp_of k sim.
Proof.
  intros Hr Hk. unfold TrackingEvent_methods._update_simulation_stats.
  destruct k; simpl in Hr, Hk; try discriminate;
    destruct (TrackingEvent.event_type self); simpl;
    destruct (EmailSimulation.is_pending (EmailSimulation.status sim)); simpl;
    rewrite ?Hk; simpl;
    repeat match goal with
           | |- context [negb ?b] => destruct b eqn:?; simpl
           end; auto.
Qed.

Lemma apply_events_keeps (k : TrackingEvent.EventType)
    (events : list TrackingEvent.t) :
  forall (db : DB) (sim : EmailSimulation.t),
    flag_of k sim = true ->
    flag_of k (snd (apply_events events db sim)) = true
    /\ stamp_of k (snd (apply_events events db sim)) = stamp_of k sim.
Proof.
  induction events as [|e rest IH]; intros db sim Hk; simpl; [auto|].
  destruct (TrackingEvent_methods._update_simulation_stats e db sim) as [db1 sim1] eqn:E.
  destruct (update_simulation_stats_keeps k e db sim Hk) as [H1 H2].
  rewrite E in H1, H2. simpl in H1, H2.
  destruct (IH db1 sim1 H1) as [H3 H4]. split; [exact H3 | congruence].
Qed.

(** C5. For every simulation and every sequence of tracking events, each
    of the four flags (was_opened, was_clicked, credentials_entered,
    was_reported), once true, is true after the whole sequence and its
    timestamp is the one it had; a flag that is false is set by the first
    event of its type in the sequence, whose timestamp is the one kept,
    whatever events follow. *)
Theorem C5_flags_monotone_timestamps_write_once
    (k : TrackingEvent.EventType) (events : list TrackingEvent.t)
    (db : DB) (sim : EmailSimulation.t) :
  TrackingEvent.relevant k = true ->
  let sim' := snd (apply_events events db sim) in
  (flag_of k sim = true ->
   flag_of k sim' = true /\ stamp_of k sim' = stamp_of k sim)
  /\ (flag_of k sim = false ->
      match first_of k events with
      | Some e => flag_of k sim' = true
                  /\ stamp_of k sim' = Some (TrackingEvent.created_at e)
      | None => flag_of k sim' = false /\ stamp_of k sim' = stamp_of k sim
      end).
Proof.
  intros Hr. simpl. split; [apply apply_events_keeps|].
  revert db sim. induction events as [|e rest IH]; intros db sim Hk; simpl; [auto|].
  destruct (TrackingEvent_methods._update_simulation_stats e db sim) as [db1 sim1] eqn:E.
  pose proof (update_simulation_stats_first k e db sim Hr Hk) as H.
  rewrite E in H. simpl in H.
  destruct (TrackingEvent.EventType_eqb (TrackingEvent.event_type e) k).
  - destruct H as [H1 H2].
    destruct (apply_events_keeps k rest db1 sim1 H1) as [H3 H4].
    split; [exact H3 | congruence].
  - destruct H as [H1 H2]. specialize (IH db1 sim1 H1).
    destruct (first_of k rest); destruct IH as [H3 H4]; split; congruence.
Qed.

(** ** Credential submissions *)

(** C9. The store and the response after a credential submission depend on
    the submitted username and password only through the truth value of
    each (for a string: whether it is non-empty); the event that an accepted
    submission appends to the log carries exactly the two booleans
    username_field_filled and password_field_filled, and a submission that
    is not accepted leaves the store as it was. *)
Theorem C9_credentials_only_field_presence
    (now : Z) (db : DB) (link_token : string) (data data' : list (string * Value))
    (ip : option string) (user_agent : string) :
  truthy (dict_get "username" data) = truthy (dict_get "username" data') ->
  truthy (dict_get "password" data) = truthy (dict_get "password" data') ->
  views.credentials_submitted_view now db link_token data ip user_agent
  = views.credentials_submitted_view now db link_token data' ip user_agent
  /\ match views.get_simulation db (views.by_link_token link_token) with
     | Some (s, c) =>
       if SimulationCampaign.track_credentials c
       then exists e,
           tracking_events
             (fst (views.credentials_submitted_view now db link_token data ip user_agent))
           = tracking_events db ++ [e]
           /\ TrackingEvent.event_type e = TrackingEvent.CREDENTIALS_ENTERED
           /\ TrackingEvent.email_simulation e = EmailSimulation.id s
           /\ TrackingEvent.event_data e
              = [ ("username_field_filled"%string, VBool (truthy (dict_get "username" data)));
                  ("password_field_filled"%string, VBool (truthy (dict_get "password" data))) ]
       else fst (views.credentials_submitted_view now db link_token data ip user_agent) = db
     | None =>
       fst (views.credentials_submitted_view now db link_token data ip user_agent) = db
     end.
Proof.
  intros Hu Hp. split.
  - unfold views.credentials_submitted_view. rewrite Hu, Hp. reflexivity.
  - unfold views.credentials_submitted_view.
    destruct (views.get_simulation db (views.by_link_token link_token)) as [[s c]|];
      [|reflexivity].
    destruct (SimulationCampaign.track_credentials c); simpl; [|reflexivity].
    pose proof (objects_create_events now db s c (EmailSimulation.employee s)
                  TrackingEvent.CREDENTIALS_ENTERED
                  [ ("username_field_filled"%string, VBool (truthy (dict_get "username" data)));
                    ("password_field_filled"%string, VBool (truthy (dict_get "password" data))) ]
                  ip user_agent) as H.
    destruct (TrackingEvent_methods.objects_create _ _ _ _ _ _ _ _ _) as [[db' s'] c'].
    simpl in *. eexists. split; [exact H|]. repeat split.
Qed.

(** ** Campaign rates *)

Lemma count_le {A : Type} (p q : A -> bool) (xs : list A) :
  (forall x, p x = true -> q x = true) -> Table.count p xs <= Table.count q xs.
Proof.
  intros H. unfold Table.count. induction xs as [|x xs IH]; simpl; [lia|].
  destruct (p x) eqn:E; [rewrite (H x E); simpl; lia|].
  destruct (q x); simpl; lia.
Qed.

(** C10. With a non-zero effective sent count the compromise rate is
    max(total_clicked, total_credentials_entered) / sent * 100.  When the
    two counters are the counts of the flags, that maximum is at most the
    number of compromised simulations, and it can be smaller: after one
    employee only clicked and another only entered credentials the rate is
    50.0 although both simulations of the campaign are compromised. *)
Theorem C10_compromise_rate_takes_the_maximum (db : DB) (self : SimulationCampaign.t) :
  SimulationCampaign_methods._effective_sent_count db self <> 0 ->
  SimulationCampaign_methods.compromise_rate db self
  = PyFloat.mul_int
      (PyFloat.truediv
         (Z.max (SimulationCampaign.total_clicked self)
                (SimulationCampaign.total_credentials_entered self))
         (SimulationCampaign_methods._effective_sent_count db self))
      100
  /\ (SimulationCampaign.total_clicked self
      = count_simulations db (SimulationCampaign.id self) EmailSimulation.was_clicked ->
      SimulationCampaign.total_credentials_entered self
      = count_simulations db (SimulationCampaign.id self) EmailSimulation.credentials_entered ->
      Z.max (SimulationCampaign.total_clicked self)
            (SimulationCampaign.total_credentials_entered self)
      <= count_simulations db (SimulationCampaign.id self) EmailSimulation.is_compromised)
  /\ (let db := Example.click_and_credentials in
      let c := Example.campaign_of db in
      SimulationCampaign.total_clicked c = 1
      /\ SimulationCampaign.total_credentials_entered c = 1
      /\ SimulationCampaign_methods._effective_sent_count db c = 2
      /\ SimulationCampaign_methods.compromise_rate db c = PyFloat.of_int 50
      /\ count_simulations db (SimulationCampaign.id c) EmailSimulation.is_compromised = 2).
Proof.
  intros Hsent. split; [|split].
  - unfold SimulationCampaign_methods.compromise_rate.
    destruct (SimulationCampaign_methods._effective_sent_count db self =? 0) eqn:E;
      [apply Z.eqb_eq in E; contradiction | reflexivity].
  - intros H1 H2. rewrite H1, H2. unfold count_simulations.
    apply Z.max_lub; apply count_le; intros x Hx;
      apply andb_prop in Hx; destruct Hx as [Ha Hb];
      unfold EmailSimulation.is_compromised; rewrite Ha, Hb; simpl;
      [reflexivity | apply orb_true_r].
  - vm_compute. repeat split.
Qed.

(** ** Quiz results *)

Lemma first_match_rules (score : PyFloat.float) (missed fp : Z) :
  QuizViewSet._determine_risk_level score missed fp
  = SpecQuiz.first_match (SpecQuiz.rules score missed) CRITICAL.
Proof. reflexivity. Qed.

(** C8. For every list of answered questions the calculated result has
    score = correct_answers / total_questions * 100 (0 for an empty quiz);
    its tier is the one of the first rule that holds among score >= 90 and
    missed = 0 (LOW), score >= 70 and missed <= 1 (MEDIUM), score >= 50 or
    missed <= 3 (HIGH), and CRITICAL when none holds; passed is score >= 70
    whatever the tier: seven of ten with one missed email passes as MEDIUM,
    eight of ten with two missed emails passes as HIGH. *)
Theorem C8_quiz_result (pk employee : Z) (questions : list QuizQuestion.t) :
  let r := QuizViewSet._calculate_quiz_result pk employee questions in
  let score := QuizResult.score r in
  let missed := QuizResult.phishing_emails_missed r in
  QuizResult.total_questions r = Z.of_nat (List.length questions)
  /\ QuizResult.correct_answers r = Table.count QuizQuestion.is_correct questions
  /\ score = SpecQuiz.score (QuizResult.correct_answers r) (QuizResult.total_questions r)
  /\ QuizResult.risk_level r
     = SpecQuiz.first_match (SpecQuiz.rules score missed) CRITICAL
  /\ (QuizResult.risk_level r = LOW
      <-> PyFloat.ge_int score 90 = true /\ missed = 0)
  /\ (QuizResult.risk_level r = MEDIUM
      <-> ~ (PyFloat.ge_int score 90 = true /\ missed = 0)
          /\ PyFloat.ge_int score 70 = true /\ missed <= 1)
  /\ (QuizResult.risk_level r = HIGH
      <-> ~ (PyFloat.ge_int score 90 = true /\ missed = 0)
          /\ ~ (PyFloat.ge_int score 70 = true /\ missed <= 1)
          /\ (PyFloat.ge_int score 50 = true \/ missed <= 3))
  /\ (QuizResult.risk_level r = CRITICAL
      <-> PyFloat.ge_int score 50 = false /\ 3 < missed)
  /\ QuizResult.passed r = PyFloat.ge_int score 70
  /\ (let r7 := QuizViewSet._calculate_quiz_result 1 1 Example.quiz7 in
      QuizResult.score r7 = PyFloat.of_int 70
      /\ QuizResult.passed r7 = true /\ QuizResult.risk_level r7 = MEDIUM)
  /\ (let r8 := QuizViewSet._calculate_quiz_result 1 1 Example.quiz8 in
      QuizResult.passed r8 = true /\ QuizResult.risk_level r8 = HIGH).
Proof.
  cbv zeta.
  set (r := QuizViewSet._calculate_quiz_result pk employee questions).
  assert (Hlvl : QuizResult.risk_level r
                 = QuizViewSet._determine_risk_level (QuizResult.score r)
                     (QuizResult.phishing_emails_missed r)
                     (QuizResult.false_positives r)) by reflexivity.
  split.
  { unfold r, QuizViewSet._calculate_quiz_result, Table.count. simpl.
    f_equal. f_equal. clear. induction questions; simpl; congruence. }
  split; [reflexivity|].
  split.
  { unfold r, QuizViewSet._calculate_quiz_result, SpecQuiz.score. simpl.
    pose proof (count_nonneg (fun _ : QuizQuestion.t => true) questions) as Hn.
    destruct (Table.count (fun _ => true) questions =? 0) eqn:E.
    - apply Z.eqb_eq in E. rewrite E. reflexivity.
    - apply Z.eqb_neq in E.
      destruct (Table.count (fun _ => true) questions >? 0) eqn:E2; [reflexivity|].
      rewrite Z.gtb_ltb in E2. apply Z.ltb_ge in E2. lia. }
  split; [rewrite Hlvl; apply first_match_rules|].
  rewrite Hlvl. unfold QuizViewSet._determine_risk_level.
  change (QuizResult.passed r) with (PyFloat.ge_int (QuizResult.score r) 70).
  set (s := QuizResult.score r). set (m := QuizResult.phishing_emails_missed r).
  assert (H7 : QuizResult.score (QuizViewSet._calculate_quiz_result 1 1 Example.quiz7)
               = PyFloat.of_int 70
               /\ QuizResult.passed (QuizViewSet._calculate_quiz_result 1 1 Example.quiz7)
                  = true
               /\ QuizResult.risk_level (QuizViewSet._calculate_quiz_result 1 1 Example.quiz7)
                  = MEDIUM)
    by (vm_compute; repeat split).
  assert (H8 : QuizResult.passed (QuizViewSet._calculate_quiz_result 1 1 Example.quiz8)
               = true
               /\ QuizResult.risk_level (QuizViewSet._calculate_quiz_result 1 1 Example.quiz8)
                  = HIGH)
    by (vm_compute; repeat split).
  refine (conj _ (conj _ (conj _ (conj _ (conj eq_refl (conj H7 H8))))));
    clear H7 H8 Hlvl;
    destruct (PyFloat.ge_int s 90) eqn:E90; destruct (PyFloat.ge_int s 70) eqn:E70;
    destruct (PyFloat.ge_int s 50) eqn:E50;
    destruct (Z.eqb_spec m 0) as [M0|M0]; destruct (Z.leb_spec m 1) as [M1|M1];
    destruct (Z.leb_spec m 3) as [M3|M3];
    cbn [andb orb]; try lia;
    (split; intros; intuition (try discriminate; try lia)).
Qed.

(** ** Remediation assignments *)

Lemma no_second_open_refl (db : DB) : no_second_open db db.
Proof. unfold no_second_open. repeat split; auto. intros. lia. Qed.

Lemma no_second_open_trans (a b c : DB) :
  no_second_open a b -> no_second_open b c -> no_second_open a c.
Proof.
  intros (A1 & A2 & A3) (B1 & B2 & B3). repeat split.
  - intros e m H. rewrite (B1 e m (A2 e m H)). apply A1, H.
  - intros e m H. apply B2, A2, H.
  - intros e m. specialize (A3 e m). specialize (B3 e m). lia.
Qed.

Lemma no_second_open_same (db db' : DB) :
  remediation_trainings db' = remediation_trainings db -> no_second_open db db'.
Proof.
  intros H. unfold no_second_open, assignments_of, signals.open_assignment_exists, open_count.
  rewrite H. repeat split; auto. intros. lia.
Qed.

Lemma create_assignment_no_second_open (db : DB) (e c m : Z) (reason : string)
    (due : Z) (st : string) (sid : Z) :
  signals.open_assignment_exists db e m = false ->
  no_second_open db (signals.create_assignment db e c m reason due st sid).
Proof.
  intros Hno. unfold signals.create_assignment. repeat split.
  - intros e' m' H. unfold assignments_of. simpl. rewrite filter_app. simpl.
    destruct (e =? e') eqn:Ee; destruct (m =? m') eqn:Em; simpl;
      rewrite ?app_nil_r; try reflexivity.
    apply Z.eqb_eq in Ee, Em. subst. congruence.
  - intros e' m' H. unfold signals.open_assignment_exists in *. simpl.
    rewrite existsb_app, H. reflexivity.
  - intros e' m'. unfold open_count. simpl. rewrite count_app.
    unfold Table.count at 2. simpl.
    destruct (e =? e') eqn:Ee; destruct (m =? m') eqn:Em; simpl;
      try (pose proof (count_nonneg
             (fun a => (RemediationTraining.employee a =? e')
                       && (RemediationTraining.training_module a =? m')
                       && RemediationTraining.is_open (RemediationTraining.status a))
             (remediation_trainings db)); lia).
    apply Z.eqb_eq in Ee, Em. subst.
    rewrite (count_zero_existsb _ _ Hno). lia.
Qed.

Lemma create_assignment_opens (db : DB) (e c m : Z) (reason : string)
    (due : Z) (st : string) (sid : Z) :
  signals.open_assignment_exists (signals.create_assignment db e c m reason due st sid) e m
  = true.
Proof.
  unfold signals.create_assignment, signals.open_assignment_exists. simpl.
  rewrite existsb_app. simpl. rewrite !Z.eqb_refl. simpl. apply orb_true_r.
Qed.

Lemma update_keys (k : Z) (n : Z) (ms : list TrainingModule.t) :
  map module_key (Table.update TrainingModule.id k
                    (fun m => TrainingModule.add_times_assigned m n) ms)
  = map module_key ms.
Proof.
  unfold Table.update. induction ms as [|m ms IH]; simpl; [reflexivity|].
  rewrite IH. destruct (TrainingModule.id m =? k); reflexivity.
Qed.

Section Pass.
Variable post_save : DB -> RiskScore.t -> DB.
Variable now : Z.
Hypothesis post_save_ok :
  forall db r, no_second_open db (post_save db r)
               /\ map module_key (training_modules (post_save db r))
                  = map module_key (training_modules db).

Lemma assign_modules_ok (modules : list TrainingModule.t) :
  forall db r,
    no_second_open db (signals.assign_modules post_save now db r modules)
    /\ map module_key (training_modules (signals.assign_modules post_save now db r modules))
       = map module_key (training_modules db).
Proof.
  induction modules as [|m ms IH]; intros db r; simpl.
  - split; [apply no_second_open_refl | reflexivity].
  - destruct (signals.open_assignment_exists db (RiskScore.employee r) (TrainingModule.id m))
      eqn:E; [apply IH|].
    match goal with
    | |- no_second_open _ (signals.assign_modules _ _ (post_save ?d ?x) ?y _) /\ _ =>
      destruct (IH (post_save d x) y) as [H1 H2];
      destruct (post_save_ok d x) as [H3 H4]
    end.
    split.
    + eapply no_second_open_trans; [|exact H1].
      eapply no_second_open_trans; [|exact H3].
      eapply no_second_open_trans;
        [apply create_assignment_no_second_open; exact E|].
      apply no_second_open_same. reflexivity.
    + rewrite H2, H4. simpl. apply update_keys.
Qed.

Lemma assign_modules_covers (modules : list TrainingModule.t) :
  forall db r m,
    In m modules ->
    signals.open_assignment_exists (signals.assign_modules post_save now db r modules)
      (RiskScore.employee r) (TrainingModule.id m) = true.
Proof.
  induction modules as [|x xs IH]; intros db r m Hin; [destruct Hin|].
  simpl.
  destruct (signals.open_assignment_exists db (RiskScore.employee r) (TrainingModule.id x))
    eqn:E.
  - destruct Hin as [->|Hin]; [|apply IH, Hin].
    destruct (assign_modules_ok xs db r) as [(_ & Hmono & _) _]. apply Hmono, E.
  - destruct Hin as [->|Hin]; [|apply (IH _ (RiskScore.pre_save r)), Hin].
    match goal with
    | |- signals.open_assignment_exists
           (signals.assign_modules _ _ (post_save ?d ?x) ?y _) _ _ = true =>
      destruct (assign_modules_ok xs (post_save d x) y) as [(_ & Hmono & _) _];
      destruct (post_save_ok d x) as [(_ & Hmono2 & _) _]
    end.
    apply Hmono, Hmono2.
    unfold signals.bump_trainings_assigned, signals.bump_times_assigned,
      signals.open_assignment_exists. simpl.
    rewrite existsb_app. simpl. rewrite !Z.eqb_refl. simpl. apply orb_true_r.
Qed.

Lemma assign_modules_noop (modules : list TrainingModule.t) (db : DB) (r : RiskScore.t) :
  (forall m, In m modules ->
             signals.open_assignment_exists db (RiskScore.employee r) (TrainingModule.id m)
             = true) ->
  signals.assign_modules post_save now db r modules = db.
Proof.
  induction modules as [|x xs IH]; intros H; simpl; [reflexivity|].
  rewrite (H x (or_introl eq_refl)). apply IH. intros m Hm. apply H. right. exact Hm.
Qed.
End Pass.

Lemma mandatory_modules_keys (db db' : DB) (r : RiskScore.t) :
  map module_key (training_modules db') = map module_key (training_modules db) ->
  map TrainingModule.id (signals.mandatory_modules db' r)
  = map TrainingModule.id (signals.mandatory_modules db r).
Proof.
  unfold signals.mandatory_modules.
  generalize (training_modules db) (training_modules db').
  induction l as [|x xs IH]; intros [|y ys] H; simpl in *; try discriminate; [reflexivity|].
  injection H as E1 E2 E3 E4 E5 H2.
  rewrite E3, E4, E5.
  match goal with |- context [if ?b then _ else _] => destruct b end;
    simpl; rewrite (IH ys); congruence.
Qed.

Lemma from_signal_ok (db : DB) (r : RiskScore.t) :
  no_second_open db (signals.check_remediation_from_signal db r)
  /\ map module_key (training_modules (signals.check_remediation_from_signal db r))
     = map module_key (training_modules db).
Proof. split; [apply no_second_open_refl | reflexivity]. Qed.

Lemma check_remediation_ok (now : Z) (db : DB) (r : RiskScore.t) :
  no_second_open db (signals.check_remediation_on_score_change now db r)
  /\ map module_key (training_modules (signals.check_remediation_on_score_change now db r))
     = map module_key (training_modules db).
Proof.
  unfold signals.check_remediation_on_score_change, signals.auto_assign_remediation_with.
  destruct (_ && _); [|split; [apply no_second_open_refl | reflexivity]].
  destruct (_ <=? _); [split; [apply no_second_open_refl | reflexivity]|].
  apply assign_modules_ok, from_signal_ok.
Qed.

Lemma auto_assign_remediation_ok (now : Z) (db : DB) (r : RiskScore.t) :
  no_second_open db (signals.auto_assign_remediation now db r)
  /\ map module_key (training_modules (signals.auto_assign_remediation now db r))
     = map module_key (training_modules db).
Proof.
  unfold signals.auto_assign_remediation, signals.auto_assign_remediation_with.
  destruct (_ <=? _); [split; [apply no_second_open_refl | reflexivity]|].
  apply assign_modules_ok. intros. apply check_remediation_ok.
Qed.

Lemma auto_assign_remediation_twice (now : Z) (db : DB) (r : RiskScore.t) :
  signals.auto_assign_remediation now (signals.auto_assign_remediation now db r) r
  = signals.auto_assign_remediation now db r.
Proof.
  pose proof (auto_assign_remediation_ok now db r) as [_ Hkeys].
  unfold signals.auto_assign_remediation, signals.auto_assign_remediation_with in *.
  destruct (RiskScore.score r <=? 70); [reflexivity|].
  set (hook := signals.check_remediation_on_score_change now) in *.
  set (db' := signals.assign_modules hook now db r (signals.mandatory_modules db r)) in *.
  apply assign_modules_noop. intros m Hm.
  pose proof (mandatory_modules_keys db db' r Hkeys) as Hids.
  assert (Hin : In (TrainingModule.id m) (map TrainingModule.id (signals.mandatory_modules db r))).
  { rewrite <- Hids. apply in_map, Hm. }
  apply in_map_iff in Hin. destruct Hin as (m0 & Hid & Hm0). rewrite <- Hid.
  apply assign_modules_covers; [intros; apply check_remediation_ok | exact Hm0].
Qed.

Lemma assign_vector_training_ok (now : Z) (db : DB) (u : User.t) (r : RiskScore.t)
    (e : TrackingEvent.t) (c : SimulationCampaign.t) :
  no_second_open db (signals.assign_vector_training now db u r e c).
Proof.
  unfold signals.assign_vector_training.
  destruct (signals.relevant_module db r c) as [m|]; [|apply no_second_open_refl].
  destruct (signals.open_assignment_exists db (User.id u) (TrainingModule.id m)) eqn:E;
    [apply no_second_open_refl|].
  eapply no_second_open_trans; [apply create_assignment_no_second_open; exact E|].
  apply no_second_open_same. reflexivity.
Qed.

Lemma save_risk_score_no_second_open (now : Z) (db : DB) (r : RiskScore.t) :
  no_second_open db (fst (signals.save_risk_score now db r)).
Proof.
  unfold signals.save_risk_score. simpl.
  eapply no_second_open_trans; [|apply check_remediation_ok].
  apply no_second_open_same. reflexivity.
Qed.

Lemma get_or_create_no_second_open (db : DB) (u : option User.t) :
  no_second_open db (fst (signals.get_or_create_risk_score db u)).
Proof.
  apply no_second_open_same. unfold signals.get_or_create_risk_score.
  destruct u as [u|]; [|reflexivity].
  destruct (User.company u); [|reflexivity].
  destruct (find _ _); reflexivity.
Qed.

Lemma update_risk_score_from_simulation_no_second_open (now : Z) (db : DB)
    (e : TrackingEvent.t) (s : EmailSimulation.t) (c : SimulationCampaign.t) :
  no_second_open db (signals.update_risk_score_from_simulation now db e s c).
Proof.
  unfold signals.update_risk_score_from_simulation.
  destruct (negb _); [apply no_second_open_refl|].
  destruct (Table.get _ _ _) as [u|]; [|apply no_second_open_refl].
  destruct (negb _); [apply no_second_open_refl|].
  pose proof (get_or_create_no_second_open db (Some u)) as H0.
  destruct (signals.get_or_create_risk_score db (Some u)) as [db0 [r|]]; simpl in H0;
    [|exact H0].
  destruct (signals.simulation_increments db0 e s) as [[[[a1 a2] a3] a4] a5].
  match goal with
  | |- context [signals.save_risk_score now db0 ?x] =>
    pose proof (save_risk_score_no_second_open now db0 x) as H1;
    destruct (signals.save_risk_score now db0 x) as [db1 r1]
  end.
  simpl in H1.
  destruct (RiskScore.recalculate_score _) as [[sc r2]|];
    [|eapply no_second_open_trans; eassumption].
  pose proof (save_risk_score_no_second_open now db1 r2) as H2.
  destruct (signals.save_risk_score now db1 r2) as [db2 r3]. simpl in H2.
  assert (H3 : no_second_open db
                 (signals.create_risk_history db2 r3
                    (signals.history_event_type (TrackingEvent.event_type e))
                    (RiskScore.score r) (RiskScore.score r3) (RiskScore.risk_level r)
                    "TrackingEvent" (Some (TrackingEvent.id e)))).
  { eapply no_second_open_trans; [exact H0|].
    eapply no_second_open_trans; [exact H1|].
    eapply no_second_open_trans; [exact H2|].
    apply no_second_open_same. reflexivity. }
  destruct (TrackingEvent.event_type e); try exact H3;
    (eapply no_second_open_trans; [exact H3|];
     eapply no_second_open_trans;
       [apply auto_assign_remediation_ok | apply assign_vector_training_ok]).
Qed.

Lemma update_risk_score_from_quiz_no_second_open (now : Z) (db : DB) (q : QuizResult.t) :
  no_second_open db (signals.update_risk_score_from_quiz now db q).
Proof.
  unfold signals.update_risk_score_from_quiz.
  destruct (Table.get _ _ _) as [u|]; [|apply no_second_open_refl].
  destruct (negb _); [apply no_second_open_refl|].
  pose proof (get_or_create_no_second_open db (Some u)) as H0.
  destruct (signals.get_or_create_risk_score db (Some u)) as [db0 [r|]]; simpl in H0;
    [|exact H0].
  match goal with
  | |- context [signals.save_risk_score now db0 ?x] =>
    pose proof (save_risk_score_no_second_open now db0 x) as H1;
    destruct (signals.save_risk_score now db0 x) as [db1 r1]
  end.
  simpl in H1.
  destruct (RiskScore.recalculate_score _) as [[sc r2]|];
    [|eapply no_second_open_trans; eassumption].
  pose proof (save_risk_score_no_second_open now db1 r2) as H2.
  destruct (signals.save_risk_score now db1 r2) as [db2 r3]. simpl in H2.
  eapply no_second_open_trans; [exact H0|].
  eapply no_second_open_trans; [exact H1|].
  eapply no_second_open_trans; [exact H2|].
  eapply no_second_open_trans; [|apply auto_assign_remediation_ok].
  apply no_second_open_same. reflexivity.
Qed.

Lemma no_second_open_invariant (db db' : DB) :
  no_second_open db db' ->
  (forall e m, open_count db e m <= 1) -> forall e m, open_count db' e m <= 1.
Proof. intros (_ & _ & H) Hinv e m. specialize (H e m). specialize (Hinv e m). lia. Qed.

(** C7. The assignment pass, called once or twice in a row, the training
    chosen by the attack vector and the two aggregators that call them
    never add an assignment for a pair of an employee and a module that has
    an ASSIGNED or IN_PROGRESS assignment: the assignments of such a pair
    stay as they are, a store in which every pair has at most one open
    assignment stays so, and a second pass right after the first changes
    nothing. *)
Theorem C7_no_second_open_assignment (now : Z) (db : DB) (risk_score : RiskScore.t) :
  let db' := signals.auto_assign_remediation now db risk_score in
  (forall e m, signals.open_assignment_exists db e m = true ->
               assignments_of db' e m = assignments_of db e m)
  /\ ((forall e m, open_count db e m <= 1) -> forall e m, open_count db' e m <= 1)
  /\ signals.auto_assign_remediation now db' risk_score = db'
  /\ (forall employee instance campaign,
        no_second_open db
          (signals.assign_vector_training now db employee risk_score instance campaign))
  /\ (forall instance email_simulation campaign,
        no_second_open db
          (signals.update_risk_score_from_simulation now db instance email_simulation campaign))
  /\ (forall instance, no_second_open db (signals.update_risk_score_from_quiz now db instance)).
Proof.
  cbv zeta. pose proof (auto_assign_remediation_ok now db risk_score) as [H _].
  split; [apply H|].
  split; [apply no_second_open_invariant, H|].
  split; [apply auto_assign_remediation_twice|].
  split; [intros; apply assign_vector_training_ok|].
  split; [intros; apply update_risk_score_from_simulation_no_second_open|].
  intros; apply update_risk_score_from_quiz_no_second_open.
Qed.

(** ** The gates of the tracking views *)

Lemma update_simulation_stats_row (p : EmailSimulation.t -> bool)
    (self : TrackingEvent.t) (db : DB) (s : EmailSimulation.t) :
  (forall x y, EmailSimulation.tracking_token x = EmailSimulation.tracking_token y ->
               EmailSimulation.link_token x = EmailSimulation.link_token y ->
               p x = p y) ->
  find p (email_simulations db) = Some s ->
  find p (email_simulations (fst (TrackingEvent_methods._update_simulation_stats self db s)))
  = Some (snd (TrackingEvent_methods._update_simulation_stats self db s)).
Proof.
  intros Hp Hfind.
  assert (Hps : p s = true) by (apply find_some in Hfind; tauto).
  unfold TrackingEvent_methods._update_simulation_stats.
  destruct (EmailSimulation.is_pending (EmailSimulation.status s)
            && TrackingEvent.relevant (TrackingEvent.event_type self));
    destruct (TrackingEvent.event_type self); simpl;
    repeat match goal with
           | |- context [negb ?b] => destruct b; simpl
           end;
    try exact Hfind;
    (apply (find_save EmailSimulation.id p _ s); [exact Hfind | | reflexivity];
     rewrite <- Hps; apply Hp; reflexivity).
Qed.

Lemma update_simulation_stats_frame (self : TrackingEvent.t) (db : DB)
    (s : EmailSimulation.t) :
  let db' := fst (TrackingEvent_methods._update_simulation_stats self db s) in
  users db' = users db /\ campaigns db' = campaigns db
  /\ tracking_events db' = tracking_events db
  /\ risk_scores db' = risk_scores db
  /\ risk_score_history db' = risk_score_history db
  /\ remediation_trainings db' = remediation_trainings db.
Proof.
  unfold TrackingEvent_methods._update_simulation_stats.
  destruct (EmailSimulation.is_pending (EmailSimulation.status s)
            && TrackingEvent.relevant (TrackingEvent.event_type self));
    destruct (TrackingEvent.event_type self); simpl;
    repeat match goal with
           | |- context [negb ?b] => destruct b; simpl
           end; repeat split.
Qed.

Lemma update_simulation_stats_flag (k : TrackingEvent.EventType)
    (self : TrackingEvent.t) (db : DB) (s : EmailSimulation.t) :
  TrackingEvent.relevant k = true ->
  TrackingEvent.event_type self = k ->
  flag_of k (snd (TrackingEvent_methods._update_simulation_stats self db s)) = true.
Proof.
  intros Hr Hk. destruct (flag_of k s) eqn:E.
  - apply update_simulation_stats_keeps, E.
  - pose proof (update_simulation_stats_first k self db s Hr E) as H.
    simpl in H. rewrite Hk, EventType_eqb_refl in H. apply H.
Qed.

Lemma objects_create_accepts (p : EmailSimulation.t -> bool) (now : Z) (db : DB)
    (s : EmailSimulation.t) (c : SimulationCampaign.t) (employee : Z)
    (k : TrackingEvent.EventType) (data : list (string * Value))
    (ip : option string) (ua : string) :
  (forall x y, EmailSimulation.tracking_token x = EmailSimulation.tracking_token y ->
               EmailSimulation.link_token x = EmailSimulation.link_token y ->
               p x = p y) ->
  TrackingEvent.relevant k = true ->
  views.get_simulation db p = Some (s, c) ->
  accepted k p db
    (fst (fst (TrackingEvent_methods.objects_create now db s c employee k data ip ua))).
Proof.
  intros Hp Hr Hget.
  assert (Hfind : find p (email_simulations db) = Some s).
  { unfold views.get_simulation in Hget.
    destruct (find p (email_simulations db)) as [s0|]; [|discriminate].
    destruct (Table.get _ _ _); [|discriminate]. congruence. }
  pose proof (objects_create_events now db s c employee k data ip ua) as Hev.
  unfold TrackingEvent_methods.objects_create in *.
  match goal with
  | |- context [signals.update_risk_score_from_simulation now ?d ?e s c] =>
    pose proof (update_risk_score_from_simulation_tracking now d e s c) as (_ & _ & Hs & _);
    set (db1 := signals.update_risk_score_from_simulation now d e s c) in *;
    set (self := e) in *
  end.
  simpl in Hs. rewrite <- Hs in Hfind.
  pose proof (update_simulation_stats_row p self db1 s Hp Hfind) as Hrow.
  pose proof (update_simulation_stats_flag k self db1 s Hr eq_refl) as Hflag.
  destruct (TrackingEvent_methods._update_simulation_stats self db1 s) as [db2 s2].
  simpl in *.
  exists s, c, self, s2. repeat split; assumption.
Qed.

Lemma app_one_neq {A : Type} (l : list A) (x : A) : l ++ [x] <> l.
Proof.
  intros H. apply (f_equal (@List.length A)) in H. rewrite length_app in H. simpl in H. lia.
Qed.

Lemma token_only_tracking (t : string) (x y : EmailSimulation.t) :
  EmailSimulation.tracking_token x = EmailSimulation.tracking_token y ->
  EmailSimulation.link_token x = EmailSimulation.link_token y ->
  views.by_tracking_token t x = views.by_tracking_token t y.
Proof. unfold views.by_tracking_token. intros -> _. reflexivity. Qed.

Lemma token_only_link (t : string) (x y : EmailSimulation.t) :
  EmailSimulation.tracking_token x = EmailSimulation.tracking_token y ->
  EmailSimulation.link_token x = EmailSimulation.link_token y ->
  views.by_link_token t x = views.by_link_token t y.
Proof. unfold views.by_link_token. intros _ ->. reflexivity. Qed.

(** C4, as the code has it.  A hit on the tracking pixel (EMAIL_OPENED) or
    on the lure link (LINK_CLICKED) is accepted if and only if the token
    names a simulation, the campaign of that simulation is IN_PROGRESS or
    SCHEDULED, and the campaign tracks opens, respectively clicks.  An
    accepted hit appends its event to the log and sets the flag on the
    simulation; a hit that is not accepted leaves the whole store as it
    was: no event is logged for it. *)
Theorem C4_open_and_click_gate (now : Z) (db : DB) (token : string)
    (ip : option string) (user_agent : string) :
  let opened := fst (views.track_pixel_view now db token ip user_agent) in
  let clicked := fst (views.track_link_click_view now db token ip user_agent) in
  let pixel_gate :=
    gate db (views.by_tracking_token token) SimulationCampaign.track_email_opens in
  let link_gate :=
    gate db (views.by_link_token token) SimulationCampaign.track_link_clicks in
  (opened <> db <-> pixel_gate)
  /\ (pixel_gate ->
      accepted TrackingEvent.EMAIL_OPENED (views.by_tracking_token token) db opened)
  /\ (~ pixel_gate -> opened = db)
  /\ (clicked <> db <-> link_gate)
  /\ (link_gate ->
      accepted TrackingEvent.LINK_CLICKED (views.by_link_token token) db clicked)
  /\ (~ link_gate -> clicked = db).
Proof.
  cbv zeta.
  assert (Hpixel :
    (gate db (views.by_tracking_token token) SimulationCampaign.track_email_opens ->
     accepted TrackingEvent.EMAIL_OPENED (views.by_tracking_token token) db
       (fst (views.track_pixel_view now db token ip user_agent)))
    /\ (~ gate db (views.by_tracking_token token) SimulationCampaign.track_email_opens ->
        fst (views.track_pixel_view now db token ip user_agent) = db)).
  { unfold gate, views.track_pixel_view.
    destruct (views.get_simulation db (views.by_tracking_token token)) as [[s c]|] eqn:G.
    - destruct (SimulationCampaign.trackable (SimulationCampaign.status c)) eqn:T; simpl.
      + destruct (SimulationCampaign.track_email_opens c) eqn:O; simpl.
        * split; [|intros H; exfalso; apply H; exists s, c; auto].
          intros _.
          pose proof (objects_create_accepts (views.by_tracking_token token) now db s c
                        (EmailSimulation.employee s) TrackingEvent.EMAIL_OPENED [] ip
                        user_agent (token_only_tracking token) eq_refl G) as H.
          destruct (TrackingEvent_methods.objects_create _ _ _ _ _ _ _ _ _) as [[d s'] c'].
          exact H.
        * split; [|reflexivity].
          intros (s0 & c0 & H1 & H2 & H3). congruence.
      + split; [|reflexivity].
        intros (s0 & c0 & H1 & H2 & H3). congruence.
    - split; [|reflexivity]. intros (s0 & c0 & H1 & _). discriminate. }
  assert (Hlink :
    (gate db (views.by_link_token token) SimulationCampaign.track_link_clicks ->
     accepted TrackingEvent.LINK_CLICKED (views.by_link_token token) db
       (fst (views.track_link_click_view now db token ip user_agent)))
    /\ (~ gate db (views.by_link_token token) SimulationCampaign.track_link_clicks ->
        fst (views.track_link_click_view now db token ip user_agent) = db)).
  { unfold gate, views.track_link_click_view.
    destruct (views.get_simulation db (views.by_link_token token)) as [[s c]|] eqn:G.
    - destruct (SimulationCampaign.trackable (SimulationCampaign.status c)) eqn:T; simpl.
      + destruct (SimulationCampaign.track_link_clicks c) eqn:O; simpl.
        * split; [|intros H; exfalso; apply H; exists s, c; auto].
          intros _.
          pose proof (objects_create_accepts (views.by_link_token token) now db s c
                        (EmailSimulation.employee s) TrackingEvent.LINK_CLICKED [] ip
                        user_agent (token_only_link token) eq_refl G) as H.
          destruct (TrackingEvent_methods.objects_create _ _ _ _ _ _ _ _ _) as [[d s'] c'].
          exact H.
        * split; [|reflexivity].
          intros (s0 & c0 & H1 & H2 & H3). congruence.
      + split; [|reflexivity].
        intros (s0 & c0 & H1 & H2 & H3). congruence.
    - split; [|reflexivity]. intros (s0 & c0 & H1 & _). discriminate. }
  assert (Hdec : forall (p : EmailSimulation.t -> bool) tracks,
             gate db p tracks \/ ~ gate db p tracks).
  { intros p tracks. unfold gate.
    destruct (views.get_simulation db p) as [[s c]|] eqn:G;
      [|right; intros (s0 & c0 & H1 & _); discriminate].
    destruct (SimulationCampaign.trackable (SimulationCampaign.status c)) eqn:T;
      [|right; intros (s0 & c0 & H1 & H2 & _); congruence].
    destruct (tracks c) eqn:O;
      [left; exists s, c; auto | right; intros (s0 & c0 & H1 & H2 & H3); congruence]. }
  assert (Hneq : forall k p d, accepted k p db d -> d <> db).
  { intros k p d (s & c & e & s' & _ & Hev & _) Heq. subst d.
    symmetry in Hev. apply app_one_neq in Hev. exact Hev. }
  destruct Hpixel as [P1 P2]. destruct Hlink as [L1 L2].
  repeat split; auto.
  - intros Hd. destruct (Hdec (views.by_tracking_token token)
                           SimulationCampaign.track_email_opens) as [H|H]; [exact H|].
    exfalso. apply Hd, P2, H.
  - intros H. eapply Hneq, P1, H.
  - intros Hd. destruct (Hdec (views.by_link_token token)
                           SimulationCampaign.track_link_clicks) as [H|H]; [exact H|].
    exfalso. apply Hd, L2, H.
  - intros H. eapply Hneq, L1, H.
Qed.

(** The claim of C4 fails on the code: a pixel hit on a COMPLETED campaign
    is not logged at all, and a pixel hit on an IN_PROGRESS campaign that
    does not track opens changes nothing although the simulation exists and
    the status is a trackable one. *)
Lemma C4_counterexample :
  (exists s c,
      views.get_simulation Example.completed (views.by_tracking_token "t1") = Some (s, c)
      /\ SimulationCampaign.status c = SimulationCampaign.COMPLETED
      /\ tracking_events (fst (views.track_pixel_view 20 Example.completed "t1" None ""))
         = tracking_events Example.completed)
  /\ (exists s c,
         views.get_simulation Example.untracked (views.by_tracking_token "t1") = Some (s, c)
         /\ SimulationCampaign.status c = SimulationCampaign.IN_PROGRESS
         /\ fst (views.track_pixel_view 20 Example.untracked "t1" None "")
            = Example.untracked).
Proof.
  split; eexists; eexists; (split; [vm_compute; reflexivity|]); split; vm_compute; reflexivity.
Qed.

(** The report view and the credentials view do not look at the status of
    the campaign: on the COMPLETED campaign both create their event. *)
Example report_and_credentials_on_completed_campaign :
  accepted TrackingEvent.EMAIL_REPORTED (views.by_link_token "l1") Example.completed
    (fst (views.report_phishing_view 20 Example.completed "l1" [] None ""))
  /\ accepted TrackingEvent.CREDENTIALS_ENTERED (views.by_link_token "l1") Example.completed
       (fst (views.credentials_submitted_view 20 Example.completed "l1" [] None "")).
Proof.
  split.
  - unfold views.report_phishing_view.
    destruct (views.get_simulation Example.completed (views.by_link_token "l1"))
      as [[s c]|] eqn:G; [|vm_compute in G; discriminate].
    assert (Hr : EmailSimulation.was_reported s = false)
      by (vm_compute in G; injection G as <- _; reflexivity).
    rewrite Hr.
    pose proof (objects_create_accepts (views.by_link_token "l1") 20 Example.completed s c
                  (EmailSimulation.employee s) TrackingEvent.EMAIL_REPORTED
                  (if truthy match dict_get "reason" [] with VNone => VStr "" | v => v end
                   then [("reason"%string,
                          match dict_get "reason" [] with VNone => VStr "" | v => v end)]
                   else []) None ""
                  (token_only_link "l1") eq_refl G) as H.
    destruct (TrackingEvent_methods.objects_create _ _ _ _ _ _ _ _ _) as [[d s'] c'].
    exact H.
  - unfold views.credentials_submitted_view.
    destruct (views.get_simulation Example.completed (views.by_link_token "l1"))
      as [[s c]|] eqn:G; [|vm_compute in G; discriminate].
    assert (Hr : SimulationCampaign.track_credentials c = true)
      by (vm_compute in G; injection G as _ <-; reflexivity).
    rewrite Hr. simpl negb. cbv iota.
    pose proof (objects_create_accepts (views.by_link_token "l1") 20 Example.completed s c
                  (EmailSimulation.employee s) TrackingEvent.CREDENTIALS_ENTERED
                  [ ("username_field_filled"%string, VBool (truthy (dict_get "username" [])));
                    ("password_field_filled"%string, VBool (truthy (dict_get "password" []))) ]
                  None "" (token_only_link "l1") eq_refl G) as H.
    destruct (TrackingEvent_methods.objects_create _ _ _ _ _ _ _ _ _) as [[d s'] c'].
    exact H.
Qed.

(** ** The sent counter of a campaign *)

Lemma get_save {A : Type} (pk : A -> Z) (row : A) (rows : list A) :
  Table.get pk (pk row) (Table.save pk row rows) = Some row.
Proof.
  unfold Table.get, Table.save.
  destruct (existsb (fun r => pk r =? pk row) rows) eqn:E.
  - unfold Table.update. induction rows as [|x xs IH]; simpl in *; [discriminate|].
    destruct (pk x =? pk row) eqn:Ex; simpl.
    + rewrite Z.eqb_refl. reflexivity.
    + rewrite Ex. apply IH, E.
  - induction rows as [|x xs IH]; simpl in *.
    + rewrite Z.eqb_refl. reflexivity.
    + apply orb_false_elim in E. destruct E as [E1 E2]. rewrite E1. apply IH, E2.
Qed.

(** Every created tracking event recounts the counter: the campaign row
    stored by [_update_campaign_stats] has as total_sent the number of
    simulations of the campaign that are neither PENDING nor FAILED. *)
Lemma update_campaign_stats_recounts (self : TrackingEvent.t) (db : DB)
    (campaign : SimulationCampaign.t) :
  let db' := fst (TrackingEvent_methods._update_campaign_stats self db campaign) in
  let c' := snd (TrackingEvent_methods._update_campaign_stats self db campaign) in
  Table.get SimulationCampaign.id (SimulationCampaign.id campaign) (campaigns db') = Some c'
  /\ SimulationCampaign.total_sent c' = sent_count db' (SimulationCampaign.id campaign).
Proof.
  unfold TrackingEvent_methods._update_campaign_stats. cbv zeta.
  match goal with
  | |- Table.get _ _ (campaigns (fst (_, ?c))) = _ /\ _ => set (c' := c)
  end.
  assert (Hid : SimulationCampaign.id c' = SimulationCampaign.id campaign).
  { unfold c'. destruct (TrackingEvent.event_type self); simpl;
      destruct (_ && _); simpl; try destruct (SimulationCampaign.sent_at _); reflexivity. }
  assert (Hts : SimulationCampaign.total_sent c'
                = sent_count db (SimulationCampaign.id campaign)).
  { unfold c'. destruct (TrackingEvent.event_type self); simpl;
      destruct (_ && _); simpl; try destruct (SimulationCampaign.sent_at _); reflexivity. }
  simpl. split; [rewrite <- Hid; apply get_save | exact Hts].
Qed.

(** C3 fails on the code.  [send] with [send_immediately] false stores as
    total_sent the number of simulations it created, all of them PENDING:
    the campaign row says 2 while no simulation counts as sent.  The same
    happens when the campaign is sent at once and every email fails: the
    two simulations are FAILED and total_sent is 2. *)
Theorem C3_send_stores_created_count :
  let stored db := Table.get SimulationCampaign.id 1 (campaigns db) in
  option_map SimulationCampaign.total_sent (stored Example.scheduled) = Some 2
  /\ map EmailSimulation.status (email_simulations Example.scheduled)
     = [EmailSimulation.PENDING; EmailSimulation.PENDING]
  /\ sent_count Example.scheduled 1 = 0
  /\ option_map SimulationCampaign.total_sent (stored Example.all_failed) = Some 2
  /\ map EmailSimulation.status (email_simulations Example.all_failed)
     = [EmailSimulation.FAILED; EmailSimulation.FAILED]
  /\ sent_count Example.all_failed 1 = 0.
Proof. vm_compute. repeat split. Qed.

(** ** Binary64 arithmetic stays finite on counters *)

Lemma digits2_size (p : positive) : digits2_pos p = Pos.size p.
Proof. induction p; simpl; congruence. Qed.

Lemma Zdigits2_nonneg (a : Z) : 0 <= Zdigits2 a.
Proof. destruct a; simpl; lia. Qed.

(** A non-negative integer is below two to the number of its digits. *)
Lemma Zdigits2_gt (a : Z) : 0 <= a -> a < 2 ^ Zdigits2 a.
Proof.
  destruct a as [|p|p]; simpl Zdigits2; intros H; [reflexivity | | lia].
  rewrite digits2_size. pose proof (Pos.size_gt p) as G.
  apply Pos2Z.pos_lt_pos in G. rewrite Pos2Z.inj_pow in G. exact G.
Qed.

(** An integer below two to the [k] has at most [k] digits. *)
Lemma Zdigits2_le (a k : Z) : 0 <= k -> 0 <= a < 2 ^ k -> Zdigits2 a <= k.
Proof.
  destruct a as [|p|p]; simpl Zdigits2; intros Hk [H0 H]; [lia | | lia].
  rewrite digits2_size. pose proof (Pos.size_le p) as G.
  apply Pos2Z.pos_le_pos in G. rewrite Pos2Z.inj_pow in G.
  change (Z.pos p~0) with (2 * Z.pos p) in G.
  assert (L : 2 ^ Z.pos (Pos.size p) < 2 ^ (k + 1)).
  { rewrite Z.pow_add_r by lia. change (2 ^ 1) with 2. lia. }
  apply Z.pow_lt_mono_r_iff in L; lia.
Qed.

Lemma Zdigits2_succ (a : Z) : 0 <= a -> Zdigits2 (a + 1) <= Zdigits2 a + 1.
Proof.
  intros H. pose proof (Zdigits2_nonneg a). apply Zdigits2_le; [lia|].
  pose proof (Zdigits2_gt a H). rewrite Z.pow_add_r by lia. change (2 ^ 1) with 2. lia.
Qed.

Lemma Zdigits2_div2 (a : Z) : 0 <= a -> Zdigits2 (Z.div2 a) = Z.max 0 (Zdigits2 a - 1).
Proof.
  destruct a as [|[p|p|]|p]; intros H;
    cbn [Z.div2 Pos.div2 PosDef.Pos.div2 Zdigits2 digits2_pos];
    rewrite ?Pos2Z.inj_succ; lia.
Qed.

Lemma iter_pos_nat {A : Type} (f : A -> A) (p : positive) (x : A) :
  iter_pos f p x = Nat.iter (Pos.to_nat p) f x.
Proof.
  revert x. induction p as [p IH|p IH|]; intros x; cbn [iter_pos].
  - rewrite !IH, Pos2Nat.inj_xI.
    rewrite <- Nat.iter_succ_r. rewrite <- Nat.iter_add. f_equal. lia.
  - rewrite !IH, Pos2Nat.inj_xO. rewrite <- Nat.iter_add. f_equal. lia.
  - reflexivity.
Qed.

Lemma shr_1_m (mrs : shr_record) :
  0 <= shr_m mrs -> shr_m (shr_1 mrs) = Z.div2 (shr_m mrs).
Proof. destruct mrs as [[|[p|p|]|p] r s]; simpl; intros H; try reflexivity; lia. Qed.

Lemma shr_iter (n : nat) (mrs : shr_record) :
  0 <= shr_m mrs ->
  0 <= shr_m (Nat.iter n shr_1 mrs)
  /\ Zdigits2 (shr_m (Nat.iter n shr_1 mrs))
     = Z.max 0 (Zdigits2 (shr_m mrs) - Z.of_nat n).
Proof.
  intros H. induction n as [|n [IH1 IH2]].
  - simpl. pose proof (Zdigits2_nonneg (shr_m mrs)). lia.
  - rewrite Nat.iter_succ, shr_1_m by exact IH1. split.
    + apply Z.div2_nonneg, IH1.
    + rewrite Zdigits2_div2 by exact IH1. rewrite IH2. lia.
Qed.

(** The shift of [binary_round_aux]: the mantissa stays non-negative, and
    its digits and the exponent are those of the format. *)
Lemma shr_fexp_spec (m e : Z) (l : location) :
  0 <= m ->
  let '(mrs, e') := shr_fexp PyFloat.prec PyFloat.emax m e l in
  0 <= shr_m mrs
  /\ e' = Z.max e (fexp PyFloat.prec PyFloat.emax (Zdigits2 m + e))
  /\ Zdigits2 (shr_m mrs) = Z.max 0 (Zdigits2 m - (e' - e)).
Proof.
  intros H. unfold shr_fexp, shr.
  assert (Hm : shr_m (shr_record_of_loc m l) = m) by (destruct l as [|[]]; reflexivity).
  pose proof (Zdigits2_nonneg m) as Hd.
  destruct (fexp PyFloat.prec PyFloat.emax (Zdigits2 m + e) - e) as [|p|p] eqn:E.
  - rewrite Hm. repeat split; lia.
  - rewrite iter_pos_nat.
    destruct (shr_iter (Pos.to_nat p) (shr_record_of_loc m l)) as [H1 H2];
      [rewrite Hm; exact H|].
    rewrite Hm in H2. rewrite positive_nat_Z in H2. repeat split; [exact H1 | lia | ].
    rewrite H2. f_equal. lia.
  - rewrite Hm. repeat split; lia.
Qed.

Lemma round_nearest_even_spec (m : Z) (l : location) :
  0 <= m ->
  0 <= round_nearest_even m l /\ Zdigits2 (round_nearest_even m l) <= Zdigits2 m + 1.
Proof.
  intros H. pose proof (Zdigits2_succ m H). pose proof (Zdigits2_nonneg m).
  unfold round_nearest_even. destruct l as [|[]]; try destruct (Z.even m);
    split; try lia.
Qed.

(** The rounding step of every operation: an integer mantissa with
    exponent in [el .. eh] and magnitude (digits plus exponent) at most
    [bh] rounds to a finite float of the same sign. *)
Lemma binary_round_aux_within (s : bool) (m e : Z) (l : location) (el eh bh : Z) :
  0 <= m -> el <= e <= eh -> Zdigits2 m + e <= bh ->
  Z.max eh (bh - 52) <= 971 ->
  within (Z.max el (-1074)) (Z.max (Z.max eh (bh - 52)) (-1074))
    (binary_round_aux PyFloat.prec PyFloat.emax s m e l)
  /\ sign_is s (binary_round_aux PyFloat.prec PyFloat.emax s m e l).
Proof.
  intros Hm He Hb Hmax. unfold binary_round_aux.
  pose proof (shr_fexp_spec m e l Hm) as H1.
  destruct (shr_fexp PyFloat.prec PyFloat.emax m e l) as [mrs1 e1].
  destruct H1 as (H1a & H1b & H1c).
  destruct (round_nearest_even_spec (shr_m mrs1) (loc_of_shr_record mrs1) H1a) as [Hr1 Hr2].
  set (mr := round_nearest_even (shr_m mrs1) (loc_of_shr_record mrs1)) in *.
  pose proof (shr_fexp_spec mr e1 loc_Exact Hr1) as H2.
  destruct (shr_fexp PyFloat.prec PyFloat.emax mr e1 loc_Exact) as [mrs2 e2].
  destruct H2 as (H2a & H2b & H2c).
  unfold fexp, emin, PyFloat.prec, PyFloat.emax in *.
  pose proof (Zdigits2_nonneg m). pose proof (Zdigits2_nonneg mr).
  pose proof (Zdigits2_nonneg (shr_m mrs1)).
  change IntDef.Z.max with Z.max in *.
  destruct (shr_m mrs2) as [|p|p] eqn:E; [split; [exact I | reflexivity] | | exfalso; lia].
  cbn [Zdigits2] in H2c.
  destruct (e2 <=? 1024 - 53) eqn:L; unfold within, sign_is.
  - split; [|reflexivity]. lia.
  - apply Z.leb_gt in L. exfalso. lia.
Qed.

Lemma iter_xO (m d : positive) : Z.pos (Pos.iter xO m d) = Z.pos m * 2 ^ Z.pos d.
Proof.
  induction d as [|d IH] using Pos.peano_ind.
  - simpl. lia.
  - rewrite Pos.iter_succ, Pos2Z.inj_xO, IH, Pos2Z.inj_succ, Z.pow_succ_r by lia. lia.
Qed.

Lemma shl_align_spec (mx : positive) (ex ex' : Z) :
  snd (shl_align mx ex ex') = Z.min ex ex'
  /\ Z.pos (fst (shl_align mx ex ex')) = Z.pos mx * 2 ^ (ex - Z.min ex ex').
Proof.
  unfold shl_align. destruct (ex' - ex) as [|d|d] eqn:E; cbn [fst snd].
  - replace (Z.min ex ex') with ex by lia. rewrite Z.sub_diag, Z.pow_0_r. lia.
  - replace (Z.min ex ex') with ex by lia. rewrite Z.sub_diag, Z.pow_0_r. lia.
  - replace (Z.min ex ex') with ex' by lia. split; [reflexivity|].
    rewrite iter_xO. f_equal. f_equal. lia.
Qed.

Lemma pow2_pos (k : Z) : 0 <= k -> 0 < 2 ^ k.
Proof. intros. apply Z.pow_pos_nonneg; lia. Qed.

(** A mantissa times a power of two: its digits. *)
Lemma Zdigits2_scaled (m : positive) (k : Z) :
  0 <= k -> Zdigits2 (Z.pos m * 2 ^ k) <= Z.pos (digits2_pos m) + k.
Proof.
  intros Hk. apply Zdigits2_le; [lia|].
  pose proof (Zdigits2_gt (Z.pos m) ltac:(lia)) as G. simpl Zdigits2 in G.
  pose proof (pow2_pos k Hk). rewrite Z.pow_add_r by lia. nia.
Qed.

Lemma within_weaken (lo hi lo' hi' : Z) (x : PyFloat.float) :
  lo' <= lo -> hi <= hi' -> within lo hi x -> within lo' hi' x.
Proof. unfold within. destruct x; auto. intros ? ? [? ?]. split; [assumption | lia]. Qed.

Lemma binary_round_within (s : bool) (m : positive) (e el bl bh : Z) :
  el <= e -> bl <= Z.pos (digits2_pos m) + e <= bh ->
  bh - 52 <= 971 ->
  within (Z.max (Z.min el (bl - 53)) (-1074)) (Z.max (bh - 52) (-1074))
    (binary_round PyFloat.prec PyFloat.emax s m e)
  /\ sign_is s (binary_round PyFloat.prec PyFloat.emax s m e).
Proof.
  intros He Hb Hmax. unfold binary_round.
  pose proof (shl_align_spec m e
                (fexp PyFloat.prec PyFloat.emax (Z.pos (digits2_pos m) + e))) as [A1 A2].
  destruct (shl_align m e (fexp PyFloat.prec PyFloat.emax (Z.pos (digits2_pos m) + e)))
    as [mz ez].
  cbn [fst snd] in A1, A2.
  assert (Hfexp : fexp PyFloat.prec PyFloat.emax (Z.pos (digits2_pos m) + e)
                  = Z.max (Z.pos (digits2_pos m) + e - 53) (-1074)) by reflexivity.
  rewrite Hfexp in A1, A2.
  assert (Hd : Zdigits2 (Z.pos mz) <= Z.pos (digits2_pos m) + (e - ez)).
  { rewrite A2, A1. apply Zdigits2_scaled. lia. }
  destruct (binary_round_aux_within s (Z.pos mz) ez loc_Exact
              (Z.min el (bl - 53)) (Z.max (bh - 53) (-1074)) bh) as [H1 H2]; try lia.
  split; [|exact H2].
  revert H1. apply within_weaken; lia.
Qed.

Lemma of_int_within (n : Z) :
  0 <= n <= PyFloat.max_counter ->
  within (-52) (-21) (PyFloat.of_int n) /\ sign_is false (PyFloat.of_int n).
Proof.
  intros [H0 H1]. unfold PyFloat.of_int, binary_normalize.
  destruct n as [|p|p]; [split; [exact I | reflexivity] | | lia].
  assert (Hd : 1 <= Z.pos (digits2_pos p) <= 31).
  { split; [lia|]. apply (Zdigits2_le (Z.pos p) 31); [lia|].
    unfold PyFloat.max_counter in H1. change (2 ^ 31) with 2147483648. lia. }
  destruct (binary_round_within false p 0 0 1 31) as [A B]; try lia.
  split; [|exact B]. revert A. apply within_weaken; lia.
Qed.

Lemma Zdigits2_mono (a b : Z) : 0 <= a <= b -> Zdigits2 a <= Zdigits2 b.
Proof.
  intros [Ha Hab]. apply Zdigits2_le; [apply Zdigits2_nonneg|].
  pose proof (Zdigits2_gt b ltac:(lia)). lia.
Qed.

Lemma round_nearest_even_ge (m : Z) (l : location) : m <= round_nearest_even m l.
Proof. unfold round_nearest_even. destruct l as [|[]]; try destruct (Z.even m); lia. Qed.

(** A positive mantissa above the underflow threshold does not round to
    zero. *)
Lemma binary_round_aux_finite (s : bool) (m e : Z) (l : location) :
  0 < m -> -1073 <= Zdigits2 m + e -> Zdigits2 m + e <= 1023 -> e <= 971 ->
  exists p e', binary_round_aux PyFloat.prec PyFloat.emax s m e l = S754_finite s p e'.
Proof.
  intros Hm Hlo Hhi He. unfold binary_round_aux.
  pose proof (shr_fexp_spec m e l ltac:(lia)) as H1.
  destruct (shr_fexp PyFloat.prec PyFloat.emax m e l) as [mrs1 e1].
  destruct H1 as (H1a & H1b & H1c).
  destruct (round_nearest_even_spec (shr_m mrs1) (loc_of_shr_record mrs1) H1a) as [Hr1 Hr2].
  pose proof (round_nearest_even_ge (shr_m mrs1) (loc_of_shr_record mrs1)) as Hr3.
  set (mr := round_nearest_even (shr_m mrs1) (loc_of_shr_record mrs1)) in *.
  pose proof (Zdigits2_mono (shr_m mrs1) mr ltac:(lia)) as Hr4.
  pose proof (shr_fexp_spec mr e1 loc_Exact Hr1) as H2.
  destruct (shr_fexp PyFloat.prec PyFloat.emax mr e1 loc_Exact) as [mrs2 e2].
  destruct H2 as (H2a & H2b & H2c).
  unfold fexp, emin, PyFloat.prec, PyFloat.emax in *.
  assert (Hd : 1 <= Zdigits2 m) by (destruct m; simpl; lia).
  change IntDef.Z.max with Z.max in *.
  destruct (shr_m mrs2) as [|p|p] eqn:E; [cbn [Zdigits2] in H2c; exfalso; lia | | exfalso; lia].
  cbn [Zdigits2] in H2c.
  destruct (e2 <=? 1024 - 53) eqn:L; [eexists; eexists; reflexivity|].
  apply Z.leb_gt in L. exfalso. lia.
Qed.

(** A positive counter as a float is finite and not zero. *)
Lemma of_int_finite (n : Z) :
  0 < n <= PyFloat.max_counter ->
  exists m e, PyFloat.of_int n = S754_finite false m e
              /\ Z.pos (digits2_pos m) <= 53 /\ -52 <= e <= -21.
Proof.
  intros [H0 H1]. destruct (of_int_within n ltac:(lia)) as [W _].
  destruct n as [|p|p]; try lia.
  assert (Hd : 1 <= Z.pos (digits2_pos p) <= 31).
  { split; [lia|]. apply (Zdigits2_le (Z.pos p) 31); [lia|].
    unfold PyFloat.max_counter in H1. change (2 ^ 31) with 2147483648. lia. }
  unfold PyFloat.of_int, binary_normalize, binary_round in *.
  pose proof (shl_align_spec p 0
                (fexp PyFloat.prec PyFloat.emax (Z.pos (digits2_pos p) + 0))) as [A1 A2].
  destruct (shl_align p 0 _) as [mz ez]. cbn [fst snd] in A1, A2.
  assert (Hfexp : fexp PyFloat.prec PyFloat.emax (Z.pos (digits2_pos p) + 0)
                  = Z.max (Z.pos (digits2_pos p) + 0 - 53) (-1074)) by reflexivity.
  rewrite Hfexp in A1, A2.
  assert (Hu : Zdigits2 (Z.pos mz) <= Z.pos (digits2_pos p) + (0 - ez)).
  { rewrite A2, A1. apply Zdigits2_scaled. lia. }
  destruct (binary_round_aux_finite false (Z.pos mz) ez loc_Exact) as (m & e & Hm);
    try lia.
  - cbn [Zdigits2]. lia.
  - rewrite Hm in *. exists m, e. split; [reflexivity|]. exact W.
Qed.

(** The quotient of a finite float by a finite non-zero one. *)
Lemma div_within (x : PyFloat.float) (sx sy : bool) (my : positive) (ey hx ly : Z) :
  within (-1074) hx x -> sign_is sx x ->
  Z.pos (digits2_pos my) <= 53 -> ly <= ey ->
  hx - ly + 1 <= 971 -> -1074 <= hx - ly + 1 ->
  within (-1074) (hx - ly + 1) (SFdiv PyFloat.prec PyFloat.emax x (S754_finite sy my ey))
  /\ sign_is (xorb sx sy) (SFdiv PyFloat.prec PyFloat.emax x (S754_finite sy my ey)).
Proof.
  intros Wx Sx Dy Ly Hmax Hmin.
  destruct x as [s| | |s mx ex]; simpl in Wx, Sx; try contradiction.
  - subst s. simpl. split; [exact I | reflexivity].
  - subst s. destruct Wx as [Dx [Lx Ux]]. unfold SFdiv, SFdiv_core_binary.
    set (e' := Z.min (fexp PyFloat.prec PyFloat.emax
                        (Zdigits2 (Z.pos mx) + ex - (Zdigits2 (Z.pos my) + ey)))
                     (ex - ey)).
    set (m' := match ex - ey - e' with
               | Z.pos _ => Z.shiftl (Z.pos mx) (ex - ey - e')
               | 0 => Z.pos mx
               | Z.neg _ => 0
               end).
    assert (Hs : 0 <= ex - ey - e') by (unfold e'; lia).
    assert (Hm' : m' = Z.pos mx * 2 ^ (ex - ey - e')).
    { unfold m'. destruct (ex - ey - e') as [|p|p] eqn:E.
      - rewrite Z.pow_0_r. lia.
      - apply Z.shiftl_mul_pow2. lia.
      - lia. }
    pose proof (Z_div_mod m' (Z.pos my) ltac:(lia)) as Hdiv.
    destruct (Z.div_eucl m' (Z.pos my)) as [q r].
    destruct Hdiv as [Hq Hr].
    pose proof (pow2_pos (ex - ey - e') Hs) as Hp.
    assert (Hq0 : 0 <= q <= m') by nia.
    assert (Hdq : Zdigits2 q <= Z.pos (digits2_pos mx) + (ex - ey - e')).
    { eapply Z.le_trans; [apply Zdigits2_mono; exact Hq0|].
      rewrite Hm'. apply Zdigits2_scaled. exact Hs. }
    destruct (binary_round_aux_within (xorb sx sy) q e' (new_location (Z.pos my) r)
                e' (hx - ly) (53 + hx - ly)) as [A B]; try lia.
    split; [|exact B]. revert A. apply within_weaken; lia.
Qed.

(** The product of two finite floats. *)
Lemma mul_within (x y : PyFloat.float) (sx sy : bool) (hx hy : Z) :
  within (-1074) hx x -> within (-1074) hy y -> sign_is sx x -> sign_is sy y ->
  54 + hx + hy <= 971 -> -1074 <= 54 + hx + hy ->
  within (-1074) (54 + hx + hy) (PyFloat.mul x y)
  /\ sign_is (xorb sx sy) (PyFloat.mul x y).
Proof.
  intros Wx Wy Sx Sy Hmax Hmin. unfold PyFloat.mul.
  destruct x as [s1| | |s1 mx ex]; simpl in Wx, Sx; try contradiction;
    destruct y as [s2| | |s2 my ey]; simpl in Wy, Sy; try contradiction;
    subst s1 s2; simpl SFmul; try (split; [exact I | reflexivity]).
  destruct Wx as [Dx [Lx Ux]]. destruct Wy as [Dy [Ly Uy]].
  assert (Hd : Zdigits2 (Z.pos (mx * my))
               <= Z.pos (digits2_pos mx) + Z.pos (digits2_pos my)).
  { apply Zdigits2_le; [lia|].
    pose proof (Zdigits2_gt (Z.pos mx) ltac:(lia)) as G1.
    pose proof (Zdigits2_gt (Z.pos my) ltac:(lia)) as G2.
    cbn [Zdigits2] in G1, G2. rewrite Z.pow_add_r by lia.
    rewrite Pos2Z.inj_mul. nia. }
  destruct (binary_round_aux_within (xorb sx sy) (Z.pos (mx * my)) (ex + ey) loc_Exact
              (ex + ey) (hx + hy) (106 + hx + hy)) as [A B]; try lia.
  split; [|exact B]. revert A. apply within_weaken; lia.
Qed.

Lemma cond_Zopp_abs (s : bool) (a : Z) : Z.abs (cond_Zopp s a) = Z.abs a.
Proof. destruct s; simpl; lia. Qed.

(** The difference of two finite floats. *)
Lemma sub_within (x y : PyFloat.float) (hx hy : Z) :
  within (-1074) hx x -> within (-1074) hy y ->
  Z.max hx hy + 2 <= 971 -> -1074 <= Z.max hx hy + 2 ->
  within (-1074) (Z.max hx hy + 2) (PyFloat.sub x y).
Proof.
  intros Wx Wy Hmax Hmin. unfold PyFloat.sub.
  destruct x as [s1| | |s1 mx ex]; simpl in Wx; try contradiction;
    destruct y as [s2| | |s2 my ey]; simpl in Wy; try contradiction.
  - simpl. destruct s1, s2; exact I.
  - simpl. destruct Wy as [Dy [Ly Uy]]. split; [exact Dy | lia].
  - simpl. destruct Wx as [Dx [Lx Ux]]. split; [exact Dx | lia].
  - destruct Wx as [Dx [Lx Ux]]. destruct Wy as [Dy [Ly Uy]].
    unfold SFsub.
    pose proof (shl_align_spec mx ex (Z.min ex ey)) as [_ Ax].
    pose proof (shl_align_spec my ey (Z.min ex ey)) as [_ Ay].
    replace (Z.min ex (Z.min ex ey)) with (Z.min ex ey) in Ax by lia.
    replace (Z.min ey (Z.min ex ey)) with (Z.min ex ey) in Ay by lia.
    set (ez := Z.min ex ey) in *.
    set (a := fst (shl_align mx ex ez)) in *.
    set (b := fst (shl_align my ey ez)) in *.
    set (z := cond_Zopp s1 (Z.pos a) - cond_Zopp s2 (Z.pos b)).
    assert (Hz : Z.abs z < 2 ^ (Z.max (53 + hx) (53 + hy) - ez + 1)).
    { pose proof (Zdigits2_gt (Z.pos mx) ltac:(lia)) as G1.
      pose proof (Zdigits2_gt (Z.pos my) ltac:(lia)) as G2.
      cbn [Zdigits2] in G1, G2.
      assert (Ha : Z.pos a < 2 ^ (Z.max (53 + hx) (53 + hy) - ez)).
      { rewrite Ax.
        apply Z.lt_le_trans with (2 ^ (Z.pos (digits2_pos mx) + (ex - ez))).
        - rewrite Z.pow_add_r by (unfold ez; lia).
          pose proof (pow2_pos (ex - ez) ltac:(unfold ez; lia)). nia.
        - apply Z.pow_le_mono_r; unfold ez; lia. }
      assert (Hb : Z.pos b < 2 ^ (Z.max (53 + hx) (53 + hy) - ez)).
      { rewrite Ay.
        apply Z.lt_le_trans with (2 ^ (Z.pos (digits2_pos my) + (ey - ez))).
        - rewrite Z.pow_add_r by (unfold ez; lia).
          pose proof (pow2_pos (ey - ez) ltac:(unfold ez; lia)). nia.
        - apply Z.pow_le_mono_r; unfold ez; lia. }
      rewrite Z.pow_add_r by (unfold ez; lia). change (2 ^ 1) with 2.
      unfold z, cond_Zopp. destruct s1, s2; lia. }
    unfold binary_normalize. fold z.
    assert (Hez : ez <= Z.max hx hy /\ -1074 <= ez) by (unfold ez; lia).
    clearbody z.
    destruct z as [|p|p]; [exact I | |]; cbn [Z.abs] in Hz.
    + assert (Hd : Z.pos (digits2_pos p) <= Z.max (53 + hx) (53 + hy) - ez + 1).
      { apply (Zdigits2_le (Z.pos p)); lia. }
      destruct (binary_round_within false p ez ez (1 + ez)
                  (Z.max (53 + hx) (53 + hy) + 1)) as [A _]; try lia.
      revert A. apply within_weaken; lia.
    + assert (Hd : Z.pos (digits2_pos p) <= Z.max (53 + hx) (53 + hy) - ez + 1).
      { apply (Zdigits2_le (Z.pos p)); lia. }
      destruct (binary_round_within true p ez ez (1 + ez)
                  (Z.max (53 + hx) (53 + hy) + 1)) as [A _]; try lia.
      revert A. apply within_weaken; lia.
Qed.

Lemma int_within (lo hi : Z) (x : PyFloat.float) :
  within lo hi x -> exists z, PyFloat.int x = Some z.
Proof. destruct x; simpl; intros H; try contradiction; eexists; reflexivity. Qed.

(** On a float that is not negative [int] is [floor]. *)
Lemma int_floor (x : PyFloat.float) : sign_is false x -> PyFloat.int x = PyFloat.floor x.
Proof. destruct x; simpl; intros H; try contradiction; subst; reflexivity. Qed.

Lemma half_within : within (-1074) (-53) PyFloat.half.
Proof. vm_compute. repeat split; discriminate. Qed.

Lemma truediv_within (a b : Z) :
  0 <= a <= PyFloat.max_counter -> 0 < b <= PyFloat.max_counter ->
  within (-1074) 32 (PyFloat.truediv a b) /\ sign_is false (PyFloat.truediv a b).
Proof.
  intros Ha Hb. unfold PyFloat.truediv.
  destruct (of_int_within a Ha) as [Wa Sa].
  destruct (of_int_finite b Hb) as (m & e & -> & D & L).
  destruct (div_within (PyFloat.of_int a) false false m e (-21) (-52)) as [A B];
    try lia; try assumption.
  - revert Wa. apply within_weaken; lia.
  - split; [exact A | exact B].
Qed.

Lemma of_int_literal (n : Z) :
  0 <= n <= PyFloat.max_counter ->
  within (-1074) (-21) (PyFloat.of_int n) /\ sign_is false (PyFloat.of_int n).
Proof.
  intros H. destruct (of_int_within n H) as [W S]. split; [|exact S].
  revert W. apply within_weaken; lia.
Qed.

(** Both conversions of [recalculate_score] succeed on counters of the
    database range; the click rate times 30 is not negative. *)
Lemma quiz_value_int (r : RiskScore.t) :
  0 <= RiskScore.correct_quiz_answers r <= PyFloat.max_counter ->
  0 < RiskScore.total_quiz_questions r <= PyFloat.max_counter ->
  exists q, PyFloat.int (RiskScore.quiz_value r) = Some q.
Proof.
  intros Hc Ht. unfold RiskScore.quiz_value, PyFloat.mul_int.
  destruct (truediv_within _ _ Hc Ht) as [W S].
  pose proof (sub_within PyFloat.half _ (-53) 32 half_within W ltac:(lia) ltac:(lia)) as Ws.
  destruct (of_int_literal 40 ltac:(unfold PyFloat.max_counter; lia)) as [W40 S40].
  assert (Wm : within (-1074) (54 + 34 + -21)
                 (PyFloat.mul (PyFloat.sub PyFloat.half
                                 (PyFloat.truediv (RiskScore.correct_quiz_answers r)
                                    (RiskScore.total_quiz_questions r)))
                    (PyFloat.of_int 40))).
  { unfold PyFloat.mul.
    set (d := PyFloat.sub PyFloat.half _) in *.
    destruct d as [s1| | |s1 mx ex]; simpl in Ws; try contradiction.
    - apply (mul_within (S754_zero s1) (PyFloat.of_int 40) s1 false 34 (-21));
        try assumption; try lia; try exact I; reflexivity.
    - apply (mul_within (S754_finite s1 mx ex) (PyFloat.of_int 40) s1 false 34 (-21));
        try assumption; try lia; reflexivity. }
  eapply int_within, Wm.
Qed.

Lemma simulation_value_int (r : RiskScore.t) :
  0 <= RiskScore.simulations_clicked r <= PyFloat.max_counter ->
  0 < RiskScore.total_simulations_received r <= PyFloat.max_counter ->
  exists q, PyFloat.int (RiskScore.simulation_value r) = Some q
            /\ PyFloat.floor (RiskScore.simulation_value r) = Some q /\ 0 <= q.
Proof.
  intros Hc Ht. unfold RiskScore.simulation_value, PyFloat.mul_int.
  destruct (truediv_within _ _ Hc Ht) as [W S].
  destruct (of_int_literal 30 ltac:(unfold PyFloat.max_counter; lia)) as [W30 S30].
  destruct (mul_within _ _ false false 32 (-21) W W30 S S30 ltac:(lia) ltac:(lia))
    as [Wm Sm].
  destruct (int_within _ _ _ Wm) as [q Hq]. exists q. split; [exact Hq|].
  split; [rewrite <- int_floor; assumption|].
  simpl xorb in Sm.
  destruct (PyFloat.mul _ _) as [s| | |s m e]; simpl in *; try contradiction.
  - injection Hq as <-. lia.
  - subst s. injection Hq as <-. simpl. apply Z.shiftl_nonneg. lia.
Qed.

(** ** The scoring function *)

Lemma level_of_score_band (s : Z) : SpecScore.band s (RiskScore.level_of_score s).
Proof.
  unfold RiskScore.level_of_score.
  destruct (Z.leb_spec s 30); [simpl; lia|].
  destruct (Z.leb_spec s 60); [simpl; lia|].
  destruct (Z.leb_spec s 80); simpl; lia.
Qed.

(** On counters of the database range both conversions succeed and the
    function returns. *)
Lemma recalculate_score_returns (r : RiskScore.t) :
  counters_in_range r ->
  exists quiz_adj sim_adj,
    (if RiskScore.total_quiz_questions r =? 0 then Some 0
     else PyFloat.int (RiskScore.quiz_value r)) = Some quiz_adj
    /\ (if RiskScore.total_simulations_received r =? 0 then Some 0
        else PyFloat.floor (RiskScore.simulation_value r)) = Some sim_adj
    /\ RiskScore.recalculate_score r
       = Some (SpecScore.clamp (SpecScore.raw quiz_adj sim_adj r) 0 100,
               RiskScore.set_score r
                 (SpecScore.clamp (SpecScore.raw quiz_adj sim_adj r) 0 100)
                 (RiskScore.level_of_score
                    (SpecScore.clamp (SpecScore.raw quiz_adj sim_adj r) 0 100))
                 (SpecScore.clamp (SpecScore.raw quiz_adj sim_adj r) 0 100 >? 70)).
Proof.
  intros (Hc & Ht & Hk & Hv).
  assert (Hq : exists q,
             (if RiskScore.total_quiz_questions r >? 0
              then PyFloat.int (RiskScore.quiz_value r) else Some 0) = Some q
             /\ (if RiskScore.total_quiz_questions r =? 0 then Some 0
                 else PyFloat.int (RiskScore.quiz_value r)) = Some q).
  { destruct (Z.eqb_spec (RiskScore.total_quiz_questions r) 0) as [E|E].
    - rewrite E. exists 0. split; reflexivity.
    - destruct (quiz_value_int r Hc ltac:(lia)) as [q Hq]. exists q.
      destruct (Z.gtb_spec (RiskScore.total_quiz_questions r) 0); [auto | lia]. }
  assert (Hs : exists q,
             (if RiskScore.total_simulations_received r >? 0
              then PyFloat.int (RiskScore.simulation_value r) else Some 0) = Some q
             /\ (if RiskScore.total_simulations_received r =? 0 then Some 0
                 else PyFloat.floor (RiskScore.simulation_value r)) = Some q).
  { destruct (Z.eqb_spec (RiskScore.total_simulations_received r) 0) as [E|E].
    - rewrite E. exists 0. split; reflexivity.
    - destruct (simulation_value_int r Hk ltac:(lia)) as (q & Hq1 & Hq2 & _). exists q.
      destruct (Z.gtb_spec (RiskScore.total_simulations_received r) 0); [auto | lia]. }
  destruct Hq as (qa & Hq1 & Hq2). destruct Hs as (sa & Hs1 & Hs2).
  exists qa, sa. split; [exact Hq2|]. split; [exact Hs2|].
  unfold RiskScore.recalculate_score. rewrite Hq1, Hs1. reflexivity.
Qed.

(** C1, as the code has it.  On counters of the database range
    [recalculate_score] returns clamp(50 + quiz_adj + phishing_penalty +
    sim_adj + credential_penalty - report_bonus - training_bonus, 0, 100)
    where quiz_adj is the binary64 value of (0.5 - correct/total) * 40 cut
    toward zero by [int] (0 without questions), sim_adj is the floor of the
    binary64 value of clicked/received * 30 (0 without simulations) and the
    penalties and bonuses are the capped products; the stored score lies in
    0..100, the level is the band of the score (LOW up to 30, MEDIUM up to
    60, HIGH up to 80, CRITICAL above) and requires_remediation holds
    exactly when the score is above 70. *)
Theorem C1_recalculate_score (r : RiskScore.t) :
  counters_in_range r ->
  exists quiz_adj sim_adj s r',
    (if RiskScore.total_quiz_questions r =? 0 then Some 0
     else PyFloat.int (RiskScore.quiz_value r)) = Some quiz_adj
    /\ (if RiskScore.total_simulations_received r =? 0 then Some 0
        else PyFloat.floor (RiskScore.simulation_value r)) = Some sim_adj
    /\ RiskScore.recalculate_score r = Some (s, r')
    /\ s = SpecScore.clamp (SpecScore.raw quiz_adj sim_adj r) 0 100
    /\ 0 <= s <= 100
    /\ RiskScore.score r' = s
    /\ SpecScore.band s (RiskScore.risk_level r')
    /\ (RiskScore.requires_remediation r' = true <-> 70 < s)
    /\ r' = RiskScore.set_score r s (RiskScore.risk_level r')
              (RiskScore.requires_remediation r').
Proof.
  intros H. destruct (recalculate_score_returns r H) as (qa & sa & Hq & Hs & Hr).
  set (s := SpecScore.clamp (SpecScore.raw qa sa r) 0 100) in *.
  exists qa, sa, s, (RiskScore.set_score r s (RiskScore.level_of_score s) (s >? 70)).
  split; [exact Hq|]. split; [exact Hs|]. split; [exact Hr|].
  split; [reflexivity|].
  split; [unfold s, SpecScore.clamp; lia|].
  split; [reflexivity|].
  split; [apply level_of_score_band|].
  split; [|reflexivity].
  simpl. destruct (Z.gtb_spec s 70); split; intros; try lia; try discriminate; reflexivity.
Qed.

(** The claim of C1 fails on the code for two right answers of three: the
    product (0.5 - 2/3) * 40 is about -6.67, [int] cuts it to -6 and the
    score is 44; its floor is -7, in binary64 as in exact arithmetic, and
    the formula of the specification gives 43. *)
Lemma C1_counterexample :
  option_map fst (RiskScore.recalculate_score Example.two_of_three) = Some 44
  /\ SpecScore.score Example.two_of_three = 43
  /\ PyFloat.int (RiskScore.quiz_value Example.two_of_three) = Some (-6)
  /\ PyFloat.floor (RiskScore.quiz_value Example.two_of_three) = Some (-7)
  /\ SpecScore.quiz_adj Example.two_of_three = -7.
Proof. vm_compute. repeat split. Qed.

(** The quotient is a binary64 number: for two right answers of five the
    product is 3.999999999999999 and counts 3, where the exact product
    is 4. *)
Example two_of_five_rounds_down :
  option_map fst (RiskScore.recalculate_score Example.two_of_five) = Some 53
  /\ SpecScore.quiz_adj Example.two_of_five = 4.
Proof. vm_compute. split; reflexivity. Qed.

(** The two scenarios of the specification: a perfect quiz record gives 30
    and LOW without remediation; three clicks on three simulations give 80,
    HIGH and remediation. *)
Example scoring_scenarios :
  option_map (fun p => (fst p, RiskScore.risk_level (snd p),
                        RiskScore.requires_remediation (snd p)))
    (RiskScore.recalculate_score Example.all_right) = Some (30, LOW, false)
  /\ option_map (fun p => (fst p, RiskScore.risk_level (snd p),
                           RiskScore.requires_remediation (snd p)))
       (RiskScore.recalculate_score Example.all_clicked) = Some (80, HIGH, true).
Proof. vm_compute. split; reflexivity. Qed.

(** ** What the aggregators do to the risk score of the employee *)

Lemma scores_kept_refl (db : DB) : scores_kept db db.
Proof. reflexivity. Qed.

Lemma scores_kept_trans (a b c : DB) :
  scores_kept a b -> scores_kept b c -> scores_kept a c.
Proof. unfold scores_kept. congruence. Qed.

Lemma scores_kept_same (db db' : DB) :
  risk_scores db' = risk_scores db -> scores_kept db db'.
Proof. unfold scores_kept. intros ->. reflexivity. Qed.

Lemma bump_trainings_assigned_kept (db : DB) (k : Z) :
  scores_kept db (signals.bump_trainings_assigned db k).
Proof.
  unfold scores_kept, signals.bump_trainings_assigned, Table.update. simpl.
  induction (risk_scores db) as [|x xs IH]; simpl; [reflexivity|].
  rewrite IH. destruct (RiskScore.id x =? k); reflexivity.
Qed.

Lemma assign_modules_kept (post_save : DB -> RiskScore.t -> DB) (now : Z) :
  (forall db r, scores_kept db (post_save db r)) ->
  forall modules db r, scores_kept db (signals.assign_modules post_save now db r modules).
Proof.
  intros Hpost. induction modules as [|m ms IH]; intros db r; simpl.
  - apply scores_kept_refl.
  - destruct (signals.open_assignment_exists db (RiskScore.employee r) (TrainingModule.id m)).
    + apply IH.
    + eapply scores_kept_trans; [|apply IH].
      eapply scores_kept_trans; [|apply Hpost].
      eapply scores_kept_trans; [|apply bump_trainings_assigned_kept].
      apply scores_kept_same. reflexivity.
Qed.

Lemma check_remediation_kept (now : Z) (db : DB) (r : RiskScore.t) :
  scores_kept db (signals.check_remediation_on_score_change now db r).
Proof.
  unfold signals.check_remediation_on_score_change, signals.auto_assign_remediation_with.
  destruct (_ && _); [|apply scores_kept_refl].
  destruct (_ <=? _); [apply scores_kept_refl|].
  apply assign_modules_kept. intros. apply scores_kept_refl.
Qed.

Lemma auto_assign_remediation_kept (now : Z) (db : DB) (r : RiskScore.t) :
  scores_kept db (signals.auto_assign_remediation now db r).
Proof.
  unfold signals.auto_assign_remediation, signals.auto_assign_remediation_with.
  destruct (_ <=? _); [apply scores_kept_refl|].
  apply assign_modules_kept. intros. apply check_remediation_kept.
Qed.

Lemma assign_vector_training_kept (now : Z) (db : DB) (u : User.t) (r : RiskScore.t)
    (e : TrackingEvent.t) (c : SimulationCampaign.t) :
  scores_kept db (signals.assign_vector_training now db u r e c).
Proof.
  apply scores_kept_same. unfold signals.assign_vector_training.
  destruct (signals.relevant_module db r c); [|reflexivity].
  destruct (signals.open_assignment_exists _ _ _); reflexivity.
Qed.

Lemma find_modulo (p : RiskScore.t -> bool) (l l' : list RiskScore.t) :
  (forall a, p (modulo_trainings a) = p a) ->
  map modulo_trainings l' = map modulo_trainings l ->
  option_map modulo_trainings (find p l') = option_map modulo_trainings (find p l).
Proof.
  intros Hp. revert l'. induction l as [|x xs IH]; intros [|y ys] H; simpl in H;
    try discriminate; [reflexivity|].
  assert (Hxy : modulo_trainings y = modulo_trainings x) by (injection H; congruence).
  assert (Hys : map modulo_trainings ys = map modulo_trainings xs)
    by (unfold modulo_trainings in H; injection H; auto).
  cbn [find]. rewrite <- (Hp y), <- (Hp x), Hxy.
  destruct (p (modulo_trainings x)); simpl; [congruence | apply IH, Hys].
Qed.

Lemma scores_kept_of (db db' : DB) (employee : Z) :
  scores_kept db db' ->
  option_map modulo_trainings (risk_score_of db' employee)
  = option_map modulo_trainings (risk_score_of db employee).
Proof. intros H. apply find_modulo; [reflexivity | exact H]. Qed.

Lemma scores_kept_get (db db' : DB) (k : Z) :
  scores_kept db db' ->
  option_map modulo_trainings (Table.get RiskScore.id k (risk_scores db'))
  = option_map modulo_trainings (Table.get RiskScore.id k (risk_scores db)).
Proof. intros H. apply find_modulo; [reflexivity | exact H]. Qed.

(** One [risk_score.save()] of an instance whose row is the one of the
    employee. *)
Lemma save_risk_score_row (now : Z) (db : DB) (stored instance : RiskScore.t)
    (employee : Z) :
  risk_score_of db employee = Some stored ->
  RiskScore.id instance = RiskScore.id stored ->
  RiskScore.employee instance = employee ->
  let db' := fst (signals.save_risk_score now db instance) in
  snd (signals.save_risk_score now db instance) = RiskScore.pre_save instance
  /\ option_map modulo_trainings (risk_score_of db' employee)
     = Some (modulo_trainings (RiskScore.pre_save instance))
  /\ option_map modulo_trainings
       (Table.get RiskScore.id (RiskScore.id instance) (risk_scores db'))
     = Some (modulo_trainings (RiskScore.pre_save instance))
  /\ risk_score_history db' = risk_score_history db.
Proof.
  intros Hfind Hid Hemp. unfold signals.save_risk_score. cbn [fst snd].
  set (row := RiskScore.pre_save instance).
  set (db1 := set_risk_scores db (Table.save RiskScore.id row (risk_scores db))).
  pose proof (check_remediation_kept now db1 row) as Hk.
  split; [reflexivity|]. split; [|split].
  - rewrite (scores_kept_of _ _ employee Hk). unfold risk_score_of, db1. simpl.
    erewrite find_save; [reflexivity | exact Hfind | | exact Hid].
    simpl. rewrite Hemp. apply Z.eqb_refl.
  - rewrite (scores_kept_get _ _ (RiskScore.id instance) Hk). unfold db1. simpl.
    change (RiskScore.id instance) with (RiskScore.id row). rewrite get_save. reflexivity.
  - destruct (check_remediation_tracking now db1 row) as [_ H]. rewrite H. reflexivity.
Qed.

Lemma modulo_in_range (a b : RiskScore.t) :
  modulo_trainings a = modulo_trainings b -> counters_in_range b -> counters_in_range a.
Proof.
  unfold modulo_trainings, counters_in_range. intros H. injection H. intros. 
  repeat match goal with E : _ = _ |- _ => rewrite E; clear E end. assumption.
Qed.

Lemma recalculate_in_range (a : RiskScore.t) :
  counters_in_range a ->
  exists s, RiskScore.recalculate_score a
            = Some (s, RiskScore.set_score a s (RiskScore.level_of_score s) (s >? 70))
            /\ 0 <= s <= 100.
Proof.
  intros H. destruct (recalculate_score_returns a H) as (qa & sa & _ & _ & Hr).
  eexists. split; [exact Hr|]. unfold SpecScore.clamp. lia.
Qed.

Lemma save_fresh {A : Type} (pk : A -> Z) (row : A) (rows : list A) :
  pk row = Table.next_id pk rows -> Table.save pk row rows = rows ++ [row].
Proof.
  intros H. unfold Table.save.
  destruct (existsb (fun r => pk r =? pk row) rows) eqn:E; [|reflexivity].
  apply existsb_exists in E. destruct E as (x & Hin & Hx).
  apply Z.eqb_eq in Hx. pose proof (next_id_fresh pk rows x Hin). lia.
Qed.

Lemma get_id {A : Type} (pk : A -> Z) (k : Z) (rows : list A) (r : A) :
  Table.get pk k rows = Some r -> pk r = k.
Proof. unfold Table.get. intros H. apply find_some in H. lia. Qed.

(** [get_or_create_risk_score] for an employee with a company. *)
Lemma get_or_create_spec (db : DB) (u : User.t) (company : Z) :
  User.company u = Some company ->
  let db0 := fst (signals.get_or_create_risk_score db (Some u)) in
  snd (signals.get_or_create_risk_score db (Some u))
  = Some (starting_score db (User.id u) company)
  /\ risk_score_of db0 (User.id u) = Some (starting_score db (User.id u) company)
  /\ tracking_unchanged db db0
  /\ risk_score_history db0 = risk_score_history db.
Proof.
  intros Hc. unfold signals.get_or_create_risk_score, starting_score, risk_score_of.
  rewrite Hc.
  destruct (find (fun r => RiskScore.employee r =? User.id u) (risk_scores db)) eqn:E;
    cbn [fst snd].
  - rewrite E. repeat split.
  - split; [reflexivity|]. split; [|repeat split].
    simpl. apply find_save_new; [exact (fun r => RiskScore.id r) | exact E |].
    simpl. apply Z.eqb_refl.
Qed.

Lemma simulation_increments_events (db db' : DB) (e : TrackingEvent.t)
    (sim : EmailSimulation.t) :
  tracking_events db' = tracking_events db ->
  signals.simulation_increments db' e sim = signals.simulation_increments db e sim.
Proof.
  intros H. unfold signals.simulation_increments, signals.has_prior_relevant_events,
    signals.was_bulk_marked_sent, signals.already_has_event. rewrite H. reflexivity.
Qed.

(** The two saves and the recomputation between them, shared by the two
    aggregators: [instance] holds the updated counters of the row of the
    employee. *)
Lemma save_recalculate_save (now : Z) (db : DB) (stored instance : RiskScore.t)
    (employee : Z) :
  risk_score_of db employee = Some stored ->
  RiskScore.id instance = RiskScore.id stored ->
  RiskScore.employee instance = employee ->
  let db1 := fst (signals.save_risk_score now db instance) in
  let r2 := signals.refresh_from_db db1 (snd (signals.save_risk_score now db instance)) in
  modulo_trainings r2 = modulo_trainings (RiskScore.pre_save instance)
  /\ option_map modulo_trainings (risk_score_of db1 employee)
     = Some (modulo_trainings (RiskScore.pre_save instance))
  /\ risk_score_history db1 = risk_score_history db
  /\ forall s,
      let r3 := RiskScore.set_score r2 s (RiskScore.level_of_score s) (s >? 70) in
      let db2 := fst (signals.save_risk_score now db1 r3) in
      snd (signals.save_risk_score now db1 r3) = r3
      /\ option_map modulo_trainings (risk_score_of db2 employee)
         = Some (modulo_trainings r3)
      /\ risk_score_history db2 = risk_score_history db.
Proof.
  intros Hfind Hid Hemp.
  destruct (save_risk_score_row now db stored instance employee Hfind Hid Hemp)
    as (H1 & H2 & H3 & H4).
  cbv zeta. set (db1 := fst (signals.save_risk_score now db instance)) in *.
  rewrite H1.
  set (r2 := signals.refresh_from_db db1 (RiskScore.pre_save instance)).
  assert (Hr2 : modulo_trainings r2 = modulo_trainings (RiskScore.pre_save instance)).
  { unfold r2, signals.refresh_from_db.
    change (RiskScore.id (RiskScore.pre_save instance)) with (RiskScore.id instance).
    destruct (Table.get RiskScore.id (RiskScore.id instance) (risk_scores db1));
      simpl in H3; [congruence | discriminate]. }
  split; [exact Hr2|]. split; [exact H2|]. split; [exact H4|].
  intros s.
  destruct (risk_score_of db1 employee) as [y|] eqn:Ey; simpl in H2; [|discriminate].
  assert (Hy : modulo_trainings y = modulo_trainings (RiskScore.pre_save instance))
    by congruence.
  assert (Hidy : RiskScore.id y = RiskScore.id instance).
  { apply (f_equal RiskScore.id) in Hy. exact Hy. }
  assert (Hid2 : RiskScore.id r2 = RiskScore.id instance).
  { apply (f_equal RiskScore.id) in Hr2. exact Hr2. }
  assert (Hemp2 : RiskScore.employee r2 = employee).
  { apply (f_equal RiskScore.employee) in Hr2. simpl in Hr2. congruence. }
  destruct (save_risk_score_row now db1 y
              (RiskScore.set_score r2 s (RiskScore.level_of_score s) (s >? 70))
              employee Ey) as (G1 & G2 & _ & G4).
  - simpl. congruence.
  - exact Hemp2.
  - split; [exact G1|]. split; [exact G2|]. congruence.
Qed.

Lemma counters_only_modulo (a b : RiskScore.t) :
  modulo_trainings a = modulo_trainings b -> counters_only a = counters_only b.
Proof. unfold counters_only. intros ->. reflexivity. Qed.

Lemma create_risk_history_appends (db : DB) (r : RiskScore.t) (event_type : string)
    (old_score : Z) (old_level : RiskLevel) (source_type : string) (source_id : Z) :
  exists h,
    risk_score_history
      (signals.create_risk_history db r event_type old_score (RiskScore.score r)
         old_level source_type (Some source_id))
    = risk_score_history db ++ [h]
    /\ history_row h r old_score old_level event_type source_type source_id.
Proof.
  unfold signals.create_risk_history, RiskScoreHistory.save. simpl.
  rewrite save_fresh by reflexivity.
  eexists. split; [reflexivity|]. repeat split.
Qed.

Lemma history_row_modulo (h : RiskScoreHistory.t) (a b : RiskScore.t) (old_score : Z)
    (old_level : RiskLevel) (event_type source_type : string) (source_id : Z) :
  modulo_trainings a = modulo_trainings b ->
  history_row h a old_score old_level event_type source_type source_id ->
  history_row h b old_score old_level event_type source_type source_id.
Proof.
  intros H. unfold history_row.
  assert (E1 : RiskScore.id a = RiskScore.id b)
    by exact (f_equal RiskScore.id H).
  assert (E2 : RiskScore.employee a = RiskScore.employee b)
    by exact (f_equal RiskScore.employee H).
  assert (E3 : RiskScore.score a = RiskScore.score b)
    by exact (f_equal RiskScore.score H).
  assert (E4 : RiskScore.risk_level a = RiskScore.risk_level b)
    by exact (f_equal RiskScore.risk_level H).
  rewrite E1, E2, E3, E4. tauto.
Qed.

(** The part the two aggregators share, from the first save of the
    updated counters on; [k] stands for the assignment passes that follow
    the history row. *)
Lemma aggregate_spec (now : Z) (db0 : DB) (rs rs1 : RiskScore.t) (emp : Z)
    (evt src : string) (sid : Z) (k : DB -> RiskScore.t -> DB) :
  risk_score_of db0 emp = Some rs ->
  RiskScore.id rs1 = RiskScore.id rs ->
  RiskScore.employee rs1 = emp ->
  (forall d r, scores_kept d (k d r) /\ risk_score_history (k d r) = risk_score_history d) ->
  let dbf :=
    let '(db1, r1) := signals.save_risk_score now db0 rs1 in
    let r2 := signals.refresh_from_db db1 r1 in
    match RiskScore.recalculate_score r2 with
    | None => db1
    | Some (_, r3) =>
      let '(db2, r4) := signals.save_risk_score now db1 r3 in
      k (signals.create_risk_history db2 r4 evt (RiskScore.score rs) (RiskScore.score r4)
           (RiskScore.risk_level rs) src (Some sid)) r4
    end in
  (exists r', risk_score_of dbf emp = Some r' /\ counters_only r' = counters_only rs1)
  /\ (counters_in_range rs1 ->
      exists h r',
        risk_score_history dbf = risk_score_history db0 ++ [h]
        /\ risk_score_of dbf emp = Some r'
        /\ history_row h r' (RiskScore.score rs) (RiskScore.risk_level rs) evt src sid
        /\ 0 <= RiskScore.score r' <= 100
        /\ RiskScore.risk_level r' = RiskScore.level_of_score (RiskScore.score r')
        /\ RiskScore.requires_remediation r' = (RiskScore.score r' >? 70)).
Proof.
  intros G2 Hid Hemp Hk. cbv zeta.
  destruct (save_recalculate_save now db0 rs rs1 emp G2 Hid Hemp) as (S1 & S2 & S3 & S4).
  destruct (signals.save_risk_score now db0 rs1) as [db1 r1]. cbn [fst snd] in *.
  set (r2 := signals.refresh_from_db db1 r1) in *.
  assert (Hfirst : exists r', risk_score_of db1 emp = Some r'
                              /\ counters_only r' = counters_only rs1).
  { destruct (risk_score_of db1 emp) as [y|]; [|discriminate].
    exists y. split; [reflexivity|].
    cbn [option_map] in S2.
    assert (Hy : modulo_trainings y = modulo_trainings (RiskScore.pre_save rs1))
      by congruence.
    rewrite (counters_only_modulo _ _ Hy). reflexivity. }
  assert (Hrange : counters_in_range rs1 -> counters_in_range r2).
  { intros H. apply (modulo_in_range _ (RiskScore.pre_save rs1) S1). exact H. }
  destruct (RiskScore.recalculate_score r2) as [[s r3]|] eqn:Erec.
  - (* the score is recomputed and saved *)
    assert (Hr3 : counters_in_range rs1 ->
                  r3 = RiskScore.set_score r2 s (RiskScore.level_of_score s) (s >? 70)
                  /\ 0 <= s <= 100).
    { intros H. destruct (recalculate_in_range r2 (Hrange H)) as (s' & Hs' & Hb).
      rewrite Hs' in Erec. injection Erec as <- <-. split; [reflexivity | exact Hb]. }
    assert (Hshape : exists s0 l0 b0, r3 = RiskScore.set_score r2 s0 l0 b0).
    { unfold RiskScore.recalculate_score in Erec.
      destruct (if RiskScore.total_quiz_questions r2 >? 0 then _ else _); [|discriminate].
      destruct (if RiskScore.total_simulations_received r2 >? 0 then _ else _);
        [|discriminate].
      injection Erec as _ <-. eexists; eexists; eexists; reflexivity. }
    (* the second save, whatever instance the recomputation produced *)
    assert (Hsave2 :
      let db2 := fst (signals.save_risk_score now db1 r3) in
      let r4 := snd (signals.save_risk_score now db1 r3) in
      r4 = RiskScore.pre_save r3
      /\ option_map modulo_trainings (risk_score_of db2 emp)
         = Some (modulo_trainings (RiskScore.pre_save r3))
      /\ risk_score_history db2 = risk_score_history db0).
    { destruct (risk_score_of db1 emp) as [y|] eqn:Ey; [|discriminate].
      cbn [option_map] in S2.
      assert (Hy : modulo_trainings y = modulo_trainings (RiskScore.pre_save rs1))
        by congruence.
      destruct Hshape as (s0 & l0 & b0 & ->).
      destruct (save_risk_score_row now db1 y (RiskScore.set_score r2 s0 l0 b0)
                  emp Ey) as (K1 & K2 & _ & K4).
      - simpl. transitivity (RiskScore.id (RiskScore.pre_save rs1)).
        + exact (f_equal RiskScore.id S1).
        + symmetry. exact (f_equal RiskScore.id Hy).
      - simpl. transitivity (RiskScore.employee (RiskScore.pre_save rs1)).
        + exact (f_equal RiskScore.employee S1).
        + exact Hemp.
      - cbv zeta. split; [exact K1|]. split; [exact K2|]. congruence. }
    cbv zeta in Hsave2.
    destruct (signals.save_risk_score now db1 r3) as [db2 r4]. cbn [fst snd] in Hsave2.
    destruct Hsave2 as (K1 & K2 & K4).
    destruct (create_risk_history_appends db2 r4 evt (RiskScore.score rs)
                (RiskScore.risk_level rs) src sid) as (h & Hh1 & Hh2).
    set (db3 := signals.create_risk_history db2 r4 _ _ _ _ _ _) in *.
    assert (Hk3 : scores_kept db2 db3) by (apply scores_kept_same; reflexivity).
    destruct (Hk db3 r4) as [Hkf Hhf].
    pose proof (scores_kept_of _ _ emp (scores_kept_trans _ _ _ Hk3 Hkf)) as Hof.
    rewrite K2 in Hof.
    destruct (risk_score_of (k db3 r4) emp) as [y|]; [|discriminate].
    assert (Hy : modulo_trainings y = modulo_trainings (RiskScore.pre_save r3))
      by (cbn [option_map] in Hof; congruence).
    split.
    + exists y. split; [reflexivity|].
      rewrite (counters_only_modulo _ _ Hy).
      destruct Hshape as (s0 & l0 & b0 & ->).
      transitivity (counters_only r2); [reflexivity|].
      rewrite (counters_only_modulo _ _ S1). reflexivity.
    + intros Hin. destruct (Hr3 Hin) as [-> Hb].
      exists h, y. split; [rewrite Hhf, Hh1, K4; reflexivity|].
      split; [reflexivity|].
      split; [|split; [|split]].
      * apply (history_row_modulo h r4); [|exact Hh2]. rewrite K1. symmetry. exact Hy.
      * apply (f_equal RiskScore.score) in Hy. simpl in Hy. lia.
      * pose proof (f_equal RiskScore.score Hy) as Hs.
        pose proof (f_equal RiskScore.risk_level Hy) as Hl.
        simpl in Hs, Hl. rewrite Hs, Hl. reflexivity.
      * pose proof (f_equal RiskScore.score Hy) as Hs.
        pose proof (f_equal RiskScore.requires_remediation Hy) as Hl.
        simpl in Hs, Hl. rewrite Hs, Hl. reflexivity.
  - (* the conversion raised: only possible outside the range *)
    split; [exact Hfirst|].
    intros H. destruct (recalculate_in_range r2 (Hrange H)) as (s' & Hs' & _).
    congruence.
Qed.

Lemma starting_score_employee (db : DB) (employee company : Z) :
  RiskScore.employee (starting_score db employee company) = employee.
Proof.
  unfold starting_score, risk_score_of.
  destruct (find _ (risk_scores db)) eqn:E; [|reflexivity].
  apply find_some in E. lia.
Qed.

(** The aggregator of tracking events, for a relevant event of an employee
    with a company. *)
Lemma update_from_simulation_spec (now : Z) (db : DB) (e : TrackingEvent.t)
    (sim : EmailSimulation.t) (c : SimulationCampaign.t) (company : Z)
    (a1 a2 a3 a4 a5 : Z) :
  TrackingEvent.relevant (TrackingEvent.event_type e) = true ->
  scored_employee db (TrackingEvent.employee e) company ->
  signals.simulation_increments db e sim = (a1, a2, a3, a4, a5) ->
  let emp := TrackingEvent.employee e in
  let rs := starting_score db emp company in
  let rs1 := RiskScore.add_simulation rs a1 a2 a3 a4 a5 (Some now) in
  let db' := signals.update_risk_score_from_simulation now db e sim c in
  (exists r', risk_score_of db' emp = Some r' /\ counters_only r' = counters_only rs1)
  /\ (counters_in_range rs1 ->
      exists h r',
        risk_score_history db' = risk_score_history db ++ [h]
        /\ risk_score_of db' emp = Some r'
        /\ history_row h r' (RiskScore.score rs) (RiskScore.risk_level rs)
             (signals.history_event_type (TrackingEvent.event_type e))
             "TrackingEvent" (TrackingEvent.id e)
        /\ 0 <= RiskScore.score r' <= 100
        /\ RiskScore.risk_level r' = RiskScore.level_of_score (RiskScore.score r')
        /\ RiskScore.requires_remediation r' = (RiskScore.score r' >? 70)).
Proof.
  intros Hrel (u & Hu & Hrole & Hcomp) Hinc. cbv zeta.
  pose proof (get_id _ _ _ _ Hu) as Huid.
  unfold signals.update_risk_score_from_simulation.
  rewrite Hrel, Hu, Hrole. cbn [negb User.is_employee].
  destruct (get_or_create_spec db u company Hcomp) as (G1 & G2 & G3 & G4).
  destruct (signals.get_or_create_risk_score db (Some u)) as [db0 o].
  cbn [fst snd] in *. subst o. rewrite Huid in *.
  set (rs := starting_score db (TrackingEvent.employee e) company) in *.
  assert (Hinc0 : signals.simulation_increments db0 e sim = (a1, a2, a3, a4, a5)).
  { rewrite <- Hinc. apply simulation_increments_events. apply G3. }
  rewrite Hinc0. rewrite <- G4.
  apply (aggregate_spec now db0 rs
           (RiskScore.add_simulation rs a1 a2 a3 a4 a5 (Some now))
           (TrackingEvent.employee e)
           (signals.history_event_type (TrackingEvent.event_type e)) "TrackingEvent"
           (TrackingEvent.id e)
           (fun d r =>
              match TrackingEvent.event_type e with
              | TrackingEvent.LINK_CLICKED | TrackingEvent.CREDENTIALS_ENTERED =>
                signals.assign_vector_training now
                  (signals.auto_assign_remediation now d r) u r e c
              | _ => d
              end) G2 eq_refl).
  - apply starting_score_employee.
  - intros d r.
    assert (H : scores_kept d
                  (signals.assign_vector_training now
                     (signals.auto_assign_remediation now d r) u r e c)
                /\ risk_score_history
                     (signals.assign_vector_training now
                        (signals.auto_assign_remediation now d r) u r e c)
                   = risk_score_history d).
    { split.
      - eapply scores_kept_trans;
          [apply auto_assign_remediation_kept | apply assign_vector_training_kept].
      - destruct (assign_vector_training_tracking now
                    (signals.auto_assign_remediation now d r) u r e c) as [_ H1].
        destruct (auto_assign_remediation_tracking now d r) as [_ H2].
        congruence. }
    destruct (TrackingEvent.event_type e);
      first [exact H | split; [apply scores_kept_refl | reflexivity]].
Qed.

(** The aggregator of quiz results, for an employee with a company. *)
Lemma update_from_quiz_spec (now : Z) (db : DB) (q : QuizResult.t) (company : Z) :
  scored_employee db (QuizResult.employee q) company ->
  let emp := QuizResult.employee q in
  let rs := starting_score db emp company in
  let rs1 := RiskScore.add_quiz rs 1 (QuizResult.total_questions q)
               (QuizResult.correct_answers q) (QuizResult.phishing_emails_missed q) now in
  let db' := signals.update_risk_score_from_quiz now db q in
  (exists r', risk_score_of db' emp = Some r' /\ counters_only r' = counters_only rs1)
  /\ (counters_in_range rs1 ->
      exists h r',
        risk_score_history db' = risk_score_history db ++ [h]
        /\ risk_score_of db' emp = Some r'
        /\ history_row h r' (RiskScore.score rs) (RiskScore.risk_level rs)
             (if QuizResult.passed q then "QUIZ_COMPLETED" else "QUIZ_FAILED")
             "QuizResult" (QuizResult.id q)
        /\ 0 <= RiskScore.score r' <= 100
        /\ RiskScore.risk_level r' = RiskScore.level_of_score (RiskScore.score r')
        /\ RiskScore.requires_remediation r' = (RiskScore.score r' >? 70)).
Proof.
  intros (u & Hu & Hrole & Hcomp). cbv zeta.
  pose proof (get_id _ _ _ _ Hu) as Huid.
  unfold signals.update_risk_score_from_quiz.
  rewrite Hu, Hrole. cbn [negb User.is_employee].
  destruct (get_or_create_spec db u company Hcomp) as (G1 & G2 & G3 & G4).
  destruct (signals.get_or_create_risk_score db (Some u)) as [db0 o].
  cbn [fst snd] in *. subst o. rewrite Huid in *.
  set (rs := starting_score db (QuizResult.employee q) company) in *.
  rewrite <- G4.
  apply (aggregate_spec now db0 rs
           (RiskScore.add_quiz rs 1 (QuizResult.total_questions q)
              (QuizResult.correct_answers q) (QuizResult.phishing_emails_missed q) now)
           (QuizResult.employee q)
           (if QuizResult.passed q then "QUIZ_COMPLETED" else "QUIZ_FAILED")%string
           "QuizResult" (QuizResult.id q)
           (fun d r => signals.auto_assign_remediation now d r) G2 eq_refl).
  - apply starting_score_employee.
  - intros d r. split; [apply auto_assign_remediation_kept|].
    destruct (auto_assign_remediation_tracking now d r) as [_ H]. exact H.
Qed.

(** ** The history of the risk score *)

(** C6 (amended).  A relevant tracking event, and a quiz result, of an
    employee with a company, whose counters stay in the range of the
    column type, make the aggregator write exactly one [RiskScoreHistory]
    row: it holds the previous score and level, the new score and level of
    the stored risk score, the source type and the key of the source, and
    its [score_change] is the new score minus the previous one.  The row is
    written whatever the change, zero included. *)
Theorem C6_one_history_row_per_aggregated_event :
  (forall (now : Z) (db : DB) (e : TrackingEvent.t) (sim : EmailSimulation.t)
          (c : SimulationCampaign.t) (company : Z),
      TrackingEvent.relevant (TrackingEvent.event_type e) = true ->
      scored_employee db (TrackingEvent.employee e) company ->
      counters_in_range (simulation_counters now db e sim company) ->
      let old := starting_score db (TrackingEvent.employee e) company in
      let db' := signals.update_risk_score_from_simulation now db e sim c in
      exists h r',
        risk_score_history db' = risk_score_history db ++ [h]
        /\ risk_score_of db' (TrackingEvent.employee e) = Some r'
        /\ history_row h r' (RiskScore.score old) (RiskScore.risk_level old)
             (signals.history_event_type (TrackingEvent.event_type e))
             "TrackingEvent" (TrackingEvent.id e))
  /\ (forall (now : Z) (db : DB) (q : QuizResult.t) (company : Z),
         scored_employee db (QuizResult.employee q) company ->
         counters_in_range (quiz_counters now db q company) ->
         let old := starting_score db (QuizResult.employee q) company in
         let db' := signals.update_risk_score_from_quiz now db q in
         exists h r',
           risk_score_history db' = risk_score_history db ++ [h]
           /\ risk_score_of db' (QuizResult.employee q) = Some r'
           /\ history_row h r' (RiskScore.score old) (RiskScore.risk_level old)
                (if QuizResult.passed q then "QUIZ_COMPLETED" else "QUIZ_FAILED")
                "QuizResult" (QuizResult.id q)).
Proof.
  split.
  - intros now db e sim c company Hr Hsc Hin. cbv zeta.
    unfold simulation_counters in Hin.
    destruct (signals.simulation_increments db e sim) as [[[[a1 a2] a3] a4] a5] eqn:Hinc.
    destruct (update_from_simulation_spec now db e sim c company a1 a2 a3 a4 a5 Hr Hsc Hinc)
      as [_ H].
    destruct (H Hin) as (h & r' & H1 & H2 & H3 & _).
    exists h, r'. auto.
  - intros now db q company Hsc Hin. cbv zeta.
    destruct (update_from_quiz_spec now db q company Hsc) as [_ H].
    destruct (H Hin) as (h & r' & H1 & H2 & H3 & _).
    exists h, r'. auto.
Qed.

(** The first part at work: alice opens the email of the sent example
    campaign; her score stays 50, and the row is written. *)
Lemma C6_witness :
  let e := TrackingEvent.mk 3 1 1 1 TrackingEvent.EMAIL_OPENED [] None "" 20 in
  let db := set_tracking_events Example.sent (tracking_events Example.sent ++ [e]) in
  let sim := Example.simulation_of Example.sent "l1" in
  TrackingEvent.relevant (TrackingEvent.event_type e) = true
  /\ scored_employee db 1 1
  /\ counters_in_range (simulation_counters 20 db e sim 1)
  /\ exists h r',
      risk_score_history
        (signals.update_risk_score_from_simulation 20 db e sim
           (Example.campaign_of Example.sent))
      = risk_score_history db ++ [h]
      /\ risk_score_of
           (signals.update_risk_score_from_simulation 20 db e sim
              (Example.campaign_of Example.sent)) 1 = Some r'
      /\ history_row h r' 50 MEDIUM "SIMULATION_OPENED" "TrackingEvent" 3.
Proof.
  cbv zeta.
  assert (H1 : scored_employee
                 (set_tracking_events Example.sent
                    (tracking_events Example.sent
                     ++ [TrackingEvent.mk 3 1 1 1 TrackingEvent.EMAIL_OPENED [] None "" 20]))
                 1 1).
  { exists Example.alice. repeat split. }
  assert (H2 : counters_in_range
                 (simulation_counters 20
                    (set_tracking_events Example.sent
                       (tracking_events Example.sent
                        ++ [TrackingEvent.mk 3 1 1 1 TrackingEvent.EMAIL_OPENED [] None "" 20]))
                    (TrackingEvent.mk 3 1 1 1 TrackingEvent.EMAIL_OPENED [] None "" 20)
                    (Example.simulation_of Example.sent "l1") 1)).
  { vm_compute. repeat split; discriminate. }
  split; [reflexivity|]. split; [exact H1|]. split; [exact H2|].
  exact (proj1 C6_one_history_row_per_aggregated_event 20 _
           (TrackingEvent.mk 3 1 1 1 TrackingEvent.EMAIL_OPENED [] None "" 20)
           (Example.simulation_of Example.sent "l1")
           (Example.campaign_of Example.sent) 1 eq_refl H1 H2).
Defined.

(** The claim as stated fails: marking the emails of the scheduled
    campaign as sent raises [total_simulations_received] of alice, whose
    risk score the quiz had created, and writes no history row. *)
Lemma C6_counterexample :
  let db := Example.quiz_taken in
  let db' := fst (fst (services.mark_campaign_emails_sent 50 db (Example.campaign_of db))) in
  counter RiskScore.total_simulations_received db 1 = 0
  /\ counter RiskScore.total_simulations_received db' 1 = 1
  /\ risk_score_history db' = risk_score_history db.
Proof. vm_compute. repeat split. Qed.

(** A history row is written when the score does not move: alice opens
    the email, the score stays 50 and the row records a change of 0. *)
Example history_row_for_unchanged_score :
  let db := fst (views.track_pixel_view 20 Example.sent "t1" None "") in
  map (fun h => (RiskScoreHistory.previous_score h, RiskScoreHistory.new_score h,
                 RiskScoreHistory.score_change h))
    (risk_score_history db)
  = [(50, 50, 0)].
Proof. vm_compute. reflexivity. Qed.

(** ** Counting a simulation once *)

Lemma existsb_ext_in {A : Type} (p q : A -> bool) (l : list A) :
  (forall x, In x l -> p x = q x) -> existsb p l = existsb q l.
Proof.
  induction l as [|x xs IH]; intros H; simpl; [reflexivity|].
  rewrite (H x (or_introl eq_refl)), IH; [reflexivity|].
  intros y Hy. apply H. right. exact Hy.
Qed.

Lemma EventType_eqb_sym (a b : TrackingEvent.EventType) :
  TrackingEvent.EventType_eqb a b = TrackingEvent.EventType_eqb b a.
Proof. destruct a, b; reflexivity. Qed.

(** The guards of the aggregator, for an event that was just inserted
    under a fresh key: they see the events logged before it. *)
Lemma already_has_event_new (db : DB) (e : TrackingEvent.t) (k : TrackingEvent.EventType) :
  TrackingEvent.id e = Table.next_id TrackingEvent.id (tracking_events db) ->
  signals.already_has_event (set_tracking_events db (tracking_events db ++ [e])) e k
  = logged db (TrackingEvent.email_simulation e) (TrackingEvent.EventType_eqb k).
Proof.
  intros Hid. unfold signals.already_has_event, logged. cbn [tracking_events set_tracking_events].
  rewrite existsb_app. cbn [existsb]. rewrite Z.eqb_refl with (x := TrackingEvent.id e).
  cbn [negb]. rewrite andb_false_r, !orb_false_r.
  apply existsb_ext_in. intros x Hx.
  pose proof (next_id_fresh TrackingEvent.id _ x Hx) as Hlt.
  assert (E : (TrackingEvent.id x =? TrackingEvent.id e) = false) by (apply Z.eqb_neq; lia).
  rewrite E. cbn [negb]. rewrite andb_true_r, EventType_eqb_sym. reflexivity.
Qed.

Lemma has_prior_relevant_events_new (db : DB) (e : TrackingEvent.t) :
  TrackingEvent.id e = Table.next_id TrackingEvent.id (tracking_events db) ->
  signals.has_prior_relevant_events (set_tracking_events db (tracking_events db ++ [e])) e
  = logged db (TrackingEvent.email_simulation e) TrackingEvent.relevant.
Proof.
  intros Hid. unfold signals.has_prior_relevant_events, logged.
  cbn [tracking_events set_tracking_events].
  rewrite existsb_app. cbn [existsb]. rewrite Z.eqb_refl with (x := TrackingEvent.id e).
  cbn [negb]. rewrite andb_false_r, !orb_false_r.
  apply existsb_ext_in. intros x Hx.
  pose proof (next_id_fresh TrackingEvent.id _ x Hx) as Hlt.
  assert (E : (TrackingEvent.id x =? TrackingEvent.id e) = false) by (apply Z.eqb_neq; lia).
  rewrite E. cbn [negb]. rewrite andb_true_r. reflexivity.
Qed.

Lemma was_bulk_marked_sent_new (db : DB) (e : TrackingEvent.t) (s : EmailSimulation.t) :
  TrackingEvent.relevant (TrackingEvent.event_type e) = true ->
  signals.was_bulk_marked_sent (set_tracking_events db (tracking_events db ++ [e])) s
  = signals.was_bulk_marked_sent db s.
Proof.
  intros Hr. unfold signals.was_bulk_marked_sent. cbn [tracking_events set_tracking_events].
  rewrite existsb_app. cbn [existsb].
  assert (E : TrackingEvent.EventType_eqb (TrackingEvent.event_type e)
                TrackingEvent.EMAIL_SENT = false)
    by (destruct (TrackingEvent.event_type e); try reflexivity; discriminate).
  rewrite E, andb_false_r, !orb_false_r. reflexivity.
Qed.

(** The increments of a relevant event that was just inserted. *)
Lemma simulation_increments_new (db : DB) (e : TrackingEvent.t) (s : EmailSimulation.t)
    (a1 a2 a3 a4 a5 : Z) :
  TrackingEvent.id e = Table.next_id TrackingEvent.id (tracking_events db) ->
  TrackingEvent.relevant (TrackingEvent.event_type e) = true ->
  signals.simulation_increments (set_tracking_events db (tracking_events db ++ [e])) e s
  = (a1, a2, a3, a4, a5) ->
  a1 = (if logged db (TrackingEvent.email_simulation e) TrackingEvent.relevant
           || signals.was_bulk_marked_sent db s then 0 else 1)
  /\ forall r d,
      counter_of (TrackingEvent.event_type e) (RiskScore.add_simulation r a1 a2 a3 a4 a5 d)
      = counter_of (TrackingEvent.event_type e) r
        + (if logged db (TrackingEvent.email_simulation e)
                (TrackingEvent.EventType_eqb (TrackingEvent.event_type e))
           then 0 else 1).
Proof.
  intros Hid Hr. unfold signals.simulation_increments.
  rewrite has_prior_relevant_events_new, was_bulk_marked_sent_new by assumption.
  rewrite !already_has_event_new by assumption.
  destruct (TrackingEvent.event_type e); try discriminate; intros H;
    injection H as <- <- <- <- <-;
    (split;
     [ destruct (logged db _ TrackingEvent.relevant || _); reflexivity
     | intros r d; cbn [counter_of];
       repeat match goal with
              | |- context [logged db ?x ?p] => destruct (logged db x p)
              end;
       destruct (signals.was_bulk_marked_sent db s); reflexivity ]).
Qed.

Lemma counter_scores (f : RiskScore.t -> Z) (db db' : DB) (employee : Z) :
  risk_scores db' = risk_scores db -> counter f db' employee = counter f db employee.
Proof. intros H. unfold counter, risk_score_of. rewrite H. reflexivity. Qed.

(** The handler does nothing, or the event is relevant and of an employee
    with a company. *)
Lemma update_from_simulation_cases (now : Z) (db : DB) (e : TrackingEvent.t)
    (sim : EmailSimulation.t) (c : SimulationCampaign.t) :
  signals.update_risk_score_from_simulation now db e sim c = db
  \/ (TrackingEvent.relevant (TrackingEvent.event_type e) = true
      /\ exists company, scored_employee db (TrackingEvent.employee e) company).
Proof.
  unfold signals.update_risk_score_from_simulation, scored_employee.
  destruct (TrackingEvent.relevant _) eqn:Hr; [|left; reflexivity]. cbn [negb].
  destruct (Table.get User.id _ _) as [u|] eqn:Hu; [|left; reflexivity].
  destruct (User.role u) eqn:Hrole; cbn [negb User.is_employee]; try (left; reflexivity).
  destruct (User.company u) as [company|] eqn:Hc.
  - right. split; [reflexivity|]. exists company, u. auto.
  - left. unfold signals.get_or_create_risk_score. rewrite Hc. reflexivity.
Qed.

(** What [objects_create] leaves of the risk scores is what its
    [post_save] receiver left. *)
Lemma objects_create_scores (now : Z) (db : DB) (s : EmailSimulation.t)
    (c : SimulationCampaign.t) (employee : Z) (k : TrackingEvent.EventType)
    (data : list (string * Value)) (ip : option string) (ua : string) :
  let self :=
    TrackingEvent.mk (Table.next_id TrackingEvent.id (tracking_events db))
      (EmailSimulation.id s) (SimulationCampaign.id c) employee k data ip ua now in
  let db1 := set_tracking_events db (tracking_events db ++ [self]) in
  let out := TrackingEvent_methods.objects_create now db s c employee k data ip ua in
  risk_scores (fst (fst out))
  = risk_scores (signals.update_risk_score_from_simulation now db1 self s c)
  /\ risk_score_history (fst (fst out))
     = risk_score_history (signals.update_risk_score_from_simulation now db1 self s c)
  /\ users (fst (fst out)) = users db
  /\ EmailSimulation.id (snd (fst out)) = EmailSimulation.id s
  /\ EmailSimulation.employee (snd (fst out)) = EmailSimulation.employee s.
Proof.
  cbv zeta. unfold TrackingEvent_methods.objects_create.
  match goal with
  | |- context [signals.update_risk_score_from_simulation now ?d ?e s c] =>
    pose proof (update_risk_score_from_simulation_tracking now d e s c) as (Hu & _);
    set (db2 := signals.update_risk_score_from_simulation now d e s c) in *;
    set (self := e) in *
  end.
  cbn [users set_tracking_events] in Hu.
  pose proof (update_simulation_stats_frame self db2 s) as (F1 & _ & _ & F4 & F5 & _).
  assert (Hs : EmailSimulation.id (snd (TrackingEvent_methods._update_simulation_stats self db2 s))
               = EmailSimulation.id s
               /\ EmailSimulation.employee
                    (snd (TrackingEvent_methods._update_simulation_stats self db2 s))
                  = EmailSimulation.employee s).
  { unfold TrackingEvent_methods._update_simulation_stats.
    destruct (EmailSimulation.is_pending (EmailSimulation.status s)
              && TrackingEvent.relevant (TrackingEvent.event_type self));
      destruct (TrackingEvent.event_type self); simpl;
      repeat match goal with
             | |- context [negb ?b] => destruct b; simpl
             end; split; reflexivity. }
  destruct (TrackingEvent_methods._update_simulation_stats self db2 s) as [db3 s3].
  cbn [fst snd] in *. destruct Hs as [Hs1 Hs2].
  unfold TrackingEvent_methods._update_campaign_stats. cbn [fst snd].
  cbn [risk_scores risk_score_history users set_campaigns].
  repeat split; congruence.
Qed.

Lemma counter_starting_received (db : DB) (employee company : Z) :
  counter RiskScore.total_simulations_received db employee
  = RiskScore.total_simulations_received (starting_score db employee company).
Proof. unfold counter, starting_score. destruct (risk_score_of db employee); reflexivity. Qed.

Lemma counter_starting_of (k : TrackingEvent.EventType) (db : DB) (employee company : Z) :
  counter (counter_of k) db employee = counter_of k (starting_score db employee company).
Proof.
  unfold counter, starting_score.
  destruct (risk_score_of db employee); [reflexivity|]. destruct k; reflexivity.
Qed.

(** One created event that the aggregator counts. *)
Lemma objects_create_counted (now : Z) (db : DB) (s : EmailSimulation.t)
    (c : SimulationCampaign.t) (k : TrackingEvent.EventType)
    (data : list (string * Value)) (ip : option string) (ua : string) (company : Z) :
  TrackingEvent.relevant k = true ->
  scored_employee db (EmailSimulation.employee s) company ->
  let emp := EmailSimulation.employee s in
  let db' := fst (fst (TrackingEvent_methods.objects_create now db s c emp k data ip ua)) in
  counter RiskScore.total_simulations_received db' emp
  = counter RiskScore.total_simulations_received db emp
    + (if logged db (EmailSimulation.id s) TrackingEvent.relevant
          || signals.was_bulk_marked_sent db s then 0 else 1)
  /\ counter (counter_of k) db' emp
     = counter (counter_of k) db emp
       + (if logged db (EmailSimulation.id s) (TrackingEvent.EventType_eqb k)
          then 0 else 1).
Proof.
  intros Hr Hsc. cbv zeta.
  destruct (objects_create_scores now db s c (EmailSimulation.employee s) k data ip ua)
    as (H1 & _).
  rewrite !(counter_scores _ _ _ _ H1). clear H1.
  set (self := TrackingEvent.mk _ _ _ _ _ _ _ _ _) in *.
  set (db1 := set_tracking_events db _) in *.
  destruct (signals.simulation_increments db1 self s) as [[[[a1 a2] a3] a4] a5] eqn:Hinc.
  destruct (simulation_increments_new db self s a1 a2 a3 a4 a5 eq_refl Hr Hinc)
    as [Ha1 Hak].
  destruct (update_from_simulation_spec now db1 self s c company a1 a2 a3 a4 a5 Hr Hsc Hinc)
    as [(r' & Hr' & Hc) _].
  cbn [TrackingEvent.employee self] in Hr'.
  change (TrackingEvent.employee self) with (EmailSimulation.employee s) in *.
  change (starting_score db1 (EmailSimulation.employee s) company)
    with (starting_score db (EmailSimulation.employee s) company) in Hc.
  rewrite (counter_starting_received db _ company), (counter_starting_of k db _ company).
  unfold counter at 1 2. rewrite Hr'.
  split.
  - transitivity (RiskScore.total_simulations_received (counters_only r'));
      [reflexivity|]. rewrite Hc. cbn. rewrite Ha1. reflexivity.
  - transitivity (counter_of k (counters_only r')); [destruct k; reflexivity|].
    rewrite Hc.
    transitivity (counter_of k
                    (RiskScore.add_simulation
                       (starting_score db (EmailSimulation.employee s) company)
                       a1 a2 a3 a4 a5 (Some now))); [destruct k; reflexivity|].
    apply (Hak _ (Some now)).
Qed.

(** Any created event: the risk scores stay, or it is one the aggregator
    counts. *)
Lemma objects_create_cases (now : Z) (db : DB) (s : EmailSimulation.t)
    (c : SimulationCampaign.t) (employee : Z) (k : TrackingEvent.EventType)
    (data : list (string * Value)) (ip : option string) (ua : string) :
  risk_scores (fst (fst (TrackingEvent_methods.objects_create now db s c employee k data ip ua)))
  = risk_scores db
  \/ (TrackingEvent.relevant k = true /\ exists company, scored_employee db employee company).
Proof.
  destruct (objects_create_scores now db s c employee k data ip ua) as (H1 & _).
  rewrite H1.
  match goal with
  | |- context [signals.update_risk_score_from_simulation now ?d ?e s c] =>
    destruct (update_from_simulation_cases now d e s c) as [E | [Hr Hs]]
  end.
  - left. rewrite E. reflexivity.
  - right. split; [exact Hr | exact Hs].
Qed.

Lemma logged_after (now : Z) (db : DB) (s : EmailSimulation.t)
    (c : SimulationCampaign.t) (employee : Z) (k : TrackingEvent.EventType)
    (data : list (string * Value)) (ip : option string) (ua : string)
    (p : TrackingEvent.EventType -> bool) :
  logged (fst (fst (TrackingEvent_methods.objects_create now db s c employee k data ip ua)))
    (EmailSimulation.id s) p
  = logged db (EmailSimulation.id s) p || p k.
Proof.
  unfold logged. rewrite objects_create_events, existsb_app. cbn [existsb].
  cbn [TrackingEvent.email_simulation TrackingEvent.event_type].
  rewrite Z.eqb_refl, orb_false_r. reflexivity.
Qed.

Lemma scored_employee_users (db db' : DB) (employee company : Z) :
  users db' = users db -> scored_employee db employee company ->
  scored_employee db' employee company.
Proof. unfold scored_employee. intros ->. tauto. Qed.

(** Events delivered one after the other raise the count of received
    simulations by one at most, and not at all once a relevant event of the
    simulation is logged. *)
Lemma deliver_received (now : Z) (ks : list TrackingEvent.EventType) :
  forall (db : DB) (sim : EmailSimulation.t) (c : SimulationCampaign.t),
    let emp := EmailSimulation.employee sim in
    let db' := fst (fst (deliver now db sim c ks)) in
    counter RiskScore.total_simulations_received db emp
    <= counter RiskScore.total_simulations_received db' emp
    <= counter RiskScore.total_simulations_received db emp + 1
    /\ (logged db (EmailSimulation.id sim) TrackingEvent.relevant = true ->
        counter RiskScore.total_simulations_received db' emp
        = counter RiskScore.total_simulations_received db emp).
Proof.
  induction ks as [|k rest IH]; intros db sim c; cbv zeta.
  - cbn [deliver fst]. split; [lia | reflexivity].
  - cbn [deliver].
    pose proof (objects_create_scores now db sim c (EmailSimulation.employee sim) k [] None "")
      as (_ & _ & Hu & Hid & Hemp).
    pose proof (logged_after now db sim c (EmailSimulation.employee sim) k [] None ""
                  TrackingEvent.relevant) as Hlog.
    pose proof (objects_create_cases now db sim c (EmailSimulation.employee sim) k [] None "")
      as Hcases.
    assert (Hstep :
      counter RiskScore.total_simulations_received
        (fst (fst (TrackingEvent_methods.objects_create now db sim c
                     (EmailSimulation.employee sim) k [] None "")))
        (EmailSimulation.employee sim)
      = counter RiskScore.total_simulations_received db (EmailSimulation.employee sim)
        + (if TrackingEvent.relevant k
           then if logged db (EmailSimulation.id sim) TrackingEvent.relevant
                   || signals.was_bulk_marked_sent db sim then 0 else 1
           else 0)
      \/ counter RiskScore.total_simulations_received
           (fst (fst (TrackingEvent_methods.objects_create now db sim c
                        (EmailSimulation.employee sim) k [] None "")))
           (EmailSimulation.employee sim)
         = counter RiskScore.total_simulations_received db (EmailSimulation.employee sim)).
    { destruct Hcases as [E | (Hr & company & Hsc)].
      - right. apply counter_scores, E.
      - left. rewrite Hr.
        apply (objects_create_counted now db sim c k [] None "" company Hr Hsc). }
    destruct (TrackingEvent_methods.objects_create now db sim c
                (EmailSimulation.employee sim) k [] None "") as [[db1 sim1] c1].
    cbn [fst snd] in *.
    specialize (IH db1 sim1 c1). cbv zeta in IH. rewrite Hid, Hemp, Hlog in IH.
    destruct IH as [IH1 IH2].
    destruct Hstep as [Hstep | Hstep]; rewrite Hstep in *.
    + destruct (TrackingEvent.relevant k) eqn:Hr.
      * rewrite orb_true_r in IH2. specialize (IH2 eq_refl).
        destruct (logged db (EmailSimulation.id sim) TrackingEvent.relevant); cbn [orb] in *.
        -- split; [lia | intros _; lia].
        -- split; [|discriminate].
           destruct (signals.was_bulk_marked_sent db sim); lia.
      * rewrite orb_false_r in IH2. split; [lia|]. intros H. rewrite (IH2 H). lia.
    + split; [lia|]. intros H. apply IH2. rewrite H. reflexivity.
Qed.

(** C2 (amended).  A tracking event of a type that is already logged for
    the simulation leaves the counter of that type of the risk score of the
    employee unchanged; events delivered one after the other for one
    simulation raise [total_simulations_received] by one at most, and not at
    all once a relevant event of the simulation is logged; and for an
    employee with a company, a CREDENTIALS_ENTERED event delivered twice for
    a simulation without one raises [credentials_entered] by exactly one,
    and [total_simulations_received] by exactly one if the simulation has no
    relevant event yet and was not marked as sent in bulk, by nothing
    otherwise. *)
Theorem C2_events_counted_once :
  (forall (now : Z) (db : DB) (sim : EmailSimulation.t) (c : SimulationCampaign.t)
          (k : TrackingEvent.EventType) (data : list (string * Value))
          (ip : option string) (ua : string),
      logged db (EmailSimulation.id sim) (TrackingEvent.EventType_eqb k) = true ->
      let emp := EmailSimulation.employee sim in
      counter (counter_of k)
        (fst (fst (TrackingEvent_methods.objects_create now db sim c emp k data ip ua))) emp
      = counter (counter_of k) db emp)
  /\ (forall (now : Z) (db : DB) (sim : EmailSimulation.t) (c : SimulationCampaign.t)
             (ks : list TrackingEvent.EventType),
         let emp := EmailSimulation.employee sim in
         let db' := fst (fst (deliver now db sim c ks)) in
         counter RiskScore.total_simulations_received db emp
         <= counter RiskScore.total_simulations_received db' emp
         <= counter RiskScore.total_simulations_received db emp + 1
         /\ (logged db (EmailSimulation.id sim) TrackingEvent.relevant = true ->
             counter RiskScore.total_simulations_received db' emp
             = counter RiskScore.total_simulations_received db emp))
  /\ (forall (now : Z) (db : DB) (sim : EmailSimulation.t) (c : SimulationCampaign.t)
             (company : Z),
         scored_employee db (EmailSimulation.employee sim) company ->
         logged db (EmailSimulation.id sim)
           (TrackingEvent.EventType_eqb TrackingEvent.CREDENTIALS_ENTERED) = false ->
         let emp := EmailSimulation.employee sim in
         let db' :=
           fst (fst (deliver now db sim c
                       [TrackingEvent.CREDENTIALS_ENTERED;
                        TrackingEvent.CREDENTIALS_ENTERED])) in
         counter RiskScore.credentials_entered db' emp
         = counter RiskScore.credentials_entered db emp + 1
         /\ counter RiskScore.total_simulations_received db' emp
            = counter RiskScore.total_simulations_received db emp
              + (if logged db (EmailSimulation.id sim) TrackingEvent.relevant
                    || signals.was_bulk_marked_sent db sim
                 then 0 else 1)).
Proof.
  split; [|split].
  - intros now db sim c k data ip ua Hlog. cbv zeta.
    destruct (objects_create_cases now db sim c (EmailSimulation.employee sim) k data ip ua)
      as [E | (Hr & company & Hsc)].
    + apply counter_scores, E.
    + destruct (objects_create_counted now db sim c k data ip ua company Hr Hsc) as [_ H].
      cbv zeta in H. rewrite H, Hlog. lia.
  - intros now db sim c ks. apply deliver_received.
  - intros now db sim c company Hsc Hlog. cbv zeta. cbn [deliver].
    pose proof (objects_create_scores now db sim c (EmailSimulation.employee sim)
                  TrackingEvent.CREDENTIALS_ENTERED [] None "") as (_ & _ & Hu & Hid & Hemp).
    pose proof (logged_after now db sim c (EmailSimulation.employee sim)
                  TrackingEvent.CREDENTIALS_ENTERED [] None "") as Hafter.
    destruct (objects_create_counted now db sim c TrackingEvent.CREDENTIALS_ENTERED
                [] None "" company eq_refl Hsc) as [T1 C1].
    cbv zeta in T1, C1. rewrite Hlog in C1.
    destruct (TrackingEvent_methods.objects_create now db sim c
                (EmailSimulation.employee sim) TrackingEvent.CREDENTIALS_ENTERED
                [] None "") as [[db1 sim1] c1].
    cbn [fst snd] in *.
    assert (Hsc1 : scored_employee db1 (EmailSimulation.employee sim1) company).
    { rewrite Hemp. apply (scored_employee_users db); assumption. }
    destruct (objects_create_counted now db1 sim1 c1 TrackingEvent.CREDENTIALS_ENTERED
                [] None "" company eq_refl Hsc1) as [T2 C2].
    cbv zeta in T2, C2. rewrite Hid, Hemp in T2, C2.
    rewrite !Hafter in *. cbn [TrackingEvent.relevant TrackingEvent.EventType_eqb] in *.
    rewrite !orb_true_r in *. cbn [orb] in *. rewrite Hemp.
    destruct (TrackingEvent_methods.objects_create now db1 sim1 c1
                (EmailSimulation.employee sim) TrackingEvent.CREDENTIALS_ENTERED
                [] None "") as [[db2 sim2] c2].
    cbn [fst snd counter_of] in *. split; lia.
Qed.

(** The third part at work: bob submits the login form twice in the sent
    example campaign. *)
Lemma C2_witness :
  scored_employee Example.sent 2 1
  /\ logged Example.sent 2
       (TrackingEvent.EventType_eqb TrackingEvent.CREDENTIALS_ENTERED) = false
  /\ (let db' :=
        fst (fst (deliver 30 Example.sent (Example.simulation_of Example.sent "l2")
                    (Example.campaign_of Example.sent)
                    [TrackingEvent.CREDENTIALS_ENTERED;
                     TrackingEvent.CREDENTIALS_ENTERED])) in
      counter RiskScore.credentials_entered db' 2
      = counter RiskScore.credentials_entered Example.sent 2 + 1
      /\ counter RiskScore.total_simulations_received db' 2
         = counter RiskScore.total_simulations_received Example.sent 2 + 1).
Proof.
  assert (H1 : scored_employee Example.sent 2 1).
  { exists Example.bob. repeat split. }
  assert (H2 : logged Example.sent 2
                 (TrackingEvent.EventType_eqb TrackingEvent.CREDENTIALS_ENTERED) = false)
    by reflexivity.
  split; [exact H1|]. split; [exact H2|].
  exact (proj2 (proj2 C2_events_counted_once) 30 Example.sent
           (Example.simulation_of Example.sent "l2")
           (Example.campaign_of Example.sent) 1 H1 H2).
Defined.

(** The claim as stated fails: alice follows the link, then submits the
    login form twice; [credentials_entered] goes up by one, but
    [total_simulations_received], which her click had raised, stays. *)
Lemma C2_counterexample :
  let db := fst (views.track_link_click_view 20 Example.sent "l1" None "") in
  let data := [("username", VStr "alice"); ("password", VStr "pw")]%string in
  let db1 := fst (views.credentials_submitted_view 30 db "l1" data None "") in
  let db2 := fst (views.credentials_submitted_view 40 db1 "l1" data None "") in
  counter RiskScore.credentials_entered db2 1
  = counter RiskScore.credentials_entered db 1 + 1
  /\ counter RiskScore.total_simulations_received db2 1
     = counter RiskScore.total_simulations_received db 1
  /\ counter RiskScore.total_simulations_received db2 1
     <> counter RiskScore.total_simulations_received db 1 + 1.
Proof. vm_compute. repeat split; discriminate. Qed.

(** ** The theorems at work on the example stores *)

(** C5 on two clicks of alice: the first one sets the flag and its time
    stays. *)
Lemma C5_witness :
  TrackingEvent.relevant TrackingEvent.LINK_CLICKED = true
  /\ flag_of TrackingEvent.LINK_CLICKED (Example.simulation_of Example.sent "l1") = false
  /\ (let sim' :=
        snd (apply_events Example.two_clicks Example.sent
               (Example.simulation_of Example.sent "l1")) in
      flag_of TrackingEvent.LINK_CLICKED sim' = true
      /\ stamp_of TrackingEvent.LINK_CLICKED sim' = Some 20).
Proof.
  split; [reflexivity|]. split; [reflexivity|].
  exact (proj2 (C5_flags_monotone_timestamps_write_once TrackingEvent.LINK_CLICKED
                  Example.two_clicks Example.sent
                  (Example.simulation_of Example.sent "l1") eq_refl) eq_refl).
Defined.

(** C9 on two submissions of bob that differ in the text of both fields. *)
Lemma C9_witness :
  let data := [("username", VStr "bob"); ("password", VStr "hunter2")]%string in
  let data' := [("username", VStr "robert"); ("password", VStr "x")]%string in
  truthy (dict_get "username" data) = truthy (dict_get "username" data')
  /\ truthy (dict_get "password" data) = truthy (dict_get "password" data')
  /\ views.credentials_submitted_view 30 Example.sent "l2" data None ""
     = views.credentials_submitted_view 30 Example.sent "l2" data' None "".
Proof.
  cbv zeta. split; [reflexivity|]. split; [reflexivity|].
  exact (proj1 (C9_credentials_only_field_presence 30 Example.sent "l2"
                  [("username", VStr "bob"); ("password", VStr "hunter2")]%string
                  [("username", VStr "robert"); ("password", VStr "x")]%string
                  None "" eq_refl eq_refl)).
Defined.

(** C10 on the campaign with one click and one credential entry. *)
Lemma C10_witness :
  let db := Example.click_and_credentials in
  let c := Example.campaign_of db in
  SimulationCampaign_methods._effective_sent_count db c <> 0
  /\ SimulationCampaign_methods.compromise_rate db c
     = PyFloat.mul_int
         (PyFloat.truediv
            (Z.max (SimulationCampaign.total_clicked c)
                   (SimulationCampaign.total_credentials_entered c))
            (SimulationCampaign_methods._effective_sent_count db c))
         100.
Proof.
  cbv zeta.
  assert (H : SimulationCampaign_methods._effective_sent_count Example.click_and_credentials
                (Example.campaign_of Example.click_and_credentials) <> 0)
    by (vm_compute; discriminate).
  split; [exact H|].
  exact (proj1 (C10_compromise_rate_takes_the_maximum Example.click_and_credentials
                  (Example.campaign_of Example.click_and_credentials) H)).
Defined.

(** C1 on the risk score with three clicks on three simulations. *)
Lemma C1_witness :
  counters_in_range Example.all_clicked
  /\ exists quiz_adj sim_adj s r',
      (if RiskScore.total_quiz_questions Example.all_clicked =? 0 then Some 0
       else PyFloat.int (RiskScore.quiz_value Example.all_clicked)) = Some quiz_adj
      /\ (if RiskScore.total_simulations_received Example.all_clicked =? 0 then Some 0
          else PyFloat.floor (RiskScore.simulation_value Example.all_clicked)) = Some sim_adj
      /\ RiskScore.recalculate_score Example.all_clicked = Some (s, r')
      /\ s = SpecScore.clamp (SpecScore.raw quiz_adj sim_adj Example.all_clicked) 0 100
      /\ 0 <= s <= 100
      /\ RiskScore.score r' = s
      /\ SpecScore.band s (RiskScore.risk_level r')
      /\ (RiskScore.requires_remediation r' = true <-> 70 < s)
      /\ r' = RiskScore.set_score Example.all_clicked s (RiskScore.risk_level r')
                (RiskScore.requires_remediation r').
Proof.
  assert (H : counters_in_range Example.all_clicked).
  { vm_compute. repeat split; discriminate. }
  split; [exact H|].
  exact (C1_recalculate_score Example.all_clicked H).
Defined.

(** * Further properties of the code *)

(** ** The risk score and its save *)

(** [recalculate_score] reads the counters only: whatever score, level and
    flag the instance carried, the result is the same, so that a second
    recalculation changes nothing. *)
Theorem recalculate_score_idempotent (r : RiskScore.t) :
  counters_in_range r ->
  exists s r',
    RiskScore.recalculate_score r = Some (s, r')
    /\ RiskScore.recalculate_score r' = Some (s, r')
    /\ forall s0 l0 b0,
        RiskScore.recalculate_score (RiskScore.set_score r s0 l0 b0) = Some (s, r').
Proof.
  intros H. destruct (recalculate_in_range r H) as (s & Hs & _).
  assert (Hany : forall s0 l0 b0,
             RiskScore.recalculate_score (RiskScore.set_score r s0 l0 b0)
             = RiskScore.recalculate_score r) by reflexivity.
  exists s, (RiskScore.set_score r s (RiskScore.level_of_score s) (s >? 70)).
  split; [exact Hs|]. split; [|intros; rewrite Hany; exact Hs].
  rewrite Hany. exact Hs.
Qed.

Lemma recalculate_score_idempotent_witness :
  counters_in_range Example.two_of_three
  /\ exists s r',
      RiskScore.recalculate_score Example.two_of_three = Some (s, r')
      /\ RiskScore.recalculate_score r' = Some (s, r')
      /\ forall s0 l0 b0,
          RiskScore.recalculate_score (RiskScore.set_score Example.two_of_three s0 l0 b0)
          = Some (s, r').
Proof.
  assert (H : counters_in_range Example.two_of_three).
  { vm_compute. repeat split; discriminate. }
  split; [exact H|]. exact (recalculate_score_idempotent Example.two_of_three H).
Defined.

Lemma recalculate_score_value (r : RiskScore.t) :
  counters_in_range r ->
  exists qa sa,
    (if RiskScore.total_quiz_questions r >? 0
     then PyFloat.int (RiskScore.quiz_value r) else Some 0) = Some qa
    /\ (if RiskScore.total_simulations_received r >? 0
        then PyFloat.int (RiskScore.simulation_value r) else Some 0) = Some sa
    /\ option_map fst (RiskScore.recalculate_score r)
       = Some (Z.max 0 (Z.min 100
                 (50 + qa + Z.min (RiskScore.phishing_emails_missed r * 5) 25 + sa
                  + Z.min (RiskScore.credentials_entered r * 15) 20
                  - Z.min (RiskScore.simulations_reported r * 5) 15
                  - Z.min (RiskScore.trainings_passed r * 10) 25))).
Proof.
  intros H. destruct (recalculate_in_range r H) as (s & Hs & _).
  unfold RiskScore.recalculate_score in *.
  destruct (if RiskScore.total_quiz_questions r >? 0 then _ else _) as [qa|];
    [|discriminate].
  destruct (if RiskScore.total_simulations_received r >? 0 then _ else _) as [sa|];
    [|discriminate].
  exists qa, sa. split; [reflexivity|]. split; reflexivity.
Qed.

(** On counters that are not negative, more reported simulations never
    raise the recomputed score and lower it by 15 at most; more credential
    entries never lower it and raise it by 20 at most; more missed phishing
    emails in quizzes never lower it and raise it by 25 at most. *)
Theorem recalculate_score_monotone (r : RiskScore.t) (n now : Z) (d : option Z) :
  counters_in_range r ->
  0 <= RiskScore.simulations_reported r ->
  0 <= RiskScore.credentials_entered r ->
  0 <= RiskScore.phishing_emails_missed r ->
  0 <= n ->
  exists s s_reported s_credentials s_missed,
    option_map fst (RiskScore.recalculate_score r) = Some s
    /\ option_map fst (RiskScore.recalculate_score (RiskScore.add_simulation r 0 0 0 n 0 d))
       = Some s_reported
    /\ s - 15 <= s_reported <= s
    /\ option_map fst (RiskScore.recalculate_score (RiskScore.add_simulation r 0 0 0 0 n d))
       = Some s_credentials
    /\ s <= s_credentials <= s + 20
    /\ option_map fst (RiskScore.recalculate_score (RiskScore.add_quiz r 0 0 0 n now))
       = Some s_missed
    /\ s <= s_missed <= s + 25.
Proof.
  intros H Hrep Hcred Hmiss Hn.
  assert (H1 : counters_in_range (RiskScore.add_simulation r 0 0 0 n 0 d)).
  { unfold counters_in_range in *. cbn [RiskScore.add_simulation RiskScore.correct_quiz_answers
      RiskScore.total_quiz_questions RiskScore.simulations_clicked
      RiskScore.total_simulations_received]. rewrite !Z.add_0_r. exact H. }
  assert (H2 : counters_in_range (RiskScore.add_simulation r 0 0 0 0 n d)).
  { unfold counters_in_range in *. cbn [RiskScore.add_simulation RiskScore.correct_quiz_answers
      RiskScore.total_quiz_questions RiskScore.simulations_clicked
      RiskScore.total_simulations_received]. rewrite !Z.add_0_r. exact H. }
  assert (H3 : counters_in_range (RiskScore.add_quiz r 0 0 0 n now)).
  { unfold counters_in_range in *. cbn [RiskScore.add_quiz RiskScore.correct_quiz_answers
      RiskScore.total_quiz_questions RiskScore.simulations_clicked
      RiskScore.total_simulations_received]. rewrite !Z.add_0_r. exact H. }
  destruct (recalculate_score_value r H) as (qa & sa & Q0 & S0 & R0).
  destruct (recalculate_score_value _ H1) as (qa1 & sa1 & Q1 & S1 & R1).
  destruct (recalculate_score_value _ H2) as (qa2 & sa2 & Q2 & S2 & R2).
  destruct (recalculate_score_value _ H3) as (qa3 & sa3 & Q3 & S3 & R3).
  unfold RiskScore.quiz_value, RiskScore.simulation_value in Q0, S0, Q1, S1, Q2, S2, Q3, S3.
  cbn [RiskScore.add_simulation RiskScore.add_quiz RiskScore.correct_quiz_answers
       RiskScore.total_quiz_questions RiskScore.simulations_clicked
       RiskScore.total_simulations_received] in Q1, S1, Q2, S2, Q3, S3.
  rewrite ?Z.add_0_r in Q1. rewrite ?Z.add_0_r in S1. rewrite ?Z.add_0_r in Q2.
  rewrite ?Z.add_0_r in S2. rewrite ?Z.add_0_r in Q3. rewrite ?Z.add_0_r in S3.
  assert (qa1 = qa) by congruence. assert (sa1 = sa) by congruence.
  assert (qa2 = qa) by congruence. assert (sa2 = sa) by congruence.
  assert (qa3 = qa) by congruence. assert (sa3 = sa) by congruence.
  subst qa1 sa1 qa2 sa2 qa3 sa3.
  cbn [RiskScore.add_simulation RiskScore.add_quiz RiskScore.phishing_emails_missed
       RiskScore.credentials_entered RiskScore.simulations_reported
       RiskScore.trainings_passed] in R1, R2, R3.
  rewrite ?Z.add_0_r in R1. rewrite ?Z.add_0_r in R2. rewrite ?Z.add_0_r in R3.
  clear Q0 S0 Q1 S1 Q2 S2 Q3 S3 H H1 H2 H3.
  set (P := Z.min (RiskScore.phishing_emails_missed r * 5) 25) in *.
  set (C := Z.min (RiskScore.credentials_entered r * 15) 20) in *.
  set (R := Z.min (RiskScore.simulations_reported r * 5) 15) in *.
  set (T := Z.min (RiskScore.trainings_passed r * 10) 25) in *.
  set (P' := Z.min ((RiskScore.phishing_emails_missed r + n) * 5) 25) in *.
  set (C' := Z.min ((RiskScore.credentials_entered r + n) * 15) 20) in *.
  set (R' := Z.min ((RiskScore.simulations_reported r + n) * 5) 15) in *.
  assert (HP : P <= P' <= P + 25) by (clear R0 R1 R2 R3; unfold P, P'; lia).
  assert (HC : C <= C' <= C + 20) by (clear R0 R1 R2 R3; unfold C, C'; lia).
  assert (HR : R <= R' <= R + 15) by (clear R0 R1 R2 R3; unfold R, R'; lia).
  clearbody P C R T P' C' R'.
  exists (Z.max 0 (Z.min 100 (50 + qa + P + sa + C - R - T))),
         (Z.max 0 (Z.min 100 (50 + qa + P + sa + C - R' - T))),
         (Z.max 0 (Z.min 100 (50 + qa + P + sa + C' - R - T))),
         (Z.max 0 (Z.min 100 (50 + qa + P' + sa + C - R - T))).
  split; [exact R0|]. split; [exact R1|]. split; [clear R0 R1 R2 R3; lia|].
  split; [exact R2|]. split; [clear R0 R1 R2 R3; lia|].
  split; [exact R3 | clear R0 R1 R2 R3; lia].
Qed.

Lemma recalculate_score_monotone_witness :
  counters_in_range Example.all_clicked
  /\ 0 <= RiskScore.simulations_reported Example.all_clicked
  /\ 0 <= RiskScore.credentials_entered Example.all_clicked
  /\ 0 <= RiskScore.phishing_emails_missed Example.all_clicked
  /\ 0 <= 2
  /\ exists s s_reported s_credentials s_missed,
      option_map fst (RiskScore.recalculate_score Example.all_clicked) = Some s
      /\ option_map fst (RiskScore.recalculate_score
                           (RiskScore.add_simulation Example.all_clicked 0 0 0 2 0 None))
         = Some s_reported
      /\ s - 15 <= s_reported <= s
      /\ option_map fst (RiskScore.recalculate_score
                           (RiskScore.add_simulation Example.all_clicked 0 0 0 0 2 None))
         = Some s_credentials
      /\ s <= s_credentials <= s + 20
      /\ option_map fst (RiskScore.recalculate_score
                           (RiskScore.add_quiz Example.all_clicked 0 0 0 2 5))
         = Some s_missed
      /\ s <= s_missed <= s + 25.
Proof.
  assert (H : counters_in_range Example.all_clicked).
  { vm_compute. repeat split; discriminate. }
  assert (H0 : 0 <= 2) by lia.
  assert (Hz : 0 <= 0) by lia.
  split; [exact H|]. split; [exact Hz|]. split; [exact Hz|]. split; [exact Hz|].
  split; [exact H0|].
  exact (recalculate_score_monotone Example.all_clicked 2 5 None H Hz Hz Hz H0).
Defined.

(** [RiskScore.save] stores a level and a remediation flag that match the
    score of the instance, whatever the instance carried: reading the row
    back gives the score that was saved, its band, and the flag set exactly
    above 70.  The receivers of the save change the assignment counter at
    most. *)
Theorem save_risk_score_stores_consistent_level (now : Z) (db : DB)
    (instance : RiskScore.t) :
  let db' := fst (signals.save_risk_score now db instance) in
  exists row,
    Table.get RiskScore.id (RiskScore.id instance) (risk_scores db') = Some row
    /\ RiskScore.score row = RiskScore.score instance
    /\ RiskScore.risk_level row = RiskScore.level_of_score (RiskScore.score instance)
    /\ RiskScore.requires_remediation row = (RiskScore.score instance >? 70)
    /\ modulo_trainings row = modulo_trainings (RiskScore.pre_save instance).
Proof.
  cbv zeta. unfold signals.save_risk_score. cbn [fst].
  set (row := RiskScore.pre_save instance).
  set (db1 := set_risk_scores db (Table.save RiskScore.id row (risk_scores db))).
  pose proof (scores_kept_get _ _ (RiskScore.id instance) (check_remediation_kept now db1 row))
    as Hget.
  assert (H1 : Table.get RiskScore.id (RiskScore.id instance) (risk_scores db1) = Some row).
  { unfold db1. cbn [risk_scores set_risk_scores].
    change (RiskScore.id instance) with (RiskScore.id row). apply get_save. }
  rewrite H1 in Hget.
  destruct (Table.get RiskScore.id (RiskScore.id instance)
              (risk_scores (signals.check_remediation_on_score_change now db1 row)))
    as [y|]; [|discriminate].
  cbn [option_map] in Hget.
  assert (Hy : modulo_trainings y = modulo_trainings row) by congruence.
  exists y. split; [reflexivity|].
  split; [exact (f_equal RiskScore.score Hy)|].
  split; [exact (f_equal RiskScore.risk_level Hy)|].
  split; [exact (f_equal RiskScore.requires_remediation Hy) | exact Hy].
Qed.

(** ** The signal handlers of the training app *)

(** [get_or_create_risk_score]: nothing without an employee or a company;
    otherwise the row of the employee is returned, inserted with score 50,
    level MEDIUM and zero counters when it was missing, and a second call
    returns the same row and leaves the store as it is. *)
Theorem get_or_create_risk_score_spec (db : DB) (u : User.t) :
  signals.get_or_create_risk_score db None = (db, None)
  /\ (User.company u = None -> signals.get_or_create_risk_score db (Some u) = (db, None))
  /\ (forall company, User.company u = Some company ->
      let db0 := fst (signals.get_or_create_risk_score db (Some u)) in
      exists r,
        snd (signals.get_or_create_risk_score db (Some u)) = Some r
        /\ RiskScore.employee r = User.id u
        /\ risk_score_of db0 (User.id u) = Some r
        /\ signals.get_or_create_risk_score db0 (Some u) = (db0, Some r)
        /\ match risk_score_of db (User.id u) with
           | Some r0 => r = r0 /\ db0 = db
           | None =>
             r = RiskScore.default (Table.next_id RiskScore.id (risk_scores db))
                   (User.id u) company
             /\ risk_scores db0 = risk_scores db ++ [r]
           end).
Proof.
  split; [reflexivity|]. split.
  - intros H. unfold signals.get_or_create_risk_score. rewrite H. reflexivity.
  - intros company Hc. cbv zeta.
    destruct (get_or_create_spec db u company Hc) as (G1 & G2 & _ & _).
    exists (starting_score db (User.id u) company).
    split; [exact G1|]. split; [apply starting_score_employee|]. split; [exact G2|].
    split.
    + unfold signals.get_or_create_risk_score at 1. rewrite Hc.
      unfold risk_score_of in G2. rewrite G2. reflexivity.
    + unfold starting_score, signals.get_or_create_risk_score, risk_score_of. rewrite Hc.
      destruct (find _ (risk_scores db)); [split; reflexivity|].
      split; reflexivity.
Qed.

Section Appends.
Variable post_save : DB -> RiskScore.t -> DB.
Variable now : Z.

Hypothesis post_save_appends :
  forall db r, exists added,
      remediation_trainings (post_save db r) = remediation_trainings db ++ added
      /\ Forall (auto_assigned now r) added.

Lemma assign_modules_appends (modules : list TrainingModule.t) :
  forall db r, exists added,
      remediation_trainings (signals.assign_modules post_save now db r modules)
      = remediation_trainings db ++ added
      /\ Forall (auto_assigned now r) added.
Proof.
  induction modules as [|m ms IH]; intros db r; cbn [signals.assign_modules].
  - exists []. split; [rewrite app_nil_r; reflexivity | constructor].
  - destruct (signals.open_assignment_exists db (RiskScore.employee r) (TrainingModule.id m));
      [apply IH|].
    match goal with
    | |- context [signals.assign_modules _ _ (post_save ?d ?x) ?y _] =>
      destruct (IH (post_save d x) y) as (l2 & E2 & F2);
      destruct (post_save_appends d x) as (l1 & E1 & F1)
    end.
    rewrite E2, E1.
    cbn [remediation_trainings signals.bump_trainings_assigned set_risk_scores
         signals.bump_times_assigned set_training_modules signals.create_assignment
         set_remediation_trainings].
    eexists. rewrite <- !app_assoc. split; [reflexivity|].
    constructor; [repeat split|]. apply Forall_app. split; assumption.
Qed.
End Appends.

Lemma check_remediation_appends (now : Z) (db : DB) (r : RiskScore.t) :
  exists added,
    remediation_trainings (signals.check_remediation_on_score_change now db r)
    = remediation_trainings db ++ added
    /\ Forall (auto_assigned now r) added.
Proof.
  unfold signals.check_remediation_on_score_change, signals.auto_assign_remediation_with.
  destruct (_ && _);
    [|exists []; split; [rewrite app_nil_r; reflexivity | constructor]].
  destruct (_ <=? _);
    [exists []; split; [rewrite app_nil_r; reflexivity | constructor]|].
  apply assign_modules_appends. intros d x. exists [].
  split; [rewrite app_nil_r; reflexivity | constructor].
Qed.

(** [auto_assign_remediation] does nothing up to a score of 70.  Above 70
    it leaves the employee with an open assignment for every active
    mandatory module that is global or of the company of the risk score;
    it only appends to the assignments, and what it appends are ASSIGNED
    rows of that employee, due in seven days, with the reason
    AUTO_HIGH_RISK and the risk score as source. *)
Theorem auto_assign_remediation_covers (now : Z) (db : DB) (r : RiskScore.t) :
  let db' := signals.auto_assign_remediation now db r in
  (RiskScore.score r <= 70 -> db' = db)
  /\ (70 < RiskScore.score r ->
      forall m, In m (signals.mandatory_modules db r) ->
                signals.open_assignment_exists db' (RiskScore.employee r)
                  (TrainingModule.id m) = true)
  /\ exists added,
      remediation_trainings db' = remediation_trainings db ++ added
      /\ Forall (auto_assigned now r) added.
Proof.
  cbv zeta. unfold signals.auto_assign_remediation, signals.auto_assign_remediation_with.
  destruct (Z.leb_spec (RiskScore.score r) 70) as [Hle|Hgt].
  - split; [reflexivity|]. split; [lia|].
    exists []. split; [rewrite app_nil_r; reflexivity | constructor].
  - split; [lia|]. split.
    + intros _ m Hm. apply assign_modules_covers; [intros; apply check_remediation_ok | exact Hm].
    + apply assign_modules_appends. intros d x. apply check_remediation_appends.
Qed.

(** The receiver of tracking events never writes to the users, the
    campaigns, the simulations or the event log, and it leaves the whole
    store as it is for an event type that is not one of the four relevant
    ones, for a missing user, for a user who is not an employee and for an
    employee without a company. *)
Theorem update_risk_score_from_simulation_frame (now : Z) (db : DB)
    (e : TrackingEvent.t) (sim : EmailSimulation.t) (c : SimulationCampaign.t) :
  let db' := signals.update_risk_score_from_simulation now db e sim c in
  tracking_unchanged db db'
  /\ (TrackingEvent.relevant (TrackingEvent.event_type e) = false -> db' = db)
  /\ (Table.get User.id (TrackingEvent.employee e) (users db) = None -> db' = db)
  /\ (forall u, Table.get User.id (TrackingEvent.employee e) (users db) = Some u ->
                User.role u <> User.EMPLOYEE \/ User.company u = None -> db' = db).
Proof.
  cbv zeta. split; [apply update_risk_score_from_simulation_tracking|].
  unfold signals.update_risk_score_from_simulation.
  split; [intros ->; reflexivity|].
  destruct (TrackingEvent.relevant _); cbn [negb].
  - split; [intros ->; reflexivity|].
    intros u -> [Hrole | Hc].
    + destruct (User.role u); cbn [negb User.is_employee]; try reflexivity.
      contradiction Hrole. reflexivity.
    + destruct (negb _); [reflexivity|].
      unfold signals.get_or_create_risk_score. rewrite Hc. reflexivity.
  - split; reflexivity.
Qed.

Lemma counter_of_row (f : RiskScore.t -> Z) (db : DB) (employee : Z) (r : RiskScore.t) :
  risk_score_of db employee = Some r -> counter f db employee = f r.
Proof. unfold counter. intros ->. reflexivity. Qed.

(** The receiver of quiz results adds the numbers of the quiz to the
    counters of an employee with a company: one quiz, its questions, its
    right answers and its missed phishing emails, and leaves the simulation
    counters; when the counters stay in the column range the stored score is
    within 0..100 with the level of its band and the flag set above 70. *)
Theorem update_risk_score_from_quiz_counters (now : Z) (db : DB) (q : QuizResult.t)
    (company : Z) :
  scored_employee db (QuizResult.employee q) company ->
  let emp := QuizResult.employee q in
  let db' := signals.update_risk_score_from_quiz now db q in
  counter RiskScore.total_quizzes_taken db' emp
  = counter RiskScore.total_quizzes_taken db emp + 1
  /\ counter RiskScore.total_quiz_questions db' emp
     = counter RiskScore.total_quiz_questions db emp + QuizResult.total_questions q
  /\ counter RiskScore.correct_quiz_answers db' emp
     = counter RiskScore.correct_quiz_answers db emp + QuizResult.correct_answers q
  /\ counter RiskScore.phishing_emails_missed db' emp
     = counter RiskScore.phishing_emails_missed db emp + QuizResult.phishing_emails_missed q
  /\ counter RiskScore.total_simulations_received db' emp
     = counter RiskScore.total_simulations_received db emp
  /\ counter RiskScore.simulations_clicked db' emp
     = counter RiskScore.simulations_clicked db emp
  /\ (counters_in_range (quiz_counters now db q company) ->
      exists r',
        risk_score_of db' emp = Some r'
        /\ 0 <= RiskScore.score r' <= 100
        /\ RiskScore.risk_level r' = RiskScore.level_of_score (RiskScore.score r')
        /\ RiskScore.requires_remediation r' = (RiskScore.score r' >? 70)).
Proof.
  intros Hsc. cbv zeta.
  destruct (update_from_quiz_spec now db q company Hsc) as [(r' & Hr' & Hc) Hrange].
  cbv zeta in Hrange.
  assert (Hstart : forall f : RiskScore.t -> Z,
             f (RiskScore.pre_save
                  (RiskScore.default (Table.next_id RiskScore.id (risk_scores db))
                     (QuizResult.employee q) company)) = 0 ->
             counter f db (QuizResult.employee q)
             = f (starting_score db (QuizResult.employee q) company)).
  { intros f Hf. unfold counter, starting_score.
    destruct (risk_score_of db (QuizResult.employee q)); [reflexivity | symmetry; exact Hf]. }
  rewrite !(counter_of_row _ _ _ _ Hr').
  rewrite !Hstart by reflexivity.
  repeat split;
    try (match goal with
         | |- ?f r' = _ => change (f r') with (f (counters_only r')); rewrite Hc; reflexivity
         end).
  intros Hin. destruct (Hrange Hin) as (h & r2 & _ & H2 & _ & H4 & H5 & H6).
  exists r2. auto.
Qed.

Lemma update_risk_score_from_quiz_counters_witness :
  scored_employee Example.scheduled (QuizResult.employee Example.result8) 1
  /\ (let db' := signals.update_risk_score_from_quiz 5 Example.scheduled Example.result8 in
      counter RiskScore.total_quizzes_taken db' 1 = 1
      /\ counter RiskScore.total_quiz_questions db' 1 = 10
      /\ counter RiskScore.correct_quiz_answers db' 1 = 8
      /\ counter RiskScore.phishing_emails_missed db' 1 = 2).
Proof.
  assert (H : scored_employee Example.scheduled (QuizResult.employee Example.result8) 1).
  { exists Example.alice. repeat split. }
  split; [exact H|].
  destruct (update_risk_score_from_quiz_counters 5 Example.scheduled Example.result8 1 H)
    as (H1 & H2 & H3 & H4 & _).
  repeat split; assumption.
Defined.

(** ** The statistics that a tracking event updates *)

(** [_update_campaign_stats] stores the campaign with counters recounted
    from the simulation rows: total_sent is the number of simulations that
    are neither PENDING nor FAILED, and the counter of the type of the event
    is the number of simulations with that flag.  A DRAFT or SCHEDULED
    campaign with a sent simulation becomes IN_PROGRESS, and its sent_at is
    set to the time of the event only when it was empty; otherwise status
    and sent_at stay.  No other table is written. *)
Theorem update_campaign_stats_rollup (self : TrackingEvent.t) (db : DB)
    (campaign : SimulationCampaign.t) :
  let db' := fst (TrackingEvent_methods._update_campaign_stats self db campaign) in
  let c' := snd (TrackingEvent_methods._update_campaign_stats self db campaign) in
  let cid := SimulationCampaign.id campaign in
  Table.get SimulationCampaign.id cid (campaigns db') = Some c'
  /\ SimulationCampaign.total_sent c' = sent_count db' cid
  /\ match TrackingEvent.event_type self with
     | TrackingEvent.EMAIL_OPENED =>
       SimulationCampaign.total_opened c'
       = count_simulations db' cid EmailSimulation.was_opened
     | TrackingEvent.LINK_CLICKED =>
       SimulationCampaign.total_clicked c'
       = count_simulations db' cid EmailSimulation.was_clicked
     | TrackingEvent.CREDENTIALS_ENTERED =>
       SimulationCampaign.total_credentials_entered c'
       = count_simulations db' cid EmailSimulation.credentials_entered
     | TrackingEvent.EMAIL_REPORTED =>
       SimulationCampaign.total_reported c'
       = count_simulations db' cid EmailSimulation.was_reported
     | _ => True
     end
  /\ (if SimulationCampaign.draft_or_scheduled (SimulationCampaign.status campaign)
         && (0 <? sent_count db cid)
      then SimulationCampaign.status c' = SimulationCampaign.IN_PROGRESS
           /\ SimulationCampaign.sent_at c'
              = Some match SimulationCampaign.sent_at campaign with
                     | Some d => d
                     | None => TrackingEvent.created_at self
                     end
      else SimulationCampaign.status c' = SimulationCampaign.status campaign
           /\ SimulationCampaign.sent_at c' = SimulationCampaign.sent_at campaign)
  /\ users db' = users db
  /\ email_simulations db' = email_simulations db
  /\ tracking_events db' = tracking_events db
  /\ risk_scores db' = risk_scores db
  /\ risk_score_history db' = risk_score_history db
  /\ remediation_trainings db' = remediation_trainings db.
Proof.
  cbv zeta.
  destruct (update_campaign_stats_recounts self db campaign) as [H1 H2].
  cbv zeta in H1, H2.
  split; [exact H1|]. split; [exact H2|].
  clear H1 H2.
  unfold TrackingEvent_methods._update_campaign_stats, sent_count, count_simulations.
  destruct campaign as [cid company vector status send_date all targets opens clicks
                        creds sent opened clicked reported credentials sent_at].
  destruct (TrackingEvent.event_type self); simpl; rewrite ?Z.gtb_ltb;
    destruct (_ && _); simpl; try destruct sent_at; simpl;
    repeat split; reflexivity.
Qed.

Lemma update_simulation_stats_keys (self : TrackingEvent.t) (db : DB)
    (sim : EmailSimulation.t) :
  let sim' := snd (TrackingEvent_methods._update_simulation_stats self db sim) in
  EmailSimulation.id sim' = EmailSimulation.id sim
  /\ EmailSimulation.campaign sim' = EmailSimulation.campaign sim
  /\ EmailSimulation.employee sim' = EmailSimulation.employee sim.
Proof.
  unfold TrackingEvent_methods._update_simulation_stats.
  destruct (EmailSimulation.is_pending (EmailSimulation.status sim)
            && TrackingEvent.relevant (TrackingEvent.event_type self));
    destruct (TrackingEvent.event_type self); simpl;
    repeat match goal with
           | |- context [negb ?b] => destruct b; simpl
           end; repeat split.
Qed.

Lemma update_campaign_stats_simulations (self : TrackingEvent.t) (db : DB)
    (campaign : SimulationCampaign.t) :
  email_simulations (fst (TrackingEvent_methods._update_campaign_stats self db campaign))
  = email_simulations db.
Proof. reflexivity. Qed.

(** [_update_simulation_stats]: a PENDING simulation becomes SENT on a
    relevant event, with the time of the event as sent_at unless one was
    set; any other simulation keeps status and sent_at.  The key, the
    campaign, the employee and the tokens never change; an event of another
    type (EMAIL_SENT, EMAIL_DELIVERED, EMAIL_BOUNCED, LANDING_PAGE_VIEWED)
    changes nothing; and the rows of the other simulations stay as they
    are. *)
Theorem update_simulation_stats_transitions (self : TrackingEvent.t) (db : DB)
    (sim : EmailSimulation.t) :
  let db' := fst (TrackingEvent_methods._update_simulation_stats self db sim) in
  let sim' := snd (TrackingEvent_methods._update_simulation_stats self db sim) in
  (if EmailSimulation.is_pending (EmailSimulation.status sim)
      && TrackingEvent.relevant (TrackingEvent.event_type self)
   then EmailSimulation.status sim' = EmailSimulation.SENT
        /\ EmailSimulation.sent_at sim'
           = Some match EmailSimulation.sent_at sim with
                  | Some d => d
                  | None => TrackingEvent.created_at self
                  end
   else EmailSimulation.status sim' = EmailSimulation.status sim
        /\ EmailSimulation.sent_at sim' = EmailSimulation.sent_at sim)
  /\ EmailSimulation.id sim' = EmailSimulation.id sim
  /\ EmailSimulation.campaign sim' = EmailSimulation.campaign sim
  /\ EmailSimulation.employee sim' = EmailSimulation.employee sim
  /\ EmailSimulation.tracking_token sim' = EmailSimulation.tracking_token sim
  /\ EmailSimulation.link_token sim' = EmailSimulation.link_token sim
  /\ (TrackingEvent.relevant (TrackingEvent.event_type self) = false ->
      db' = db /\ sim' = sim)
  /\ (db' = db
      \/ db' = set_email_simulations db
                 (Table.save EmailSimulation.id sim' (email_simulations db)))
  /\ filter (fun s => negb (EmailSimulation.id s =? EmailSimulation.id sim))
       (email_simulations db')
     = filter (fun s => negb (EmailSimulation.id s =? EmailSimulation.id sim))
         (email_simulations db).
Proof.
  cbv zeta.
  assert (Hsave : forall row : EmailSimulation.t,
             EmailSimulation.id row = EmailSimulation.id sim ->
             filter (fun s => negb (EmailSimulation.id s =? EmailSimulation.id sim))
               (Table.save EmailSimulation.id row (email_simulations db))
             = filter (fun s => negb (EmailSimulation.id s =? EmailSimulation.id sim))
                 (email_simulations db)).
  { intros row Hrow. unfold Table.save, Table.update. rewrite Hrow.
    destruct (existsb _ _).
    - induction (email_simulations db) as [|x xs IH]; [reflexivity|].
      cbn [map filter]. destruct (EmailSimulation.id x =? EmailSimulation.id sim) eqn:E.
      + rewrite Hrow, Z.eqb_refl. cbn [negb]. exact IH.
      + rewrite E. cbn [negb]. rewrite IH. reflexivity.
    - rewrite filter_app. cbn [filter]. rewrite Hrow, Z.eqb_refl. cbn [negb].
      apply app_nil_r. }
  unfold TrackingEvent_methods._update_simulation_stats.
  destruct (EmailSimulation.is_pending (EmailSimulation.status sim));
    destruct (TrackingEvent.event_type self);
    cbn [andb TrackingEvent.relevant negb];
    repeat match goal with
           | |- context [negb ?b] => destruct b; cbn [negb]
           end;
    cbn [fst snd EmailSimulation.set_sent EmailSimulation.set_opened
         EmailSimulation.set_clicked EmailSimulation.set_credentials
         EmailSimulation.set_reported EmailSimulation.status EmailSimulation.sent_at
         EmailSimulation.id EmailSimulation.campaign EmailSimulation.employee
         EmailSimulation.tracking_token EmailSimulation.link_token
         email_simulations set_email_simulations];
    repeat match goal with
           | |- _ /\ _ => split
           | |- _ -> _ => intros ?
           end;
    try reflexivity; try discriminate;
    try (left; reflexivity); try (right; reflexivity);
    try (apply Hsave; reflexivity);
    destruct (EmailSimulation.sent_at sim); reflexivity.
Qed.

Lemma get_appended {A : Type} (pk : A -> Z) (row : A) (rows : list A) :
  (forall x, In x rows -> pk x <> pk row) ->
  Table.get pk (pk row) (rows ++ [row]) = Some row.
Proof.
  unfold Table.get. induction rows as [|x xs IH]; intros H; cbn [app find].
  - rewrite Z.eqb_refl. reflexivity.
  - destruct (pk x =? pk row) eqn:E.
    + apply Z.eqb_eq in E. contradiction (H x (or_introl eq_refl)).
    + apply IH. intros y Hy. apply H. right. exact Hy.
Qed.

(** [TrackingEvent.objects.create] appends exactly one event to the log,
    under a key above every key in it, carrying the arguments of the call;
    keys that were distinct stay distinct, and the event can be read back
    under its key. *)
Theorem objects_create_appends_fresh_event (now : Z) (db : DB) (s : EmailSimulation.t)
    (c : SimulationCampaign.t) (employee : Z) (k : TrackingEvent.EventType)
    (data : list (string * Value)) (ip : option string) (ua : string) :
  let db' :=
    fst (fst (TrackingEvent_methods.objects_create now db s c employee k data ip ua)) in
  exists e,
    tracking_events db' = tracking_events db ++ [e]
    /\ TrackingEvent.email_simulation e = EmailSimulation.id s
    /\ TrackingEvent.campaign e = SimulationCampaign.id c
    /\ TrackingEvent.employee e = employee
    /\ TrackingEvent.event_type e = k
    /\ TrackingEvent.event_data e = data
    /\ TrackingEvent.created_at e = now
    /\ (forall x, In x (tracking_events db) -> TrackingEvent.id x < TrackingEvent.id e)
    /\ (NoDup (map TrackingEvent.id (tracking_events db)) ->
        NoDup (map TrackingEvent.id (tracking_events db')))
    /\ Table.get TrackingEvent.id (TrackingEvent.id e) (tracking_events db') = Some e.
Proof.
  cbv zeta. rewrite objects_create_events.
  eexists. split; [reflexivity|].
  cbn [TrackingEvent.email_simulation TrackingEvent.campaign TrackingEvent.employee
       TrackingEvent.event_type TrackingEvent.event_data TrackingEvent.created_at
       TrackingEvent.id].
  do 6 (split; [reflexivity|]).
  assert (Hfresh : forall x, In x (tracking_events db) ->
             TrackingEvent.id x < Table.next_id TrackingEvent.id (tracking_events db))
    by (intros x Hx; apply next_id_fresh, Hx).
  split; [exact Hfresh|]. split.
  - intros Hnd. rewrite map_app. cbn [map].
    apply NoDup_app; [exact Hnd | repeat constructor; intros [] |].
    intros a Ha [Hb|[]]. apply in_map_iff in Ha. destruct Ha as (x & Hx & Hin).
    specialize (Hfresh x Hin). cbn [TrackingEvent.id] in Hb. lia.
  - match goal with
    | |- Table.get _ _ (_ ++ [?e]) = _ => apply (get_appended TrackingEvent.id e)
    end.
    intros x Hx. specialize (Hfresh x Hx). cbn [TrackingEvent.id]. lia.
Qed.

(** ** The report view *)

(** The simulation and the campaign that [objects_create] leaves are the
    ones a lookup by the same token finds afterwards. *)
Lemma objects_create_get_simulation (p : EmailSimulation.t -> bool) (now : Z) (db : DB)
    (s : EmailSimulation.t) (c : SimulationCampaign.t) (employee : Z)
    (k : TrackingEvent.EventType) (data : list (string * Value))
    (ip : option string) (ua : string) :
  (forall x y, EmailSimulation.tracking_token x = EmailSimulation.tracking_token y ->
               EmailSimulation.link_token x = EmailSimulation.link_token y ->
               p x = p y) ->
  views.get_simulation db p = Some (s, c) ->
  let out := TrackingEvent_methods.objects_create now db s c employee k data ip ua in
  views.get_simulation (fst (fst out)) p = Some (snd (fst out), snd out).
Proof.
  intros Hp Hget. cbv zeta.
  assert (Hfind : find p (email_simulations db) = Some s
                  /\ SimulationCampaign.id c = EmailSimulation.campaign s).
  { unfold views.get_simulation in Hget.
    destruct (find p (email_simulations db)) as [s0|]; [|discriminate].
    destruct (Table.get _ _ _) as [c0|] eqn:G; [|discriminate].
    injection Hget as -> ->. split; [reflexivity|]. apply (get_id _ _ _ _ G). }
  destruct Hfind as [Hfind Hcid].
  unfold TrackingEvent_methods.objects_create.
  match goal with
  | |- context [signals.update_risk_score_from_simulation now ?d ?e s c] =>
    pose proof (update_risk_score_from_simulation_tracking now d e s c) as (_ & _ & Hs & _);
    set (db1 := signals.update_risk_score_from_simulation now d e s c) in *;
    set (self := e) in *
  end.
  cbn [email_simulations set_tracking_events] in Hs. rewrite <- Hs in Hfind.
  pose proof (update_simulation_stats_row p self db1 s Hp Hfind) as Hrow.
  pose proof (update_simulation_stats_keys self db1 s) as (_ & Hcamp & _).
  cbv zeta in Hcamp.
  destruct (TrackingEvent_methods._update_simulation_stats self db1 s) as [db2 s2].
  cbn [fst snd] in *.
  pose proof (update_campaign_stats_recounts self db2 c) as (Hget2 & _).
  pose proof (update_campaign_stats_simulations self db2 c) as Hsims.
  cbv zeta in Hget2.
  destruct (TrackingEvent_methods._update_campaign_stats self db2 c) as [db3 c3].
  cbn [fst snd] in *.
  unfold views.get_simulation. rewrite Hsims, Hrow, Hcamp, <- Hcid, Hget2. reflexivity.
Qed.

(** [report_phishing_view]: an unknown token gives 404 and changes
    nothing; a known one gives 200, and a second report of the same email,
    whatever it carries, gives 200 again and leaves the store exactly as the
    first report left it. *)
Theorem report_phishing_view_idempotent (now now' : Z) (db : DB) (token : string)
    (data data' : list (string * Value)) (ip ip' : option string) (ua ua' : string) :
  let first := views.report_phishing_view now db token data ip ua in
  let second := views.report_phishing_view now' (fst first) token data' ip' ua' in
  (views.get_simulation db (views.by_link_token token) = None ->
   first = (db, JsonResponse 404))
  /\ (views.get_simulation db (views.by_link_token token) <> None ->
      snd first = JsonResponse 200 /\ second = (fst first, JsonResponse 200)).
Proof.
  cbv zeta. split.
  - intros H. unfold views.report_phishing_view. rewrite H. reflexivity.
  - intros H.
    destruct (views.get_simulation db (views.by_link_token token)) as [[s c]|] eqn:G;
      [clear H | contradiction H; reflexivity].
    assert (E1 : views.report_phishing_view now db token data ip ua
                 = if EmailSimulation.was_reported s then (db, JsonResponse 200)
                   else
                     let '(db, _, _) :=
                       TrackingEvent_methods.objects_create now db s c
                         (EmailSimulation.employee s) TrackingEvent.EMAIL_REPORTED
                         (if truthy match dict_get "reason" data with
                                    | VNone => VStr ""
                                    | v => v
                                    end
                          then [("reason"%string,
                                 match dict_get "reason" data with
                                 | VNone => VStr ""
                                 | v => v
                                 end)]
                          else [])
                         ip ua in
                     (db, JsonResponse 200)).
    { unfold views.report_phishing_view. rewrite G. reflexivity. }
    rewrite E1. clear E1.
    destruct (EmailSimulation.was_reported s) eqn:R.
    + cbn [fst snd]. split; [reflexivity|].
      unfold views.report_phishing_view. rewrite G, R. reflexivity.
    + match goal with
      | |- context [TrackingEvent_methods.objects_create now db s c ?e ?k ?d ip ua] =>
        pose proof (objects_create_get_simulation (views.by_link_token token) now db s c
                      e k d ip ua (token_only_link token) G) as G2;
        pose proof (objects_create_scores now db s c e k d ip ua) as Hsc;
        pose proof (objects_create_accepts (views.by_link_token token) now db s c
                      e k d ip ua (token_only_link token) eq_refl G) as Hacc;
        destruct (TrackingEvent_methods.objects_create now db s c e k d ip ua)
          as [[db1 s1] c1]
      end.
      cbv zeta in G2. cbn [fst snd] in *. split; [reflexivity|].
      destruct Hacc as (s0 & c0 & e0 & s' & _ & _ & _ & _ & _ & Hfind & Hflag).
      unfold views.report_phishing_view. rewrite G2.
      assert (Es : s' = s1).
      { unfold views.get_simulation in G2. rewrite Hfind in G2.
        destruct (Table.get _ _ _); [|discriminate]. congruence. }
      subst s'. cbn [flag_of] in Hflag. rewrite Hflag. reflexivity.
Qed.

(** ** Marking the emails of a campaign as sent *)

Lemma update_risk_scores_frame (now : Z) (ids : list Z) :
  forall db,
    tracking_unchanged db (services.update_risk_scores now db ids)
    /\ risk_score_history (services.update_risk_scores now db ids) = risk_score_history db.
Proof.
  induction ids as [|i rest IH]; intros db; cbn [services.update_risk_scores].
  - split; [apply tracking_unchanged_refl | reflexivity].
  - destruct (Table.get User.id i (users db)) as [u|]; [|apply IH].
    destruct (negb _); [apply IH|].
    destruct (find _ (risk_scores db)) as [r|].
    + match goal with
      | |- context [services.update_risk_scores now
                      (signals.check_remediation_on_score_change now ?d ?x) rest] =>
        destruct (check_remediation_tracking now d x) as [H1 H2];
        destruct (IH (signals.check_remediation_on_score_change now d x)) as [H3 H4]
      end.
      split; [|rewrite H4, H2; reflexivity].
      eapply tracking_unchanged_trans; [|exact H3].
      eapply tracking_unchanged_trans; [|exact H1]. repeat split.
    + destruct (User.company u) as [c|];
        [|split; [apply tracking_unchanged_refl | reflexivity]].
      match goal with
      | |- context [services.update_risk_scores now
                      (signals.check_remediation_on_score_change now ?d ?x) rest] =>
        destruct (check_remediation_tracking now d x) as [H1 H2];
        destruct (IH (signals.check_remediation_on_score_change now d x)) as [H3 H4]
      end.
      split; [|rewrite H4, H2; reflexivity].
      eapply tracking_unchanged_trans; [|exact H3].
      eapply tracking_unchanged_trans; [|exact H1]. repeat split.
Qed.

Lemma count_filter_none {A : Type} (p : A -> bool) (f : A -> A) (rows : list A) :
  (forall x, p x = true -> p (f x) = false) ->
  Table.count p (map (fun x => if p x then f x else x) rows) = 0.
Proof.
  intros H. unfold Table.count. induction rows as [|x xs IH]; [reflexivity|].
  cbn [map filter]. destruct (p x) eqn:E.
  - rewrite (H x E). exact IH.
  - rewrite E. exact IH.
Qed.

Lemma map_id_when_none {A : Type} (p : A -> bool) (f : A -> A) (rows : list A) :
  Table.count p rows = 0 -> map (fun x => if p x then f x else x) rows = rows.
Proof.
  unfold Table.count. induction rows as [|x xs IH]; [reflexivity|].
  cbn [map filter]. destruct (p x) eqn:E.
  - cbn [List.length]. lia.
  - intros H. rewrite (IH H). reflexivity.
Qed.

Lemma filter_none {A : Type} (p : A -> bool) (rows : list A) :
  Table.count p rows = 0 -> filter p rows = [].
Proof.
  unfold Table.count. destruct (filter p rows); [reflexivity | cbn [List.length]; lia].
Qed.

Lemma mark_campaign_emails_sent_once (now : Z) (db : DB)
    (campaign : SimulationCampaign.t) :
  let cid := SimulationCampaign.id campaign in
  let pending s :=
    (EmailSimulation.campaign s =? cid)
    && EmailSimulation.is_pending (EmailSimulation.status s) in
  let out := services.mark_campaign_emails_sent now db campaign in
  let db' := fst (fst out) in
  let c' := snd (fst out) in
  snd out = Table.count pending (email_simulations db)
  /\ Table.count pending (email_simulations db') = 0
  /\ email_simulations db'
     = map (fun s => if pending s
                     then EmailSimulation.set_sent s EmailSimulation.SENT (Some now)
                     else s)
         (email_simulations db)
  /\ Table.get SimulationCampaign.id cid (campaigns db') = Some c'
  /\ SimulationCampaign.status c' = SimulationCampaign.IN_PROGRESS
  /\ SimulationCampaign.sent_at c' = Some now
  /\ SimulationCampaign.total_sent c'
     = count_simulations db' cid
         (fun s => EmailSimulation.is_sent (EmailSimulation.status s))
  /\ tracking_events db' = tracking_events db
  /\ risk_score_history db' = risk_score_history db
  /\ users db' = users db
  /\ SimulationCampaign.id c' = cid
  /\ (Table.count pending (email_simulations db) = 0 -> risk_scores db' = risk_scores db).
Proof.
  cbv zeta. unfold services.mark_campaign_emails_sent. cbv zeta. cbn [fst snd].
  match goal with
  | |- context [services.update_risk_scores now ?d ?ids] =>
    destruct (update_risk_scores_frame now ids d) as [(Hu & Hc & Hs & He) Hh];
    assert (Hnil : ids = [] -> services.update_risk_scores now d ids = d)
      by (intros ->; reflexivity);
    set (db3 := services.update_risk_scores now d ids) in *
  end.
  cbn [users campaigns email_simulations tracking_events risk_score_history
       set_campaigns set_email_simulations] in Hu, Hc, Hs, He, Hh.
  assert (Hnone :
    Table.count
      (fun s => (EmailSimulation.campaign s =? SimulationCampaign.id campaign)
                && EmailSimulation.is_pending (EmailSimulation.status s))
      (email_simulations db3) = 0).
  { rewrite Hs. apply count_filter_none. intros x Hx.
    apply andb_prop in Hx. destruct Hx as [Hx _].
    cbn [EmailSimulation.set_sent EmailSimulation.campaign EmailSimulation.status
         EmailSimulation.is_pending]. rewrite Hx. reflexivity. }
  split; [reflexivity|].
  split; [exact Hnone|].
  split; [exact Hs|].
  split.
  { rewrite Hc.
    match goal with
    | |- Table.get _ _ (Table.save _ ?c _) = _ =>
      change (SimulationCampaign.id campaign) with (SimulationCampaign.id c)
    end.
    apply get_save. }
  split; [reflexivity|]. split; [reflexivity|].
  split.
  { unfold count_simulations. rewrite Hs. reflexivity. }
  split; [exact He|]. split; [exact Hh|]. split; [exact Hu|]. split; [reflexivity|].
  intros H0. subst db3. rewrite Hnil; [reflexivity|].
  rewrite (filter_none _ _ H0). reflexivity.
Qed.

(** [mark_campaign_emails_sent] returns the number of PENDING simulations
    of the campaign and leaves none: each of them is SENT with the time of
    the call, every other simulation is as it was.  The stored campaign is
    IN_PROGRESS with that time as sent_at and the number of its SENT
    simulations as total_sent.  The event log and the history of the risk
    scores are not written.  A second call updates nothing: it returns 0 and
    leaves the simulations and the risk scores as they are. *)
Theorem mark_campaign_emails_sent_spec (now now' : Z) (db : DB)
    (campaign : SimulationCampaign.t) :
  let cid := SimulationCampaign.id campaign in
  let pending s :=
    (EmailSimulation.campaign s =? cid)
    && EmailSimulation.is_pending (EmailSimulation.status s) in
  let out := services.mark_campaign_emails_sent now db campaign in
  let db' := fst (fst out) in
  let c' := snd (fst out) in
  let again := services.mark_campaign_emails_sent now' db' c' in
  snd out = Table.count pending (email_simulations db)
  /\ Table.count pending (email_simulations db') = 0
  /\ email_simulations db'
     = map (fun s => if pending s
                     then EmailSimulation.set_sent s EmailSimulation.SENT (Some now)
                     else s)
         (email_simulations db)
  /\ Table.get SimulationCampaign.id cid (campaigns db') = Some c'
  /\ SimulationCampaign.status c' = SimulationCampaign.IN_PROGRESS
  /\ SimulationCampaign.sent_at c' = Some now
  /\ SimulationCampaign.total_sent c'
     = count_simulations db' cid
         (fun s => EmailSimulation.is_sent (EmailSimulation.status s))
  /\ tracking_events db' = tracking_events db
  /\ risk_score_history db' = risk_score_history db
  /\ snd again = 0
  /\ email_simulations (fst (fst again)) = email_simulations db'
  /\ risk_scores (fst (fst again)) = risk_scores db'.
Proof.
  cbv zeta.
  pose proof (mark_campaign_emails_sent_once now db campaign)
    as (H1 & H2 & H3 & H4 & H5 & H6 & H7 & H8 & H9 & _ & Hid & _).
  cbv zeta in *.
  destruct (services.mark_campaign_emails_sent now db campaign) as [[db' c'] n].
  cbn [fst snd] in *.
  pose proof (mark_campaign_emails_sent_once now' db' c')
    as (K1 & _ & K3 & _ & _ & _ & _ & _ & _ & _ & _ & K12).
  cbv zeta in *. rewrite Hid in *.
  repeat (split; [assumption|]).
  split; [rewrite K1; exact H2|].
  split; [rewrite K3; apply map_id_when_none, H2 | apply K12, H2].
Qed.

(** A simulation that was marked as sent in bulk is not counted by its
    tracking events: after [mark_campaign_emails_sent] the PENDING row is
    stored as SENT, and a relevant tracking event on that row, for which no
    EMAIL_SENT event is logged, leaves [total_simulations_received] of the
    employee as the bulk update left it. *)
Theorem bulk_marked_simulation_not_counted_again (now now2 : Z) (db : DB)
    (campaign c2 : SimulationCampaign.t) (s : EmailSimulation.t)
    (k : TrackingEvent.EventType) (data : list (string * Value))
    (ip : option string) (ua : string) (company : Z) :
  In s (email_simulations db) ->
  EmailSimulation.campaign s = SimulationCampaign.id campaign ->
  EmailSimulation.is_pending (EmailSimulation.status s) = true ->
  logged db (EmailSimulation.id s)
    (TrackingEvent.EventType_eqb TrackingEvent.EMAIL_SENT) = false ->
  TrackingEvent.relevant k = true ->
  scored_employee db (EmailSimulation.employee s) company ->
  let db1 := fst (fst (services.mark_campaign_emails_sent now db campaign)) in
  let s1 := EmailSimulation.set_sent s EmailSimulation.SENT (Some now) in
  let db2 :=
    fst (fst (TrackingEvent_methods.objects_create now2 db1 s1 c2
                (EmailSimulation.employee s1) k data ip ua)) in
  In s1 (email_simulations db1)
  /\ counter RiskScore.total_simulations_received db2 (EmailSimulation.employee s)
     = counter RiskScore.total_simulations_received db1 (EmailSimulation.employee s).
Proof.
  intros Hin Hcamp Hpend Hlog Hrel Hsc. cbv zeta.
  pose proof (mark_campaign_emails_sent_once now db campaign)
    as (_ & _ & H3 & _ & _ & _ & _ & H8 & _ & Hu & _).
  cbv zeta in H3, H8, Hu.
  set (db1 := fst (fst (services.mark_campaign_emails_sent now db campaign))) in *.
  split.
  - rewrite H3. apply in_map_iff. exists s. split; [|exact Hin].
    rewrite Hcamp, Z.eqb_refl, Hpend. reflexivity.
  - assert (Hsc1 : scored_employee db1
                     (EmailSimulation.employee
                        (EmailSimulation.set_sent s EmailSimulation.SENT (Some now)))
                     company)
      by (apply (scored_employee_users db); assumption).
    destruct (objects_create_counted now2 db1
                (EmailSimulation.set_sent s EmailSimulation.SENT (Some now)) c2 k
                data ip ua company Hrel Hsc1) as [H _].
    cbv zeta in H.
    change (EmailSimulation.employee
              (EmailSimulation.set_sent s EmailSimulation.SENT (Some now)))
      with (EmailSimulation.employee s) in *.
    rewrite H.
    assert (Hbulk : signals.was_bulk_marked_sent db1
                      (EmailSimulation.set_sent s EmailSimulation.SENT (Some now)) = true).
    { unfold signals.was_bulk_marked_sent.
      cbn [EmailSimulation.set_sent EmailSimulation.status EmailSimulation.sent_at
           EmailSimulation.is_sent EmailSimulation.id andb].
      rewrite H8. unfold logged in Hlog.
      rewrite (existsb_ext_in _
                 (fun e => (TrackingEvent.email_simulation e =? EmailSimulation.id s)
                           && TrackingEvent.EventType_eqb TrackingEvent.EMAIL_SENT
                                (TrackingEvent.event_type e))).
      - rewrite Hlog. reflexivity.
      - intros x _. rewrite EventType_eqb_sym. reflexivity. }
    rewrite Hbulk, orb_true_r. lia.
Qed.

Lemma bulk_marked_simulation_not_counted_again_witness :
  let db := Example.scheduled in
  let s := Example.simulation_of db "l1" in
  let db1 := fst (fst (services.mark_campaign_emails_sent 50 db (Example.campaign_of db))) in
  let s1 := EmailSimulation.set_sent s EmailSimulation.SENT (Some 50) in
  In s (email_simulations db)
  /\ EmailSimulation.campaign s = SimulationCampaign.id (Example.campaign_of db)
  /\ EmailSimulation.is_pending (EmailSimulation.status s) = true
  /\ logged db (EmailSimulation.id s)
       (TrackingEvent.EventType_eqb TrackingEvent.EMAIL_SENT) = false
  /\ TrackingEvent.relevant TrackingEvent.LINK_CLICKED = true
  /\ scored_employee db (EmailSimulation.employee s) 1
  /\ In s1 (email_simulations db1)
  /\ counter RiskScore.total_simulations_received
       (fst (fst (TrackingEvent_methods.objects_create 60 db1 s1 (Example.campaign_of db1)
                    (EmailSimulation.employee s1) TrackingEvent.LINK_CLICKED [] None "")))
       (EmailSimulation.employee s)
     = counter RiskScore.total_simulations_received db1 (EmailSimulation.employee s).
Proof.
  cbv zeta.
  assert (H1 : In (Example.simulation_of Example.scheduled "l1")
                 (email_simulations Example.scheduled)) by (left; reflexivity).
  assert (H6 : scored_employee Example.scheduled
                 (EmailSimulation.employee (Example.simulation_of Example.scheduled "l1")) 1).
  { exists Example.alice. repeat split. }
  split; [exact H1|]. split; [reflexivity|]. split; [reflexivity|].
  split; [reflexivity|]. split; [reflexivity|]. split; [exact H6|].
  exact (bulk_marked_simulation_not_counted_again 50 60 Example.scheduled
           (Example.campaign_of Example.scheduled)
           (Example.campaign_of
              (fst (fst (services.mark_campaign_emails_sent 50 Example.scheduled
                           (Example.campaign_of Example.scheduled)))))
           (Example.simulation_of Example.scheduled "l1") TrackingEvent.LINK_CLICKED
           [] None "" 1 H1 eq_refl eq_refl eq_refl eq_refl H6).
Defined.

(** ** Creating the simulations of a campaign *)

Lemma create_simulations_appends (tokens : Z -> string * string)
    (campaign : SimulationCampaign.t) (employees : list User.t) :
  forall db,
    let out := views.create_simulations tokens db campaign employees in
    email_simulations (fst out) = email_simulations db ++ snd out
    /\ users (fst out) = users db
    /\ campaigns (fst out) = campaigns db
    /\ tracking_events (fst out) = tracking_events db
    /\ risk_scores (fst out) = risk_scores db
    /\ Forall (fun s =>
                 EmailSimulation.campaign s = SimulationCampaign.id campaign
                 /\ EmailSimulation.status s = EmailSimulation.PENDING
                 /\ EmailSimulation.was_opened s = false
                 /\ EmailSimulation.was_clicked s = false
                 /\ EmailSimulation.was_reported s = false
                 /\ EmailSimulation.credentials_entered s = false
                 /\ EmailSimulation.sent_at s = None
                 /\ exists u, In u employees /\ EmailSimulation.employee s = User.id u)
         (snd out).
Proof.
  induction employees as [|u rest IH]; intros db; cbv zeta; cbn [views.create_simulations].
  - cbn [fst snd]. rewrite app_nil_r. repeat split. constructor.
  - destruct (existsb _ (email_simulations db)).
    + destruct (IH db) as (H1 & H2 & H3 & H4 & H5 & H6).
      repeat (split; [assumption|]).
      eapply Forall_impl; [|exact H6]. cbv beta.
      intros a (A1 & A2 & A3 & A4 & A5 & A6 & A7 & x & Hx & A8).
      repeat (split; [assumption|]). exists x. split; [right; exact Hx | exact A8].
    + match goal with
      | |- context [views.create_simulations tokens ?d campaign rest] =>
        destruct (IH d) as (H1 & H2 & H3 & H4 & H5 & H6);
        destruct (views.create_simulations tokens d campaign rest) as [db1 created]
      end.
      cbn [fst snd email_simulations users campaigns tracking_events risk_scores
           set_email_simulations] in *.
      split; [rewrite H1, <- app_assoc; reflexivity|].
      repeat (split; [assumption|]).
      constructor.
      * cbn [EmailSimulation.create EmailSimulation.campaign EmailSimulation.status
             EmailSimulation.was_opened EmailSimulation.was_clicked
             EmailSimulation.was_reported EmailSimulation.credentials_entered
             EmailSimulation.sent_at EmailSimulation.employee].
        repeat (split; [reflexivity|]). exists u. split; [left; reflexivity | reflexivity].
      * eapply Forall_impl; [|exact H6]. cbv beta.
        intros a (A1 & A2 & A3 & A4 & A5 & A6 & A7 & x & Hx & A8).
        repeat (split; [assumption|]). exists x. split; [right; exact Hx | exact A8].
Qed.

Lemma create_simulations_covers (tokens : Z -> string * string)
    (campaign : SimulationCampaign.t) (employees : list User.t) :
  forall db u,
    In u employees ->
    existsb
      (fun s =>
         (EmailSimulation.campaign s =? SimulationCampaign.id campaign)
         && (EmailSimulation.employee s =? User.id u))
      (email_simulations (fst (views.create_simulations tokens db campaign employees)))
    = true.
Proof.
  induction employees as [|x rest IH]; intros db u Hin; [destruct Hin|].
  assert (Hkeep : forall d,
             existsb
               (fun s =>
                  (EmailSimulation.campaign s =? SimulationCampaign.id campaign)
                  && (EmailSimulation.employee s =? User.id u))
               (email_simulations d) = true ->
             existsb
               (fun s =>
                  (EmailSimulation.campaign s =? SimulationCampaign.id campaign)
                  && (EmailSimulation.employee s =? User.id u))
               (email_simulations (fst (views.create_simulations tokens d campaign rest)))
             = true).
  { intros d Hd. destruct (create_simulations_appends tokens campaign rest d) as [H _].
    cbv zeta in H. rewrite H, existsb_app, Hd. reflexivity. }
  cbn [views.create_simulations].
  destruct (existsb _ (email_simulations db)) eqn:E.
  - destruct Hin as [->|Hin]; [apply Hkeep, E | apply IH, Hin].
  - match goal with
    | |- context [views.create_simulations tokens ?d campaign rest] =>
      pose proof (Hkeep d) as Hk; pose proof (IH d u) as IHd;
      destruct (views.create_simulations tokens d campaign rest) as [db1 created]
    end.
    cbn [fst snd] in *.
    destruct Hin as [->|Hin]; [|apply IHd, Hin].
    apply Hk. cbn [email_simulations set_email_simulations].
    rewrite existsb_app. cbn [existsb EmailSimulation.create EmailSimulation.campaign
                              EmailSimulation.employee].
    rewrite !Z.eqb_refl. cbn [andb orb]. apply orb_true_r.
Qed.

Lemma create_simulations_none (tokens : Z -> string * string)
    (campaign : SimulationCampaign.t) (employees : list User.t) (db : DB) :
  (forall u, In u employees ->
             existsb
               (fun s =>
                  (EmailSimulation.campaign s =? SimulationCampaign.id campaign)
                  && (EmailSimulation.employee s =? User.id u))
               (email_simulations db) = true) ->
  views.create_simulations tokens db campaign employees = (db, []).
Proof.
  induction employees as [|x rest IH]; intros H; cbn [views.create_simulations];
    [reflexivity|].
  rewrite (H x (or_introl eq_refl)). apply IH. intros u Hu. apply H. right. exact Hu.
Qed.

(** The first loop of [send]: afterwards every target employee has a
    simulation of the campaign; the loop only appends to the simulations,
    and what it appends are PENDING rows of the campaign without any flag,
    one at most for every target; no other table is written; and a
    second run over the same targets, with whatever tokens, creates
    nothing. *)
Theorem create_simulations_once (tokens tokens' : Z -> string * string) (db : DB)
    (campaign : SimulationCampaign.t) (employees : list User.t) :
  let out := views.create_simulations tokens db campaign employees in
  (forall u, In u employees ->
             existsb
               (fun s =>
                  (EmailSimulation.campaign s =? SimulationCampaign.id campaign)
                  && (EmailSimulation.employee s =? User.id u))
               (email_simulations (fst out)) = true)
  /\ email_simulations (fst out) = email_simulations db ++ snd out
  /\ Forall (fun s =>
               EmailSimulation.campaign s = SimulationCampaign.id campaign
               /\ EmailSimulation.status s = EmailSimulation.PENDING
               /\ EmailSimulation.was_opened s = false
               /\ EmailSimulation.was_clicked s = false
               /\ EmailSimulation.was_reported s = false
               /\ EmailSimulation.credentials_entered s = false
               /\ EmailSimulation.sent_at s = None
               /\ exists u, In u employees /\ EmailSimulation.employee s = User.id u)
       (snd out)
  /\ (List.length (snd out) <= List.length employees)%nat
  /\ users (fst out) = users db
  /\ campaigns (fst out) = campaigns db
  /\ tracking_events (fst out) = tracking_events db
  /\ risk_scores (fst out) = risk_scores db
  /\ views.create_simulations tokens' (fst out) campaign employees = (fst out, []).
Proof.
  cbv zeta.
  destruct (create_simulations_appends tokens campaign employees db)
    as (H1 & H2 & H3 & H4 & H5 & H6).
  cbv zeta in *.
  split; [intros u Hu; apply create_simulations_covers, Hu|].
  split; [exact H1|]. split; [exact H6|].
  split.
  { clear. revert db. induction employees as [|x rest IH]; intros db;
      cbn [views.create_simulations]; [apply Nat.le_refl|].
    destruct (existsb _ _).
    - apply Nat.le_trans with (List.length rest); [apply IH | apply Nat.le_succ_diag_r].
    - match goal with
      | |- context [views.create_simulations tokens ?d campaign rest] =>
        pose proof (IH d) as IHd;
        destruct (views.create_simulations tokens d campaign rest) as [db1 created]
      end.
      cbn [snd List.length] in *. apply le_n_S, IHd. }
  repeat (split; [assumption|]).
  apply create_simulations_none. intros u Hu. apply create_simulations_covers, Hu.
Qed.

(** ** Quiz results *)

Lemma count_disjoint_le {A : Type} (p q r : A -> bool) (xs : list A) :
  (forall x, p x = true -> r x = true) ->
  (forall x, q x = true -> r x = true) ->
  (forall x, p x = true -> q x = false) ->
  Table.count p xs + Table.count q xs <= Table.count r xs.
Proof.
  intros Hp Hq Hd. unfold Table.count. induction xs as [|x xs IH]; [cbn; lia|].
  cbn [filter].
  destruct (p x) eqn:Ep; destruct (q x) eqn:Eq.
  - rewrite (Hd x Ep) in Eq. discriminate.
  - rewrite (Hp x Ep). cbn [List.length]. lia.
  - rewrite (Hq x Eq). cbn [List.length]. lia.
  - destruct (r x); cbn [List.length]; lia.
Qed.

Lemma count_split {A : Type} (p : A -> bool) (xs : list A) :
  Table.count p xs + Table.count (fun x => negb (p x)) xs = Table.count (fun _ => true) xs.
Proof.
  unfold Table.count. induction xs as [|x xs IH]; cbn [filter]; [reflexivity|].
  destruct (p x); cbn [negb List.length]; lia.
Qed.

(** The numbers of a calculated quiz result fit together: right and wrong
    answers add up to the number of questions; the identified phishing
    emails are among the right answers, the missed ones and the false
    alarms among the wrong ones; the stored score is the accuracy of the
    result; the tier does not depend on the false alarms; and an empty quiz
    scores 0, is rated HIGH and is not passed. *)
Theorem calculate_quiz_result_counts (pk employee : Z) (questions : list QuizQuestion.t) :
  let r := QuizViewSet._calculate_quiz_result pk employee questions in
  QuizResult.correct_answers r + QuizResult.incorrect_answers r
  = QuizResult.total_questions r
  /\ 0 <= QuizResult.correct_answers r <= QuizResult.total_questions r
  /\ 0 <= QuizResult.phishing_emails_identified r <= QuizResult.correct_answers r
  /\ 0 <= QuizResult.phishing_emails_missed r
  /\ 0 <= QuizResult.false_positives r
  /\ QuizResult.phishing_emails_missed r + QuizResult.false_positives r
     <= QuizResult.incorrect_answers r
  /\ QuizResult.accuracy r = QuizResult.score r
  /\ (forall score missed fp fp',
         QuizViewSet._determine_risk_level score missed fp
         = QuizViewSet._determine_risk_level score missed fp')
  /\ (let empty := QuizViewSet._calculate_quiz_result pk employee [] in
      QuizResult.score empty = PyFloat.of_int 0
      /\ QuizResult.risk_level empty = HIGH
      /\ QuizResult.passed empty = false).
Proof.
  cbv zeta. unfold QuizViewSet._calculate_quiz_result.
  cbn [QuizResult.correct_answers QuizResult.incorrect_answers QuizResult.total_questions
       QuizResult.phishing_emails_identified QuizResult.phishing_emails_missed
       QuizResult.false_positives QuizResult.score QuizResult.accuracy].
  pose proof (count_split QuizQuestion.is_correct questions) as Hsplit.
  pose proof (count_nonneg QuizQuestion.is_correct questions) as H0.
  pose proof (count_nonneg (fun x => negb (QuizQuestion.is_correct x)) questions) as H1.
  split; [lia|]. split; [lia|].
  split.
  { split; [apply count_nonneg|]. apply count_le. intros x Hx.
    apply andb_prop in Hx. tauto. }
  split; [apply count_nonneg|]. split; [apply count_nonneg|].
  split.
  { match goal with
    | |- Table.count ?p _ + Table.count ?q _ <= _ =>
      pose proof (count_disjoint_le p q (fun x => negb (QuizQuestion.is_correct x))
                    questions) as H
    end.
    cbv beta in H.
    assert (Hle : forall a b c : Z, a <= b -> b + c = a + (b - a) + c) by (intros; lia).
    eapply Z.le_trans; [apply H|lia].
    - intros x Hx. apply andb_prop in Hx. tauto.
    - intros x Hx. apply andb_prop in Hx. tauto.
    - intros x Hx. apply andb_prop in Hx. destruct Hx as [Hx _].
      apply andb_prop in Hx. destruct Hx as [Hx _]. rewrite Hx. reflexivity. }
  split.
  { unfold QuizResult.accuracy.
    cbn [QuizResult.total_questions QuizResult.correct_answers].
    destruct (Z.eqb_spec (Table.count (fun _ => true) questions) 0) as [E|E].
    - rewrite E. reflexivity.
    - pose proof (count_nonneg (fun _ : QuizQuestion.t => true) questions).
      destruct (Z.gtb_spec (Table.count (fun _ => true) questions) 0); [reflexivity | lia]. }
  split; [reflexivity|].
  vm_compute. repeat split.
Qed.

(** ** Campaign rates *)

Lemma rate_within (a b : Z) :
  0 <= a <= PyFloat.max_counter -> 0 < b <= PyFloat.max_counter ->
  within (-1074) 65 (PyFloat.mul_int (PyFloat.truediv a b) 100)
  /\ sign_is false (PyFloat.mul_int (PyFloat.truediv a b) 100).
Proof.
  intros Ha Hb. unfold PyFloat.mul_int.
  destruct (truediv_within a b Ha Hb) as [W S].
  destruct (of_int_literal 100 ltac:(unfold PyFloat.max_counter; lia)) as [W2 S2].
  destruct (mul_within _ _ false false 32 (-21) W W2 S S2 ltac:(lia) ltac:(lia)) as [Wm Sm].
  split; [exact Wm | exact Sm].
Qed.

(** The four rates of a campaign never divide by zero: with nothing sent
    each of them is 0, and the effective sent count is zero only when
    total_sent is not positive and the campaign has no simulation at all.
    With counters in the range of the column type each rate is a finite
    float that is not negative. *)
Theorem campaign_rates_defined (db : DB) (self : SimulationCampaign.t) :
  let sent := SimulationCampaign_methods._effective_sent_count db self in
  0 <= sent
  /\ (sent = 0 <->
      SimulationCampaign.total_sent self <= 0
      /\ count_simulations db (SimulationCampaign.id self) (fun _ => true) = 0)
  /\ (sent = 0 ->
      SimulationCampaign_methods.open_rate db self = PyFloat.of_int 0
      /\ SimulationCampaign_methods.click_rate db self = PyFloat.of_int 0
      /\ SimulationCampaign_methods.report_rate db self = PyFloat.of_int 0
      /\ SimulationCampaign_methods.compromise_rate db self = PyFloat.of_int 0)
  /\ (0 < sent <= PyFloat.max_counter ->
      0 <= SimulationCampaign.total_opened self <= PyFloat.max_counter ->
      0 <= SimulationCampaign.total_clicked self <= PyFloat.max_counter ->
      0 <= SimulationCampaign.total_reported self <= PyFloat.max_counter ->
      0 <= SimulationCampaign.total_credentials_entered self <= PyFloat.max_counter ->
      Forall (fun rate => within (-1074) 65 rate /\ sign_is false rate)
        [ SimulationCampaign_methods.open_rate db self;
          SimulationCampaign_methods.click_rate db self;
          SimulationCampaign_methods.report_rate db self;
          SimulationCampaign_methods.compromise_rate db self ]).
Proof.
  cbv zeta.
  pose proof (count_nonneg
                (fun s => (EmailSimulation.campaign s =? SimulationCampaign.id self) && true)
                (email_simulations db)) as Hall.
  pose proof (count_nonneg
                (fun s => (EmailSimulation.campaign s =? SimulationCampaign.id self)
                          && negb (EmailSimulation.pending_or_failed
                                     (EmailSimulation.status s)))
                (email_simulations db)) as Hsent.
  pose proof (count_le
                (fun s => (EmailSimulation.campaign s =? SimulationCampaign.id self)
                          && negb (EmailSimulation.pending_or_failed
                                     (EmailSimulation.status s)))
                (fun s => (EmailSimulation.campaign s =? SimulationCampaign.id self) && true)
                (email_simulations db)) as Hle.
  assert (Hsub : Table.count
                   (fun s => (EmailSimulation.campaign s =? SimulationCampaign.id self)
                             && negb (EmailSimulation.pending_or_failed
                                        (EmailSimulation.status s)))
                   (email_simulations db)
                 <= Table.count
                      (fun s => (EmailSimulation.campaign s =? SimulationCampaign.id self)
                                && true)
                      (email_simulations db)).
  { apply Hle. intros x Hx. apply andb_prop in Hx. destruct Hx as [Hx _].
    rewrite Hx. reflexivity. }
  clear Hle.
  unfold SimulationCampaign_methods.open_rate, SimulationCampaign_methods.click_rate,
    SimulationCampaign_methods.report_rate, SimulationCampaign_methods.compromise_rate.
  cbv zeta.
  assert (Hval :
    (0 < SimulationCampaign.total_sent self
     /\ SimulationCampaign_methods._effective_sent_count db self
        = SimulationCampaign.total_sent self)
    \/ (SimulationCampaign.total_sent self <= 0
        /\ 0 <= SimulationCampaign_methods._effective_sent_count db self
        /\ (SimulationCampaign_methods._effective_sent_count db self = 0 <->
            count_simulations db (SimulationCampaign.id self) (fun _ => true) = 0))).
  { unfold SimulationCampaign_methods._effective_sent_count, count_simulations.
    destruct (Z.gtb_spec (SimulationCampaign.total_sent self) 0) as [G|G];
      [left; split; [lia | reflexivity]|].
    right. split; [lia|].
    match goal with
    | |- context [if ?c >? 0 then _ else _] => destruct (Z.gtb_spec c 0) as [G2|G2]
    end; split; lia. }
  set (sent := SimulationCampaign_methods._effective_sent_count db self) in *.
  clearbody sent.
  split; [lia|]. split; [lia|]. split.
  - intros ->. repeat split.
  - intros Hs Ho Hc Hr Hcr.
    destruct (Z.eqb_spec sent 0) as [E|E]; [lia|].
    repeat constructor; try (apply rate_within; lia).
Qed.

(** ** Training questions and the progress of a training *)

(** [correct_answer] never reads outside of the options: it is the option
    at the index when the index is within the list, and [None] for an empty
    list, a negative index and an index past the end. *)
Theorem correct_answer_in_range (q : TrainingQuestion.t) :
  let i := TrainingQuestion.correct_answer_index q in
  let n := Z.of_nat (List.length (TrainingQuestion.options q)) in
  (0 <= i < n ->
   exists a, TrainingQuestion.correct_answer q = Some a
             /\ nth_error (TrainingQuestion.options q) (Z.to_nat i) = Some a
             /\ In a (TrainingQuestion.options q))
  /\ (i < 0 \/ n <= i -> TrainingQuestion.correct_answer q = None).
Proof.
  cbv zeta. unfold TrainingQuestion.correct_answer.
  destruct (Z.leb_spec 0 (TrainingQuestion.correct_answer_index q)) as [L|L];
    destruct (Z.ltb_spec (TrainingQuestion.correct_answer_index q)
                (Z.of_nat (List.length (TrainingQuestion.options q)))) as [U|U];
    cbn [andb]; (split; [intros H | intros H]); try lia.
  - destruct (TrainingQuestion.options q) as [|o os]; [cbn [List.length Z.of_nat] in U; lia|].
    destruct (nth_error (o :: os)
                (Z.to_nat (TrainingQuestion.correct_answer_index q))) as [a|] eqn:E.
    + exists a. split; [reflexivity|]. split; [reflexivity|].
      apply nth_error_In in E. exact E.
    + apply nth_error_None in E. lia.
  - destruct (TrainingQuestion.options q); reflexivity.
  - destruct (TrainingQuestion.options q); reflexivity.
Qed.

Lemma count_map {A B : Type} (f : A -> B) (p : B -> bool) (xs : list A) :
  Table.count p (map f xs) = Table.count (fun x => p (f x)) xs.
Proof.
  unfold Table.count. induction xs as [|x xs IH]; cbn [map filter]; [reflexivity|].
  destruct (p (f x)); cbn [List.length]; lia.
Qed.

Lemma ge_int_zero (n : Z) :
  0 < n <= PyFloat.max_counter -> PyFloat.ge_int (PyFloat.of_int 0) n = false.
Proof.
  intros H. unfold PyFloat.ge_int.
  destruct (of_int_finite n H) as (m & e & -> & _). reflexivity.
Qed.

(** [submit_quiz]: one result for every active question, in order; the
    number of right answers is the number of results marked correct and
    lies between 0 and the number of questions; a question without a
    submitted answer counts as wrong.  The training ends PASSED when the
    outcome is passed and FAILED otherwise, so it is no longer open; the
    attempt counter goes up by one, the completion time is the time of the
    call, and the due date, the start time and the content flags stay.  With
    no active question the score is 0, and the training fails for every
    positive passing score. *)
Theorem submit_quiz_outcome (now passing_score : Z) (questions : list TrainingQuestion.t)
    (self : RemediationTraining_methods.instance) (answers : list (Z * Z)) :
  let out := RemediationTraining_methods.submit_quiz now passing_score questions self answers in
  let after := fst out in
  let res := snd out in
  RemediationTraining_methods.total res = Z.of_nat (List.length questions)
  /\ map RemediationTraining_methods.question_id (RemediationTraining_methods.results res)
     = map TrainingQuestion.id questions
  /\ RemediationTraining_methods.correct res
     = Table.count RemediationTraining_methods.is_correct
         (RemediationTraining_methods.results res)
  /\ 0 <= RemediationTraining_methods.correct res <= RemediationTraining_methods.total res
  /\ Forall (fun x =>
               RemediationTraining_methods.selected x = None ->
               RemediationTraining_methods.is_correct x = false)
       (RemediationTraining_methods.results res)
  /\ RemediationTraining_methods.status after
     = (if RemediationTraining_methods.passed res
        then RemediationTraining.PASSED else RemediationTraining.FAILED)
  /\ RemediationTraining.is_open (RemediationTraining_methods.status after) = false
  /\ RemediationTraining_methods.quiz_attempts after
     = RemediationTraining_methods.quiz_attempts self + 1
  /\ RemediationTraining_methods.completed_at after = Some now
  /\ RemediationTraining_methods.correct_answers after = RemediationTraining_methods.correct res
  /\ RemediationTraining_methods.total_questions after = RemediationTraining_methods.total res
  /\ RemediationTraining_methods.due_date after = RemediationTraining_methods.due_date self
  /\ RemediationTraining_methods.started_at after
     = RemediationTraining_methods.started_at self
  /\ RemediationTraining_methods.content_viewed after
     = RemediationTraining_methods.content_viewed self
  /\ (questions = [] ->
      RemediationTraining_methods.score res = PyFloat.of_int 0
      /\ (0 < passing_score <= PyFloat.max_counter ->
          RemediationTraining_methods.passed res = false
          /\ RemediationTraining_methods.status after = RemediationTraining.FAILED)).
Proof.
  cbv zeta. unfold RemediationTraining_methods.submit_quiz.
  cbn [fst snd RemediationTraining_methods.total RemediationTraining_methods.results
       RemediationTraining_methods.correct RemediationTraining_methods.passed
       RemediationTraining_methods.score RemediationTraining_methods.status
       RemediationTraining_methods.quiz_attempts RemediationTraining_methods.completed_at
       RemediationTraining_methods.correct_answers RemediationTraining_methods.total_questions
       RemediationTraining_methods.due_date RemediationTraining_methods.started_at
       RemediationTraining_methods.content_viewed].
  split.
  { unfold Table.count. f_equal. f_equal. clear.
    induction questions; simpl; congruence. }
  split; [rewrite map_map; reflexivity|].
  split; [reflexivity|].
  split.
  { split; [apply count_nonneg|]. rewrite count_map. apply count_le. reflexivity. }
  split.
  { apply Forall_forall. intros x Hx Hsel. apply in_map_iff in Hx.
    destruct Hx as (q & <- & _). unfold RemediationTraining_methods.grade in *.
    cbn [RemediationTraining_methods.selected RemediationTraining_methods.is_correct] in *.
    rewrite Hsel. reflexivity. }
  split; [reflexivity|].
  split; [destruct (PyFloat.ge_int _ _); reflexivity|].
  do 7 (split; [reflexivity|]).
  intros ->. cbn [map Table.count filter List.length Z.of_nat].
  change (0 >? 0) with false. cbv iota. split; [reflexivity|].
  intros Hp. rewrite (ge_int_zero _ Hp). split; reflexivity.
Qed.

(** The progress of a training: [start_training] moves an ASSIGNED
    training to IN_PROGRESS with the time of the call and does nothing to
    any other, so that a second call changes nothing and the first start
    time stays; [mark_content_viewed] sets the flag and its time once and
    never touches the status; and a training is overdue exactly when it has
    a due date in the past and is neither PASSED nor COMPLETED. *)
Theorem training_progress (now now' : Z) (self : RemediationTraining_methods.instance) :
  let started := RemediationTraining_methods.start_training now self in
  let viewed := RemediationTraining_methods.mark_content_viewed now self in
  RemediationTraining_methods.start_training now' started = started
  /\ RemediationTraining_methods.status started <> RemediationTraining.ASSIGNED
  /\ (RemediationTraining_methods.status self <> RemediationTraining.ASSIGNED ->
      started = self)
  /\ (RemediationTraining_methods.status self = RemediationTraining.ASSIGNED ->
      RemediationTraining_methods.status started = RemediationTraining.IN_PROGRESS
      /\ RemediationTraining_methods.started_at started = Some now)
  /\ RemediationTraining_methods.mark_content_viewed now' viewed = viewed
  /\ RemediationTraining_methods.content_viewed viewed = true
  /\ RemediationTraining_methods.status viewed = RemediationTraining_methods.status self
  /\ (RemediationTraining_methods.content_viewed self = true -> viewed = self)
  /\ (RemediationTraining_methods.content_viewed self = false ->
      RemediationTraining_methods.content_viewed_at viewed = Some now)
  /\ (RemediationTraining_methods.is_overdue now self = true <->
      (exists due, RemediationTraining_methods.due_date self = Some due /\ due < now)
      /\ RemediationTraining_methods.status self <> RemediationTraining.PASSED
      /\ RemediationTraining_methods.status self <> RemediationTraining.COMPLETED).
Proof.
  cbv zeta. destruct self as [st due sa ca qa co tq cv cva ts].
  unfold RemediationTraining_methods.start_training,
    RemediationTraining_methods.mark_content_viewed,
    RemediationTraining_methods.is_overdue.
  cbn [RemediationTraining_methods.status RemediationTraining_methods.due_date
       RemediationTraining_methods.started_at RemediationTraining_methods.completed_at
       RemediationTraining_methods.quiz_attempts RemediationTraining_methods.correct_answers
       RemediationTraining_methods.total_questions
       RemediationTraining_methods.content_viewed
       RemediationTraining_methods.content_viewed_at
       RemediationTraining_methods.time_spent_seconds].
  split; [destruct st; reflexivity|].
  split; [destruct st; discriminate|].
  split; [destruct st; intros H; try reflexivity; contradiction H; reflexivity|].
  split; [intros ->; split; reflexivity|].
  split; [destruct cv; reflexivity|].
  split; [destruct cv; reflexivity|].
  split; [destruct cv; reflexivity|].
  split; [intros ->; reflexivity|].
  split; [intros ->; reflexivity|].
  destruct due as [d|].
  - destruct st; split;
      try (intros H; discriminate H);
      try (intros (_ & H1 & H2); solve [contradiction H1; reflexivity
                                       | contradiction H2; reflexivity]);
      try (intros H; apply Z.ltb_lt in H; split;
           [exists d; split; [reflexivity | exact H] | split; discriminate]);
      try (intros ((x & Hx & Hlt) & _); injection Hx as <-; apply Z.ltb_lt; exact Hlt).
  - split; [intros H; discriminate H | intros ((x & Hx & _) & _); discriminate Hx].
Qed.

(** ** The training chosen by the attack vector *)

Lemma find_bump (p : TrainingModule.t -> bool) (k : Z) (ms : list TrainingModule.t) :
  (forall m, p (TrainingModule.add_times_assigned m 1) = p m) ->
  option_map TrainingModule.id
    (find p (Table.update TrainingModule.id k
               (fun m => TrainingModule.add_times_assigned m 1) ms))
  = option_map TrainingModule.id (find p ms).
Proof.
  intros Hp. rewrite find_update by exact Hp.
  destruct (find p ms) as [m|]; [|reflexivity].
  cbn [option_map]. destruct (TrainingModule.id m =? k); reflexivity.
Qed.

Lemma relevant_module_bump (db : DB) (r : RiskScore.t) (c : SimulationCampaign.t)
    (k : Z) (rts : list RemediationTraining.t) :
  option_map TrainingModule.id
    (signals.relevant_module
       (signals.bump_times_assigned (set_remediation_trainings db rts) k) r c)
  = option_map TrainingModule.id (signals.relevant_module db r c).
Proof.
  unfold signals.relevant_module, signals.bump_times_assigned.
  cbn [training_modules set_training_modules set_remediation_trainings].
  destruct (signals.category_of _ _) as [category|]; [|reflexivity].
  match goal with
  | |- context [find ?p (Table.update _ _ _ _)] =>
    pose proof (find_bump p k (training_modules db) ltac:(reflexivity)) as H1
  end.
  match goal with
  | |- context [match find ?p (Table.update _ _ _ _) with
                | Some m => Some m
                | None => find ?q (Table.update _ _ _ _)
                end] =>
    pose proof (find_bump q k (training_modules db) ltac:(reflexivity)) as H2;
    destruct (find p (Table.update TrainingModule.id k
                        (fun m => TrainingModule.add_times_assigned m 1)
                        (training_modules db)));
    destruct (find p (training_modules db)); cbn [option_map] in *;
      try discriminate; try assumption
  end.
Qed.

(** [assign_vector_training]: nothing happens for an attack vector without
    a category and when no active module of the category is global or of
    the company.  Otherwise the employee ends with an open assignment for
    the module found: an existing open one is kept and nothing is written,
    else one ASSIGNED row is appended, due in seven days, with the reason
    AUTO_SIMULATION_FAIL and the tracking event as source.  Running it again
    changes nothing. *)
Theorem assign_vector_training_spec (now now' : Z) (db : DB) (u : User.t)
    (r : RiskScore.t) (e e' : TrackingEvent.t) (c : SimulationCampaign.t) :
  let db' := signals.assign_vector_training now db u r e c in
  (signals.category_of (SimulationCampaign.attack_vector c) signals.vector_to_category = None ->
   db' = db)
  /\ (signals.relevant_module db r c = None -> db' = db)
  /\ (forall m, signals.relevant_module db r c = Some m ->
      TrainingModule.is_active m = true
      /\ signals.category_of (SimulationCampaign.attack_vector c) signals.vector_to_category
         = Some (TrainingModule.category m)
      /\ (TrainingModule.company m = None
          \/ TrainingModule.company m = Some (RiskScore.company r))
      /\ signals.open_assignment_exists db' (User.id u) (TrainingModule.id m) = true
      /\ (signals.open_assignment_exists db (User.id u) (TrainingModule.id m) = true ->
          db' = db)
      /\ (signals.open_assignment_exists db (User.id u) (TrainingModule.id m) = false ->
          remediation_trainings db'
          = remediation_trainings db
            ++ [RemediationTraining.mk
                  (Table.next_id RemediationTraining.id (remediation_trainings db))
                  (User.id u) (RiskScore.company r) (TrainingModule.id m)
                  RemediationTraining.ASSIGNED "AUTO_SIMULATION_FAIL"
                  (Some (now + seven_days)) "TrackingEvent" (Some (TrackingEvent.id e))]))
  /\ signals.assign_vector_training now' db' u r e' c = db'.
Proof.
  cbv zeta. split; [|split; [|split]].
  - intros H. unfold signals.assign_vector_training, signals.relevant_module.
    rewrite H. reflexivity.
  - intros H. unfold signals.assign_vector_training. rewrite H. reflexivity.
  - intros m Hm.
    assert (Hprops : TrainingModule.is_active m = true
                     /\ signals.category_of (SimulationCampaign.attack_vector c)
                          signals.vector_to_category
                        = Some (TrainingModule.category m)
                     /\ (TrainingModule.company m = None
                         \/ TrainingModule.company m = Some (RiskScore.company r))).
    { unfold signals.relevant_module in Hm.
      destruct (signals.category_of _ _) as [category|]; [|discriminate].
      destruct (find _ (training_modules db)) as [m0|] eqn:F1.
      - injection Hm as ->. apply find_some in F1. destruct F1 as [_ F].
        apply andb_prop in F. destruct F as [F F3].
        apply andb_prop in F. destruct F as [F1 F2].
        apply String.eqb_eq in F2. subst category.
        split; [exact F1|]. split; [reflexivity|].
        left. destruct (TrainingModule.company m); [discriminate | reflexivity].
      - apply find_some in Hm. destruct Hm as [_ F].
        apply andb_prop in F. destruct F as [F F3].
        apply andb_prop in F. destruct F as [Fa F2].
        apply String.eqb_eq in F2. subst category.
        split; [exact Fa|]. split; [reflexivity|].
        right. destruct (TrainingModule.company m) as [x|]; [|discriminate].
        apply Z.eqb_eq in F3. subst x. reflexivity. }
    destruct Hprops as (P1 & P2 & P3).
    split; [exact P1|]. split; [exact P2|]. split; [exact P3|].
    unfold signals.assign_vector_training. rewrite Hm.
    destruct (signals.open_assignment_exists db (User.id u) (TrainingModule.id m)) eqn:E.
    + split; [exact E|]. split; [reflexivity | discriminate].
    + split; [|split; [discriminate | reflexivity]].
      unfold signals.bump_times_assigned, signals.create_assignment,
        signals.open_assignment_exists.
      cbn [remediation_trainings set_training_modules set_remediation_trainings].
      rewrite existsb_app. cbn [existsb RemediationTraining.employee
        RemediationTraining.training_module RemediationTraining.status
        RemediationTraining.is_open].
      rewrite !Z.eqb_refl. cbn [andb orb]. apply orb_true_r.
  - destruct (signals.relevant_module db r c) as [m|] eqn:Hm.
    + destruct (signals.open_assignment_exists db (User.id u) (TrainingModule.id m)) eqn:E.
      * assert (E0 : signals.assign_vector_training now db u r e c = db)
          by (unfold signals.assign_vector_training; rewrite Hm, E; reflexivity).
        rewrite E0. unfold signals.assign_vector_training. rewrite Hm, E. reflexivity.
      * assert (E0 : signals.assign_vector_training now db u r e c
                     = signals.bump_times_assigned
                         (signals.create_assignment db (User.id u) (RiskScore.company r)
                            (TrainingModule.id m) "AUTO_SIMULATION_FAIL"
                            (now + seven_days) "TrackingEvent" (TrackingEvent.id e))
                         (TrainingModule.id m))
          by (unfold signals.assign_vector_training; rewrite Hm, E; reflexivity).
        rewrite E0. clear E0. unfold signals.assign_vector_training.
        pose proof (relevant_module_bump db r c (TrainingModule.id m)
                      (remediation_trainings
                         (signals.create_assignment db (User.id u) (RiskScore.company r)
                            (TrainingModule.id m) "AUTO_SIMULATION_FAIL"
                            (now + seven_days) "TrackingEvent" (TrackingEvent.id e))))
          as Hb.
        change (signals.bump_times_assigned
                  (set_remediation_trainings db
                     (remediation_trainings
                        (signals.create_assignment db (User.id u) (RiskScore.company r)
                           (TrainingModule.id m) "AUTO_SIMULATION_FAIL"
                           (now + seven_days) "TrackingEvent" (TrackingEvent.id e))))
                  (TrainingModule.id m))
          with (signals.bump_times_assigned
                  (signals.create_assignment db (User.id u) (RiskScore.company r)
                     (TrainingModule.id m) "AUTO_SIMULATION_FAIL"
                     (now + seven_days) "TrackingEvent" (TrackingEvent.id e))
                  (TrainingModule.id m)) in Hb.
        rewrite Hm in Hb. cbn [option_map] in Hb.
        match type of Hb with
        | option_map _ ?x = _ => destruct x as [m'|]; [|discriminate]
        end.
        cbn [option_map] in Hb. injection Hb as Hb. rewrite Hb.
        assert (Hopen : signals.open_assignment_exists
                          (signals.bump_times_assigned
                             (signals.create_assignment db (User.id u) (RiskScore.company r)
                                (TrainingModule.id m) "AUTO_SIMULATION_FAIL"
                                (now + seven_days) "TrackingEvent" (TrackingEvent.id e))
                             (TrainingModule.id m))
                          (User.id u) (TrainingModule.id m) = true).
        { unfold signals.bump_times_assigned, signals.create_assignment,
            signals.open_assignment_exists.
          cbn [remediation_trainings set_training_modules set_remediation_trainings].
          rewrite existsb_app. cbn [existsb RemediationTraining.employee
            RemediationTraining.training_module RemediationTraining.status
            RemediationTraining.is_open].
          rewrite !Z.eqb_refl. cbn [andb orb]. apply orb_true_r. }
        rewrite Hopen. reflexivity.
    + assert (E0 : signals.assign_vector_training now db u r e c = db)
        by (unfold signals.assign_vector_training; rewrite Hm; reflexivity).
      rewrite E0. unfold signals.assign_vector_training. rewrite Hm. reflexivity.
Qed.
